(** * netgear-admin: a shallow embedding of [netgear-admin.py]

    The script logs into a router's web interface through a Selenium
    webdriver and reboots the device or switches scheduled service
    blocking on or off.  This development embeds the script as functions
    in a state / exception / event-log monad over an abstract webdriver,
    and checks the statements of the specification against it. *)

From Stdlib Require Import ZArith List Bool Lia Ascii String.
From Stdlib Require Import SpecFloat.
From stdpp Require Import base gmap strings list.

Open Scope Z_scope.
Open Scope string_scope.
Open Scope list_scope.

(** ** Python values *)

Module Py.

(** The values the script handles: what [argparse] stores in the
  namespace, what [parse_qs] returns and what [json.load] builds. *)
#[warnings="-register-all"]
Inductive pyval : Type :=
| VNone
| VBool (b : bool)
| VInt (n : Z)
| VFloat (f : spec_float)
| VStr (s : string)
| VList (l : list pyval)
| VDict (d : gmap string pyval).

(** Python truth value testing, as used by [if value:]. *)
Definition truthy (v : pyval) : bool :=
match v with
| VNone => false
| VBool b => b
| VInt n => negb (n =? 0)%Z
| VFloat (S754_zero _) => false
| VFloat _ => true
| VStr s => negb (String.eqb s EmptyString)
| VList l => match l with [] => false | _ => true end
| VDict d => negb (bool_decide (d = ∅))
end.

(** [v == s] for a string literal [s]. *)
Definition eq_str (v : pyval) (s : string) : bool :=
match v with
| VStr t => String.eqb t s
| _ => false
end.

(** [needle in hay] on strings: substring test. *)
Fixpoint is_substring (needle hay : string) : bool :=
String.prefix needle hay ||
match hay with
| EmptyString => false
| String _ hay' => is_substring needle hay'
end.

End Py.

Import Py.

(** ** Results and exceptions *)

(** The argument of [SystemExit]. *)
Inductive exit_arg : Type :=
  | ExitNone
  | ExitInt (n : Z)
  | ExitMsg (msg : string).

(** Exceptions raised by the webdriver; all of them derive from
    [WebDriverException], hence from [Exception]. *)
Inductive wd_exn : Type :=
  | NoSuchElementException
  | TimeoutException
  | NoAlertPresentException
  | OtherWebDriverException (msg : string).

(** Python exceptions the script raises or lets through. *)
Inductive exn : Type :=
  | SystemExit (code : exit_arg)
  | RuntimeError (msg : string)
  | NameError (name : string)
  | UnboundLocalError (name : string)
  | TypeError (msg : string)
  | FileNotFoundError (path : string)
  | JSONDecodeError
  | WebDriverException (e : wd_exn).

(** [isinstance(e, Exception)]: [SystemExit] derives from
    [BaseException] only. *)
Definition is_Exception (e : exn) : bool :=
  match e with
  | SystemExit _ => false
  | _ => true
  end.

Inductive res (E A : Type) : Type :=
  | Ok (a : A)
  | Raise (e : E).
Arguments Ok {E A} a.
Arguments Raise {E A} e.

Definition is_ok {E A} (r : res E A) : bool :=
  match r with Ok _ => true | Raise _ => false end.

(** ** Configuration lookup *)

Definition CONFIG_FILE : string := "config.json".
Definition ACTION_REBOOT : string := "reboot".
Definition ACTION_BLOCK : string := "block".
Definition ACTION_UNBLOCK : string := "unblock".

(** The namespace built by [parse_args]: [-v] is counted, [-b] has a
    default, the other four options are [None] unless given. *)
Record Namespace : Type := {
  verbose : Z;
  browser_name : string;
  router_ip : option string;
  username : option string;
  password : option string;
  action : option string
}.

Definition of_opt (o : option string) : pyval :=
  match o with
  | None => VNone
  | Some s => VStr s
  end.

(** [vars(args)] *)
Definition vars (args : Namespace) : gmap string pyval :=
  <["verbose" := VInt (verbose args)]>
  (<["browser_name" := VStr (browser_name args)]>
  (<["router_ip" := of_opt (router_ip args)]>
  (<["username" := of_opt (username args)]>
  (<["password" := of_opt (password args)]>
  (<["action" := of_opt (action args)]> ∅))))).

(** [name in config] followed by [config[name]] for whatever
    [json.load] returned. *)
Definition config_lookup (config : pyval) (name : string)
  : res exn (option pyval) :=
  match config with
  | VDict d => Ok (d !! name)
  | VList l =>
      if existsb (fun v => eq_str v name) l
      then Raise (TypeError "list indices must be integers or slices, not str")
      else Ok None
  | VStr s =>
      if is_substring name s
      then Raise (TypeError "string indices must be integers")
      else Ok None
  | _ => Raise (TypeError "argument is not iterable")
  end.

Section Config.

(** [dict(parse_qs(qs))] of the standard library: every key of the
    query string with the list of its values. *)
Variable parse_qs : string -> gmap string (list string).

(** [os.environ] and the outcome of [json.load(open(CONFIG_FILE))]. *)
Variable environ : gmap string string.
Variable config_file : res exn pyval.

(** [getConfigValue] has three stages that share the local variable
    [value]; it is unbound ([None] here) until a stage assigns it. *)

(** [# if not found look in config] and [# fallback to default] *)
Definition config_stage (value : option pyval) (name : string)
    (default : pyval) : res exn pyval :=
  match config_file with
  | Raise e => Raise e
  | Ok config =>
      match config_lookup config name with
      | Raise e => Raise e
      | Ok found =>
          match (match found with Some v => Some v | None => value end) with
          | None => Raise (UnboundLocalError "value")
          | Some v => Ok (if truthy v then v else default)
          end
      end
  end.

(** [# check query string] *)
Definition query_stage (value : option pyval) (name : string)
    (default : pyval) : res exn pyval :=
  match environ !! "QUERY_STRING" with
  | Some qs =>
      match parse_qs qs !! name with
      | Some l =>
          let v := VList (VStr <$> l) in
          if truthy v then Ok v else config_stage (Some v) name default
      | None => config_stage value name default
      end
  | None => config_stage value name default
  end.

(** [# check args] *)
Definition getConfigValue (args : Namespace) (name : string)
    (default : pyval) : res exn pyval :=
  match vars args !! name with
  | Some v =>
      if truthy v then Ok v else query_stage (Some v) name default
  | None => query_stage None name default
  end.

End Config.

(** ** The webdriver and the event log *)

(** A handle on a [WebElement]. *)
Definition elem : Type := nat.

(** [template.format(ip, username, password)], kept unevaluated: the
    arguments may be any value the configuration lookup returned. *)
Record formatted : Type := Format {
  template : string;
  format_args : list pyval
}.

(** Selenium's [By]. *)
Inductive locator : Type := ByXpath | ByName | ById.

Definition locator_eqb (a b : locator) : bool :=
  match a, b with
  | ByXpath, ByXpath | ByName, ByName | ById, ById => true
  | _, _ => false
  end.

Inductive browser_kind : Type :=
  | Firefox | Chrome | ChromeHeadless | PhantomJS.

Inductive level : Type := DEBUG | INFO | WARNING | ERROR | CRITICAL.

(** Where a screenshot goes, relative to [os.getcwd()]. *)
Inductive shot_file : Type :=
  | ShotNumbered (n : Z)
  | ShotFail
  | ShotPath (fname : string).

(** The webdriver operations the script uses.  [B] is the state of the
    browser, the router behind it included; every operation may change
    it and may raise.  [wait_url_not_blank t] and [wait_ready t] stand
    for [WebDriverWait(browser, t).until(...)] with the two conditions
    of the script: they return within [t] seconds or raise.  The polls
    a wait makes, of [browser.current_url] or of the ready state, are
    part of the wait; [current_url] is the read that [do_screenshot]
    logs. *)
Class WebDriver (B : Type) : Type := {
  new_session : browser_kind -> B -> res wd_exn unit * B;
  set_window_size : Z -> Z -> B -> res wd_exn unit * B;
  navigate : formatted -> B -> res wd_exn unit * B;
  wait_url_not_blank : Z -> B -> res wd_exn unit * B;
  wait_ready : Z -> B -> res wd_exn unit * B;
  page_source : B -> res wd_exn string * B;
  current_url : B -> res wd_exn string * B;
  title : B -> res wd_exn string * B;
  execute_script : string -> B -> res wd_exn string * B;
  get_screenshot_as_file : shot_file -> B -> res wd_exn unit * B;
  find_element : locator -> string -> B -> res wd_exn elem * B;
  find_elements : locator -> string -> B -> res wd_exn (list elem) * B;
  click : elem -> B -> res wd_exn unit * B;
  get_attribute : elem -> string -> B -> res wd_exn (option string) * B;
  switch_to_alert : B -> res wd_exn unit * B;
  alert_accept : B -> res wd_exn unit * B;
  quit : B -> res wd_exn unit * B
}.

(** What a run does, in order: every webdriver call with its reply,
    every logging call, every sleep and every line printed. *)
Inductive event : Type :=
  | EvNew (k : browser_kind) (r : res wd_exn unit)
  | EvWindow (w h : Z) (r : res wd_exn unit)
  | EvGet (url : formatted) (r : res wd_exn unit)
  | EvWaitUrl (timeout : Z) (r : res wd_exn unit)
  | EvWaitReady (timeout : Z) (r : res wd_exn unit)
  | EvSource (r : res wd_exn string)
  | EvUrl (r : res wd_exn string)
  | EvTitle (r : res wd_exn string)
  | EvScript (code : string) (r : res wd_exn string)
  | EvShot (f : shot_file) (r : res wd_exn unit)
  | EvFind (b : locator) (sel : string) (r : res wd_exn elem)
  | EvFindAll (b : locator) (sel : string) (r : res wd_exn (list elem))
  | EvClick (e : elem) (r : res wd_exn unit)
  | EvAttr (e : elem) (name : string) (r : res wd_exn (option string))
  | EvAlert (r : res wd_exn unit)
  | EvAccept (r : res wd_exn unit)
  | EvQuit (r : res wd_exn unit)
  | EvLog (lvl : level) (msg : string)
  | EvLogLevel (lvl : level)
  | EvSleep (seconds : Z)
  | EvPrint (line : string).

(** ** The monad of the script *)

Section Script.

Context {B : Type} `{WebDriver B}.

(** The mutable state: the browser, [os.environ], and the two
    attributes of the [NetgearAdmin] object that change
    ([browser] is [None] or the session; [_screenshot_num]). *)
Record state : Type := State {
  drv : B;
  os_environ : gmap string string;
  browser : bool;
  _screenshot_num : Z
}.

Record reply (A : Type) : Type := Reply {
  out : res exn A;
  post : state;
  evs : list event
}.
Arguments Reply {A} out post evs.
Arguments out {A} r.
Arguments post {A} r.
Arguments evs {A} r.

Definition M (A : Type) : Type := state -> reply A.

Definition ret {A} (a : A) : M A := fun s => Reply (Ok a) s [].

Definition raise {A} (e : exn) : M A := fun s => Reply (Raise e) s [].

Definition bind {A C} (m : M A) (k : A -> M C) : M C := fun s =>
  match m s with
  | Reply (Ok a) s1 t1 =>
      match k a s1 with
      | Reply o s2 t2 => Reply o s2 (t1 ++ t2)
      end
  | Reply (Raise e) s1 t1 => Reply (Raise e) s1 t1
  end.

(** [try: m except <class>: h], the class given by [catches]. *)
Definition try_except {A} (m : M A) (catches : exn -> bool)
    (h : exn -> M A) : M A := fun s =>
  match m s with
  | Reply (Ok a) s1 t1 => Reply (Ok a) s1 t1
  | Reply (Raise e) s1 t1 =>
      if catches e then
        match h e s1 with
        | Reply o s2 t2 => Reply o s2 (t1 ++ t2)
        end
      else Reply (Raise e) s1 t1
  end.

Definition emit (ev : event) : M unit := fun s => Reply (Ok tt) s [ev].

(** A webdriver call: the reply is logged, an exception of the
    driver becomes a Python exception. *)
Definition call {X} (op : B -> res wd_exn X * B)
    (ev : res wd_exn X -> event) : M X := fun s =>
  match op (drv s) with
  | (r, b) =>
      Reply
        (match r with
         | Ok x => Ok x
         | Raise e => Raise (WebDriverException e)
         end)
        (State b (os_environ s) (browser s) (_screenshot_num s))
        [ev r]
  end.

Definition gets {A} (f : state -> A) : M A := fun s => Reply (Ok (f s)) s [].

Definition modify (f : state -> state) : M unit :=
  fun s => Reply (Ok tt) (f s) [].

End Script.

Arguments state B : clear implicits.
Arguments reply B A : clear implicits.
Arguments M B A : clear implicits.
Arguments Reply {B A} out post evs.
Arguments out {B A} r.
Arguments post {B A} r.
Arguments evs {B A} r.
Arguments State {B} drv os_environ browser _screenshot_num.

Declare Scope script_scope.
Delimit Scope script_scope with script.
Notation "x <- m ;; k" := (bind m (fun x => k))
  (at level 100, m at next level, right associativity) : script_scope.
Notation "m ;; k" := (bind m (fun _ => k))
  (at level 100, right associativity) : script_scope.
Open Scope script_scope.

(** ** class NetgearAdmin *)

Module NetgearAdmin.

Definition START_URL : string := "http://{1}:{2}@{0}/".
Definition HOME_URL : string := "http://{1}:{2}@{0}/ADVANCED_home1.htm".
Definition BLOCK_URL : string := "http://{1}:{2}@{0}/BKS_service.htm".

(** The attributes [__init__] sets and nothing changes afterwards.
    [_screenshot] is the [debug] argument. *)
Record t : Type := {
  ip : pyval;
  username : pyval;
  password : pyval;
  action : pyval;
  browser_name : string;
  _screenshot : bool
}.

Section Methods.

Context {B : Type} `{WebDriver B}.
Variable self : t.

Definition dquote : string := String (Ascii.ascii_of_nat 34) EmptyString.

Definition log (lvl : level) (msg : string) : M B unit :=
  emit (EvLog lvl msg).

(** [time.sleep] *)
Definition sleep (seconds : Z) : M B unit := emit (EvSleep seconds).

Definition do_screenshot : M B unit :=
  if negb (_screenshot self) then ret tt
  else
    n <- gets _screenshot_num;;
    call (get_screenshot_as_file (ShotNumbered n)) (EvShot (ShotNumbered n));;
    call current_url EvUrl;;
    log DEBUG "Screenshot: {f} of: {s}";;
    modify (fun s => State (drv s) (os_environ s) (browser s)
                           (_screenshot_num s + 1)).

(** The script never imports [codecs]: the lookup of that name at
    [codecs.open] raises, after the screenshot, the two error
    records and the script call. *)
Definition error_screenshot (fname : option string) : M B unit :=
  let f := match fname with None => ShotFail | Some p => ShotPath p end in
  call (get_screenshot_as_file f) (EvShot f);;
  log ERROR "Screenshot saved to: {s}";;
  call title EvTitle;;
  log ERROR "Page title: %s";;
  let code := "return document.getElementsByTagName('html')[0].innerHTML" in
  call (execute_script code) (EvScript code);;
  raise (NameError "codecs").

(** The [for x in range(0, 5): ... else: ...] of [get]. *)
Fixpoint get_retry (url : formatted) (xs : list nat) : M B unit :=
  match xs with
  | [] =>
      error_screenshot None;;
      raise (RuntimeError "GET %s failed")
  | _ :: xs' =>
      waited <- try_except
                  (call (wait_url_not_blank 15) (EvWaitUrl 15);; ret true)
                  is_Exception
                  (fun _ => log WARNING "GET %s failed; trying again";;
                            ret false);;
      if waited : bool then ret tt
      else
        call (navigate url) (EvGet url);;
        sleep 2;;
        get_retry url xs'
  end.

Definition get (url : string) : M B unit :=
  let url := Format url [ip self; username self; password self] in
  log INFO "GET %s";;
  call (navigate url) (EvGet url);;
  get_retry url (seq 0 5).

Definition wait_for_ajax_load (timeout : Z) : M B bool :=
  call (wait_ready timeout) (EvWaitReady timeout);;
  ret true.

(** The [while] of [wait_for_page_load]; [left] is [21 - count]. *)
Fixpoint wait_for_source (left : nat) : M B unit :=
  src <- call page_source EvSource;;
  if (Z.of_nat (String.length src) <? 30)%Z then
    match left with
    | O =>
        error_screenshot None;;
        raise (RuntimeError
          "Waited 20s for page source to be more than 30 bytes, but still too small...")
    | S left' =>
        call page_source EvSource;;
        log DEBUG "Page source is only %d bytes; sleeping";;
        sleep 1;;
        wait_for_source left'
    end
  else ret tt.

Definition wait_for_page_load (timeout : Z) : M B unit :=
  wait_for_ajax_load timeout;;
  wait_for_source 21.

Definition get_start_page : M B unit :=
  get START_URL;;
  wait_for_page_load 20;;
  do_screenshot.

Definition get_home_page : M B unit :=
  get HOME_URL;;
  wait_for_page_load 20;;
  do_screenshot.

Definition get_block_page : M B unit :=
  get BLOCK_URL;;
  wait_for_page_load 20;;
  do_screenshot.

Definition check_login : M B bool :=
  try_except
    (let xpath := "//form[starts-with(@action, 'multi_login.cgi')]" in
     call (find_element ByXpath xpath) (EvFind ByXpath xpath);;
     log INFO "Multi login warning screen detected";;
     yes <- call (find_element ByName "yes") (EvFind ByName "yes");;
     call (click yes) (EvClick yes);;
     wait_for_page_load 20;;
     do_screenshot)
    (fun _ => true)
    (fun _ => log DEBUG "No Multi login warning screen detected");;
  try_except
    (call (find_element ByName "logout") (EvFind ByName "logout");;
     ret true)
    (fun _ => true)
    (fun _ => log DEBUG "Logout button not found";; ret false).

Definition reboot : M B unit :=
  button <- call (find_element ById "reboot") (EvFind ById "reboot");;
  call (click button) (EvClick button);;
  sleep 1;;
  call switch_to_alert EvAlert;;
  call alert_accept EvAccept.

(** The [for radio in radios] of [block_services]. *)
Fixpoint block_services_loop (value : bool) (apply : elem)
    (radios : list elem) : M B bool :=
  match radios with
  | [] => ret false
  | radio :: radios' =>
      attr <- call (get_attribute radio "value") (EvAttr radio "value");;
      if (value && bool_decide (attr = Some "perschedule"))
         || (negb value && bool_decide (attr = Some "never"))
      then
        log INFO ("Clicking " +:+ dquote +:+ "{0}" +:+ dquote +:+ " block option");;
        call (click radio) (EvClick radio);;
        do_screenshot;;
        log INFO "Applying block option";;
        call (click apply) (EvClick apply);;
        sleep 1;;
        wait_for_page_load 20;;
        do_screenshot;;
        ret true
      else block_services_loop value apply radios'
  end.

Definition block_services (value : bool) : M B bool :=
  apply <- call (find_element ByName "apply") (EvFind ByName "apply");;
  radios <- call (find_elements ByName "skeyword")
                 (EvFindAll ByName "skeyword");;
  block_services_loop value apply radios.

Definition get_browser : M B unit :=
  (if String.eqb (browser_name self) "firefox" then
     log DEBUG "getting Firefox browser (local)";;
     env <- gets os_environ;;
     (if bool_decide (env !! "DISPLAY" = None) then
        log DEBUG "exporting DISPLAY=:0";;
        modify (fun s => State (drv s) (<["DISPLAY" := ":0"]> (os_environ s))
                               (browser s) (_screenshot_num s))
      else ret tt);;
     call (new_session Firefox) (EvNew Firefox)
   else if String.eqb (browser_name self) "chrome" then
     log DEBUG "getting Chrome browser (local)";;
     call (new_session Chrome) (EvNew Chrome)
   else if String.eqb (browser_name self) "chrome-headless" then
     log DEBUG "getting Chrome browser (local) with --headless";;
     call (new_session ChromeHeadless) (EvNew ChromeHeadless)
   else if String.eqb (browser_name self) "phantomjs" then
     log DEBUG "getting PhantomJS browser (local)";;
     call (new_session PhantomJS) (EvNew PhantomJS)
   else
     raise (SystemExit (ExitMsg
       "ERROR: browser type must be one of 'firefox', 'chrome', 'phantomjs', or 'chrome-headless' not '{b}'")));;
  call (set_window_size 1024 768) (EvWindow 1024 768);;
  log DEBUG "returning browser".

(** [self.browser.quit()] *)
Definition browser_quit : M B unit := call quit EvQuit.

(** The body of the [try] in [run]. *)
Definition run_body : M B unit :=
  get_browser;;
  modify (fun s => State (drv s) (os_environ s) true (_screenshot_num s));;
  get_start_page;;
  logged_in <- check_login;;
  (if negb logged_in then
     log CRITICAL "Login failed";;
     browser_quit;;
     raise (SystemExit (ExitInt 1))
   else ret tt);;
  (if eq_str (action self) ACTION_REBOOT then
     get_home_page;;
     reboot
   else ret tt);;
  (if eq_str (action self) ACTION_BLOCK
      || eq_str (action self) ACTION_UNBLOCK then
     get_block_page;;
     block_services (eq_str (action self) ACTION_BLOCK);;
     ret tt
   else ret tt);;
  browser_quit.

Definition run : M B unit :=
  log DEBUG "Getting page...";;
  try_except run_body is_Exception
    (fun e =>
       has_browser <- gets browser;;
       (if has_browser : bool then browser_quit else ret tt);;
       raise e).

End Methods.

(** [NetgearAdmin(ip, username, password, action, debug, browser_name)] *)
Definition __init__ {B : Type} `{WebDriver B}
    (ip username password action : pyval) (debug : bool)
    (browser_name : string) : M B t :=
  log DEBUG "Getting browser instance...";;
  modify (fun s => State (drv s) (os_environ s) false 1);;
  ret {| ip := ip; username := username; password := password;
         action := action; browser_name := browser_name;
         _screenshot := debug |}.

End NetgearAdmin.

(** ** main *)

Section Main.

Context {B : Type} `{WebDriver B}.

Variable parse_qs : string -> gmap string (list string).
Variable config_file : res exn pyval.

Definition lift {A} (r : res exn A) : M B A :=
  match r with
  | Ok a => ret a
  | Raise e => raise e
  end.

Definition set_log_debug : M B unit := emit (EvLogLevel DEBUG).

Definition MSG_REQUIRED : string :=
  "ERROR: you need to specify router IP, username and password through command line arguments or config.json".
Definition MSG_ACTION : string :=
  "ERROR: you need to specify at least one action to perform".

(** [main], from the namespace [parse_args(sys.argv[1:])] returned. *)
Definition main (args : Namespace) : M B unit :=
  let args_action := of_opt (action args) in
  env <- gets os_environ;;
  let isCgi := bool_decide (is_Some (env !! "GATEWAY_INTERFACE")) in
  debug <- (if (verbose args >? 0)%Z then set_log_debug;; ret true
            else ret false);;
  action <- lift (getConfigValue parse_qs env config_file args "action" (VBool false));;
  router_ip <- lift (getConfigValue parse_qs env config_file args "router_ip" (VBool false));;
  username <- lift (getConfigValue parse_qs env config_file args "username" (VStr "admin"));;
  password <- lift (getConfigValue parse_qs env config_file args "password" (VBool false));;
  (if negb (truthy router_ip) || negb (truthy username) || negb (truthy password)
   then NetgearAdmin.log CRITICAL MSG_REQUIRED;;
        raise (SystemExit (ExitMsg MSG_REQUIRED))
   else ret tt);;
  (if negb (truthy action)
   then NetgearAdmin.log CRITICAL MSG_ACTION;;
        raise (SystemExit (ExitMsg MSG_ACTION))
   else ret tt);;
  script <- NetgearAdmin.__init__ router_ip username password
              args_action debug (browser_name args);;
  NetgearAdmin.run script;;
  (if isCgi then
     emit (EvPrint "Status: 200 OK");;
     emit (EvPrint "Location: index.html");;
     emit (EvPrint EmptyString)
   else ret tt).

End Main.

(** The status the interpreter exits with: 0 when [main] returns, the
    code of a [SystemExit] carrying an integer, 1 for a [SystemExit]
    carrying a message and for any other uncaught exception. *)
Definition exit_status {A} (o : res exn A) : Z :=
  match o with
  | Ok _ => 0
  | Raise (SystemExit ExitNone) => 0
  | Raise (SystemExit (ExitInt n)) => Z.land n 255
  | Raise (SystemExit (ExitMsg _)) => 1
  | Raise _ => 1
  end.

(** ** Reading the event log *)

Module Trace.

Definition is_raise {E A} (r : res E A) : bool := negb (is_ok r).

Definition is_critical (ev : event) : bool :=
  match ev with EvLog CRITICAL _ => true | _ => false end.

Definition is_warning (ev : event) : bool :=
  match ev with EvLog WARNING _ => true | _ => false end.

(** A record of level [ERROR] or above. *)
Definition is_error_log (ev : event) : bool :=
  match ev with
  | EvLog ERROR _ | EvLog CRITICAL _ => true
  | _ => false
  end.

Definition is_new (ev : event) : bool :=
  match ev with EvNew _ _ => true | _ => false end.

(** The webdriver was constructed. *)
Definition session_created (ev : event) : bool :=
  match ev with EvNew _ (Ok _) => true | _ => false end.

(** [get_browser] returned: its last webdriver call succeeded. *)
Definition session_ready (ev : event) : bool :=
  match ev with EvWindow _ _ (Ok _) => true | _ => false end.

Definition is_quit (ev : event) : bool :=
  match ev with EvQuit _ => true | _ => false end.

Definition is_get (ev : event) : bool :=
  match ev with EvGet _ _ => true | _ => false end.

(** [browser.get] of the URL built from template [tpl]. *)
Definition fetches (tpl : string) (ev : event) : bool :=
  match ev with
  | EvGet url _ => String.eqb (template url) tpl
  | _ => false
  end.

Definition fetched (tpl : string) (ev : event) : bool :=
  match ev with
  | EvGet url (Ok _) => String.eqb (template url) tpl
  | _ => false
  end.

Definition page_waited (ev : event) : bool :=
  match ev with EvWaitReady _ (Ok _) => true | _ => false end.

Definition finds (b : locator) (sel : string) (ev : event) : bool :=
  match ev with
  | EvFind b' sel' _ =>
      locator_eqb b' b && String.eqb sel' sel
  | _ => false
  end.

(** The login indicator was looked up, and found or not. *)
Definition login_probe (ev : event) : bool := finds ByName "logout" ev.

Definition login_confirmed (ev : event) : bool :=
  match ev with
  | EvFind ByName sel (Ok _) => String.eqb sel "logout"
  | _ => false
  end.

Definition login_refused (ev : event) : bool :=
  match ev with
  | EvFind ByName sel (Raise _) => String.eqb sel "logout"
  | _ => false
  end.

Definition is_click (ev : event) : bool :=
  match ev with EvClick _ _ => true | _ => false end.

(** A step of one of the three actions: fetching the home or the
    block page, looking up one of their elements, reading a radio,
    handling the alert. *)
Definition action_step (ev : event) : bool :=
  match ev with
  | EvGet url _ =>
      String.eqb (template url) NetgearAdmin.HOME_URL
      || String.eqb (template url) NetgearAdmin.BLOCK_URL
  | EvFind ById _ _ => true
  | EvFind ByName sel _ => String.eqb sel "apply"
  | EvFindAll _ _ _ => true
  | EvAttr _ _ _ => true
  | EvAlert _ => true
  | EvAccept _ => true
  | _ => false
  end.

(** The elements clicked, in order. *)
Fixpoint clicks (tr : list event) : list elem :=
  match tr with
  | [] => []
  | EvClick e _ :: tr' => e :: clicks tr'
  | _ :: tr' => clicks tr'
  end.

(** The log from the first event satisfying [P] on, that event
    excluded. *)
Fixpoint after (P : event -> bool) (tr : list event) : list event :=
  match tr with
  | [] => []
  | ev :: tr' => if P ev then tr' else after P tr'
  end.

(** A cooperative browser: every call succeeds, except possibly the
    lookup of the multi-login form, and every page source read has
    30 characters or more. *)
Definition coop (ev : event) : bool :=
  match ev with
  | EvNew _ r | EvWindow _ _ r | EvGet _ r | EvWaitUrl _ r
  | EvWaitReady _ r | EvShot _ r | EvClick _ r | EvAlert r
  | EvAccept r | EvQuit r => is_ok r
  | EvSource r =>
      match r with
      | Ok src => (30 <=? Z.of_nat (String.length src))%Z
      | Raise _ => false
      end
  | EvUrl r | EvTitle r | EvScript _ r => is_ok r
  | EvFind ByXpath _ _ => true
  | EvFind _ _ r => is_ok r
  | EvFindAll _ _ r => is_ok r
  | EvAttr _ _ r => is_ok r
  | EvLog _ _ | EvLogLevel _ | EvSleep _ | EvPrint _ => true
  end.

Definition cooperative (tr : list event) : bool := forallb coop tr.

(** The [value] attributes read off the radios, in order. *)
Fixpoint probes (tr : list event) : list (elem * option string) :=
  match tr with
  | [] => []
  | EvAttr e name (Ok a) :: tr' =>
      if String.eqb name "value" then (e, a) :: probes tr' else probes tr'
  | _ :: tr' => probes tr'
  end.

(** Number of URL waits that failed since the last one that
    succeeded, starting from [n]. *)
Fixpoint failed_waits (n : nat) (tr : list event) : nat :=
  match tr with
  | [] => n
  | EvWaitUrl _ (Ok _) :: tr' => failed_waits 0 tr'
  | EvWaitUrl _ (Raise _) :: tr' => failed_waits (S n) tr'
  | _ :: tr' => failed_waits n tr'
  end.

(** A navigation used up its five waits. *)
Definition gave_up (tr : list event) : bool :=
  (5 <=? failed_waits 0 tr)%nat.

(** Every event satisfying [Q] comes after one satisfying [P]:
    [seen] tells whether [P] already occurred. *)
Fixpoint guarded (P Q : event -> bool) (seen : bool)
    (tr : list event) : bool :=
  match tr with
  | [] => true
  | ev :: tr' => implb (Q ev) seen && guarded P Q (seen || P ev) tr'
  end.

Definition preceded (P Q : event -> bool) (tr : list event) : Prop :=
  forall pre ev post,
    tr = pre ++ ev :: post -> Q ev = true -> existsb P pre = true.

(** Kinds of events, by the part of the script that emits them. *)

(** Waiting, looking at the page, logging below [CRITICAL]. *)
Definition quiet (ev : event) : bool :=
  match ev with
  | EvLog CRITICAL _ => false
  | EvLog _ _ | EvSleep _ | EvWaitReady _ _ | EvSource _ | EvUrl _
  | EvTitle _ | EvScript _ _ | EvShot _ _ => true
  | _ => false
  end.

(** Fetching the page of template [tpl]. *)
Definition nav (tpl : string) (ev : event) : bool :=
  match ev with
  | EvGet url _ => String.eqb (template url) tpl
  | EvWaitUrl _ _ => true
  | _ => quiet ev
  end.

(** Starting the browser. *)
Definition setup (ev : event) : bool :=
  match ev with
  | EvLog DEBUG _ | EvNew _ _ | EvWindow _ _ _ => true
  | _ => false
  end.

(** Checking the login, the multi-login warning included. *)
Definition login_step (ev : event) : bool :=
  match ev with
  | EvFind ByXpath _ _ => true
  | EvFind ByName sel _ => String.eqb sel "yes" || String.eqb sel "logout"
  | EvClick _ _ => true
  | _ => quiet ev
  end.

(** Performing an action. *)
Definition acting (ev : event) : bool :=
  match ev with
  | EvFind ById sel _ => String.eqb sel "reboot"
  | EvFind ByName sel _ => String.eqb sel "apply"
  | EvFindAll ByName sel _ => String.eqb sel "skeyword"
  | EvAttr _ _ _ | EvClick _ _ | EvAlert _ | EvAccept _ => true
  | _ => nav NetgearAdmin.HOME_URL ev || nav NetgearAdmin.BLOCK_URL ev
  end.

Definition is_wait_url (ev : event) : bool :=
  match ev with EvWaitUrl _ _ => true | _ => false end.

Definition is_print (ev : event) : bool :=
  match ev with EvPrint _ => true | _ => false end.

(** What [main] emits when it stops before [run]. *)
Definition prelude (ev : event) : bool :=
  match ev with
  | EvLogLevel _ | EvLog _ _ => true
  | _ => false
  end.

(** What [main] emits before [run] when it gets there. *)
Definition startup (ev : event) : bool :=
  match ev with
  | EvLogLevel _ | EvLog DEBUG _ => true
  | _ => false
  end.

(** The number of events satisfying [P]. *)
Definition count (P : event -> bool) (tr : list event) : nat :=
  length (List.filter P tr).

(** A lookup of the [yes] button of the multi-login warning that
    succeeded, or the login indicator found. *)
Definition yes_or_confirmed (ev : event) : bool :=
  match ev with
  | EvFind ByName sel (Ok _) => String.eqb sel "yes" || String.eqb sel "logout"
  | _ => false
  end.

End Trace.

(** ** A scripted router, to run the script on *)

Module Mock.

(** What the router shows and how the browser behaves. *)
Record t : Type := {
  blank_waits : nat;        (* URL waits that still time out *)
  window_fails : bool;      (* [set_window_size] raises *)
  multi_login : bool;       (* the multi-login warning is shown *)
  logged_in : bool;         (* the logout button is there *)
  radios : list (elem * string);   (* [skeyword] radios and values *)
  source : string           (* the page source *)
}.

Definition no_such {A} (b : t) : res wd_exn A * t :=
  (Raise NoSuchElementException, b).

Definition find (by_ : locator) (sel : string) (b : t)
  : res wd_exn elem * t :=
  match by_ with
  | ByXpath => if multi_login b then (Ok 1%nat, b) else no_such b
  | ByName =>
      if String.eqb sel "yes" then
        if multi_login b then (Ok 2%nat, b) else no_such b
      else if String.eqb sel "logout" then
        if logged_in b then (Ok 3%nat, b) else no_such b
      else if String.eqb sel "apply" then (Ok 4%nat, b)
      else no_such b
  | ById => if String.eqb sel "reboot" then (Ok 5%nat, b) else no_such b
  end.

Definition wait_url (b : t) : res wd_exn unit * t :=
  match blank_waits b with
  | O => (Ok tt, b)
  | S n =>
      (Raise TimeoutException,
       {| blank_waits := n; window_fails := window_fails b;
          multi_login := multi_login b; logged_in := logged_in b;
          radios := radios b; source := source b |})
  end.

Definition attribute (e : elem) (b : t) : option string :=
  snd <$> List.find (fun p => Nat.eqb (fst p) e) (radios b).

#[export] Instance driver : WebDriver t := {|
  new_session _ b := (Ok tt, b);
  set_window_size _ _ b :=
    if window_fails b
    then (Raise (OtherWebDriverException "cannot resize"), b)
    else (Ok tt, b);
  navigate _ b := (Ok tt, b);
  wait_url_not_blank _ b := wait_url b;
  wait_ready _ b := (Ok tt, b);
  page_source b := (Ok (source b), b);
  current_url b := (Ok "http://192.168.1.1/", b);
  title b := (Ok "NETGEAR Router", b);
  execute_script _ b := (Ok (source b), b);
  get_screenshot_as_file _ b := (Ok tt, b);
  find_element := find;
  find_elements by_ sel b :=
    if String.eqb sel "skeyword" then (Ok (fst <$> radios b), b)
    else (Ok [], b);
  click _ b := (Ok tt, b);
  get_attribute e _ b := (Ok (attribute e b), b);
  switch_to_alert b := (Ok tt, b);
  alert_accept b := (Ok tt, b);
  quit b := (Ok tt, b)
|}.

Definition page : string :=
  "<html><head><title>NETGEAR Router</title></head><body></body></html>".

(** A router that works: logged in straight away, the two radios of
    the block page present. *)
Definition router : t := {|
  blank_waits := 0; window_fails := false; multi_login := false;
  logged_in := true;
  radios := [(10%nat, "never"); (11%nat, "perschedule"); (12%nat, "always")];
  source := page
|}.

Definition start (b : t) : state t :=
  State b ∅ false 1.

End Mock.

(** A stand-in for [parse_qs] on query strings without percent
    escapes and [+]: fields are separated by [&], a field is split at
    its first [=], fields with an empty value are dropped. *)
Module PlainQuery.

Fixpoint split_at (c : Ascii.ascii) (s : string) : option (string * string) :=
  match s with
  | EmptyString => None
  | String a s' =>
      if Ascii.eqb a c then Some (EmptyString, s')
      else
        match split_at c s' with
        | Some (l, r) => Some (String a l, r)
        | None => None
        end
  end.

Fixpoint fields (fuel : nat) (s : string) : list string :=
  match fuel with
  | O => [s]
  | S fuel' =>
      match split_at "&"%char s with
      | Some (l, r) => l :: fields fuel' r
      | None => [s]
      end
  end.

Definition add_field (d : gmap string (list string)) (f : string)
  : gmap string (list string) :=
  match split_at "="%char f with
  | Some (name, v) =>
      if String.eqb v EmptyString then d
      else <[name := default [] (d !! name) ++ [v]]> d
  | None => d
  end.

Definition parse_qs (qs : string) : gmap string (list string) :=
  fold_left add_field (fields (String.length qs) qs) ∅.

End PlainQuery.

(** Runs of the script on the scripted router. *)
Module Scenario.

(** Everything on the command line; config.json is not needed. *)
Definition reboot_args : Namespace := {|
  verbose := 0; browser_name := "chrome-headless";
  router_ip := Some "192.168.1.1"; username := Some "admin";
  password := Some "secret"; action := Some "reboot"
|}.

Definition block_args : Namespace := {|
  verbose := 0; browser_name := "chrome-headless";
  router_ip := Some "192.168.1.1"; username := Some "admin";
  password := Some "secret"; action := Some "block"
|}.

(** The action left to config.json. *)
Definition no_action_args : Namespace := {|
  verbose := 0; browser_name := "chrome-headless";
  router_ip := Some "192.168.1.1"; username := Some "admin";
  password := Some "secret"; action := None
|}.

(** The user name left to its default. *)
Definition no_user_args : Namespace := {|
  verbose := 0; browser_name := "chrome-headless";
  router_ip := Some "192.168.1.1"; username := None;
  password := Some "secret"; action := Some "reboot"
|}.

Definition no_config : res exn pyval := Raise (FileNotFoundError CONFIG_FILE).

Definition reboot_config : res exn pyval :=
  Ok (VDict (<["action" := VStr "reboot"]> ∅)).

(** The logout button is missing. *)
Definition locked_out : Mock.t := {|
  Mock.blank_waits := 0; Mock.window_fails := false;
  Mock.multi_login := true; Mock.logged_in := false;
  Mock.radios := Mock.radios Mock.router; Mock.source := Mock.page
|}.

(** The browser stays on [about:blank] for five waits. *)
Definition blank : Mock.t := {|
  Mock.blank_waits := 5; Mock.window_fails := false;
  Mock.multi_login := false; Mock.logged_in := true;
  Mock.radios := Mock.radios Mock.router; Mock.source := Mock.page
|}.

(** The window cannot be resized. *)
Definition cramped : Mock.t := {|
  Mock.blank_waits := 0; Mock.window_fails := true;
  Mock.multi_login := false; Mock.logged_in := true;
  Mock.radios := Mock.radios Mock.router; Mock.source := Mock.page
|}.

(** The block page has no radio for scheduled blocking. *)
Definition no_schedule : Mock.t := {|
  Mock.blank_waits := 0; Mock.window_fails := false;
  Mock.multi_login := false; Mock.logged_in := true;
  Mock.radios := [(10%nat, "never"); (12%nat, "always")];
  Mock.source := Mock.page
|}.

(** The object [main] builds from [block_args]. *)
Definition block_script : NetgearAdmin.t := {|
  NetgearAdmin.ip := VStr "192.168.1.1";
  NetgearAdmin.username := VStr "admin";
  NetgearAdmin.password := VStr "secret";
  NetgearAdmin.action := VStr "block";
  NetgearAdmin.browser_name := "chrome-headless";
  NetgearAdmin._screenshot := false
|}.

(** [main] on a router. *)
Definition run_main (config_file : res exn pyval) (args : Namespace)
    (b : Mock.t) : reply Mock.t unit :=
  @main Mock.t Mock.driver PlainQuery.parse_qs config_file args (Mock.start b).

End Scenario.

(** * Properties *)

(** ** Configuration lookup *)

Section ConfigProperties.

Variable parse_qs : string -> gmap string (list string).
Variable environ : gmap string string.

(** The four names [main] looks up. *)
Definition config_names : list string :=
  ["action"; "router_ip"; "username"; "password"].

(** The three sources, as the specification words them. *)
Definition cli_value (args : Namespace) (name : string) : option pyval :=
  vars args !! name.

Definition query_value (name : string) : option pyval :=
  match environ !! "QUERY_STRING" with
  | Some qs => (fun l => VList (VStr <$> l)) <$> (parse_qs qs !! name)
  | None => None
  end.

Definition file_value (config_file : res exn pyval) (name : string)
  : option pyval :=
  match config_file with
  | Ok (VDict d) => d !! name
  | _ => None
  end.

(** A source supplies a value when it has one and it is truthy. *)
Definition supplied (o : option pyval) : option pyval :=
  match o with
  | Some v => if truthy v then Some v else None
  | None => None
  end.

(** Command line first, then query string, then file, then default. *)
Definition precedence (cli query file : option pyval) (default : pyval)
  : pyval :=
  match supplied cli with
  | Some v => v
  | None =>
      match supplied query with
      | Some v => v
      | None =>
          match supplied file with
          | Some v => v
          | None => default
          end
      end
  end.

Lemma vars_config_name (args : Namespace) (name : string) :
  In name config_names -> exists o, vars args !! name = Some (of_opt o).
Proof.
  unfold config_names. simpl.
  intros [<- | [<- | [<- | [<- | []]]]]; eexists; reflexivity.
Qed.

Lemma config_stage_dict (d : gmap string pyval) (v : pyval)
    (name : string) (default : pyval) :
  truthy v = false ->
  config_stage (Ok (VDict d)) (Some v) name default
  = Ok (match supplied (d !! name) with Some w => w | None => default end).
Proof.
  intros Hv. unfold config_stage, config_lookup, supplied.
  destruct (d !! name) as [w|]; [now destruct (truthy w) | now rewrite Hv].
Qed.

Lemma query_stage_unfold (config_file : res exn pyval) (value : option pyval)
    (name : string) (default : pyval) :
  query_stage parse_qs environ config_file value name default
  = match query_value name with
    | Some v =>
        if truthy v then Ok v
        else config_stage config_file (Some v) name default
    | None => config_stage config_file value name default
    end.
Proof.
  unfold query_stage, query_value.
  destruct (environ !! "QUERY_STRING") as [qs|]; [|reflexivity].
  destruct (parse_qs qs !! name); reflexivity.
Qed.

(** The precedence order where it holds: for each of the four names,
    [getConfigValue] returns the command-line value when truthy, else
    the query-string value when present and truthy, else (config.json
    holding a JSON object) the value of the file when present and
    truthy, else the default.  The file is opened only when neither
    the command line nor the query string supplies the value. *)
Theorem getConfigValue_precedence (config_file : res exn pyval)
    (args : Namespace) (name : string) (default : pyval) :
  In name config_names ->
  (supplied (cli_value args name) <> None
   \/ supplied (query_value name) <> None
   \/ exists d, config_file = Ok (VDict d)) ->
  getConfigValue parse_qs environ config_file args name default
  = Ok (precedence (cli_value args name) (query_value name)
          (file_value config_file name) default).
Proof.
  intros Hname Hsrc.
  destruct (vars_config_name args name Hname) as [o Ho].
  unfold getConfigValue, precedence, cli_value in *.
  rewrite Ho in *. simpl supplied in *.
  destruct (truthy (of_opt o)) eqn:Hcli; [reflexivity|].
  rewrite query_stage_unfold.
  destruct (query_value name) as [q|] eqn:Hq; simpl supplied in *.
  - destruct (truthy q) eqn:Hqt; [reflexivity|].
    destruct Hsrc as [Hc | [Hc | [d ->]]]; try congruence.
    now rewrite config_stage_dict.
  - destruct Hsrc as [Hc | [Hc | [d ->]]]; try congruence.
    now rewrite config_stage_dict.
Qed.

(** When the lookup reaches config.json and the file cannot be loaded,
    the exception of the load comes out. *)
Lemma getConfigValue_load_error (e : exn) (args : Namespace)
    (name : string) (default : pyval) :
  supplied (cli_value args name) = None ->
  supplied (query_value name) = None ->
  getConfigValue parse_qs environ (Raise e) args name default = Raise e.
Proof.
  unfold getConfigValue, cli_value, supplied. intros Hcli Hq.
  assert (Hcfg : forall value,
    config_stage (Raise e) value name default = Raise e) by reflexivity.
  destruct (vars args !! name) as [v|];
    [destruct (truthy v); [discriminate|]|];
    rewrite query_stage_unfold;
    (destruct (query_value name) as [q|];
     [destruct (truthy q); [discriminate|]|]); apply Hcfg.
Qed.

(** C9: when the command line does not supply the value and the query
    string has the name, [getConfigValue] returns the list of strings
    [parse_qs] built for it, not a string. *)
Theorem getConfigValue_query_list (config_file : res exn pyval)
    (args : Namespace) (name : string) (default : pyval)
    (qs : string) (l : list string) :
  supplied (cli_value args name) = None ->
  environ !! "QUERY_STRING" = Some qs ->
  parse_qs qs !! name = Some l ->
  l <> [] ->
  getConfigValue parse_qs environ config_file args name default
  = Ok (VList (VStr <$> l)).
Proof.
  unfold getConfigValue, cli_value, supplied. intros Hcli Henv Hqs Hl.
  assert (Hq : query_stage parse_qs environ config_file
                 (vars args !! name) name default
               = Ok (VList (VStr <$> l))).
  { unfold query_stage. rewrite Henv, Hqs.
    destruct l; [congruence | reflexivity]. }
  destruct (vars args !! name) as [v|] eqn:Hv; [|exact Hq].
  destruct (truthy v); [discriminate|].
  unfold query_stage in *. rewrite Henv, Hqs in *.
  destruct l; [congruence | reflexivity].
Qed.

End ConfigProperties.

(** No option on the command line but the browser. *)
Definition bare_args : Namespace := {|
  verbose := 0; browser_name := "chrome-headless";
  router_ip := None; username := None; password := None; action := None
|}.

(** Without config.json: nothing on the command line, no query
    string, no file; the precedence order ends at the default
    ['admin'] but the lookup raises. *)
Lemma getConfigValue_missing_file :
  let config_file := Raise (FileNotFoundError CONFIG_FILE) in
  getConfigValue PlainQuery.parse_qs ∅ config_file bare_args
    "username" (VStr "admin")
  = Raise (FileNotFoundError CONFIG_FILE)
  /\ getConfigValue PlainQuery.parse_qs ∅ config_file bare_args
       "username" (VStr "admin")
     <> Ok (precedence (cli_value bare_args "username")
              (query_value PlainQuery.parse_qs ∅ "username")
              (file_value config_file "username") (VStr "admin")).
Proof. split; [reflexivity | discriminate]. Qed.

Lemma getConfigValue_precedence_witness :
  let environ := <["QUERY_STRING" := "action=block"]> ∅ in
  let config_file :=
    Ok (VDict (<["password" := VStr "secret"]>
              (<["username" := VStr EmptyString]> ∅))) in
  getConfigValue PlainQuery.parse_qs environ config_file bare_args
    "password" (VBool false) = Ok (VStr "secret")
  /\ getConfigValue PlainQuery.parse_qs environ config_file bare_args
       "username" (VStr "admin") = Ok (VStr "admin").
Proof.
  intros environ config_file. split.
  - rewrite (getConfigValue_precedence PlainQuery.parse_qs environ
               config_file bare_args "password" (VBool false)).
    + reflexivity.
    + simpl. tauto.
    + right. right. eexists. reflexivity.
  - rewrite (getConfigValue_precedence PlainQuery.parse_qs environ
               config_file bare_args "username" (VStr "admin")).
    + reflexivity.
    + simpl. tauto.
    + right. right. eexists. reflexivity.
Defined.

Lemma getConfigValue_query_list_witness :
  getConfigValue PlainQuery.parse_qs
    (<["QUERY_STRING" := "router_ip=10.0.0.1"]> ∅)
    (Raise (FileNotFoundError CONFIG_FILE)) bare_args
    "router_ip" (VBool false)
  = Ok (VList [VStr "10.0.0.1"]).
Proof.
  apply (getConfigValue_query_list PlainQuery.parse_qs
           (<["QUERY_STRING" := "router_ip=10.0.0.1"]> ∅)
           (Raise (FileNotFoundError CONFIG_FILE)) bare_args
           "router_ip" (VBool false) "router_ip=10.0.0.1" ["10.0.0.1"]).
  - reflexivity.
  - reflexivity.
  - reflexivity.
  - discriminate.
Defined.


(** ** Reasoning about the monad *)

Section MonadFacts.

Context {B : Type} `{WebDriver B}.

Lemma bind_ok {A C} (m : M B A) (k : A -> M B C) (s : state B) (a : A) :
  out (m s) = Ok a ->
  bind m k s
  = Reply (out (k a (post (m s)))) (post (k a (post (m s))))
          (evs (m s) ++ evs (k a (post (m s)))).
Proof.
  unfold bind. destruct (m s) as [o s1 t1]; simpl. intros ->.
  now destruct (k a s1).
Qed.

Lemma bind_raise {A C} (m : M B A) (k : A -> M B C) (s : state B) (e : exn) :
  out (m s) = Raise e ->
  bind m k s = Reply (Raise e) (post (m s)) (evs (m s)).
Proof.
  unfold bind. destruct (m s) as [o s1 t1]; simpl. now intros ->.
Qed.

Lemma try_ok {A} (m : M B A) (c : exn -> bool) (h : exn -> M B A)
    (s : state B) (a : A) :
  out (m s) = Ok a -> try_except m c h s = m s.
Proof.
  unfold try_except. destruct (m s) as [o s1 t1]; simpl. now intros ->.
Qed.

Lemma try_caught {A} (m : M B A) (c : exn -> bool) (h : exn -> M B A)
    (s : state B) (e : exn) :
  out (m s) = Raise e -> c e = true ->
  try_except m c h s
  = Reply (out (h e (post (m s)))) (post (h e (post (m s))))
          (evs (m s) ++ evs (h e (post (m s)))).
Proof.
  unfold try_except. destruct (m s) as [o s1 t1]; simpl. intros -> ->.
  now destruct (h e s1).
Qed.

Lemma try_uncaught {A} (m : M B A) (c : exn -> bool) (h : exn -> M B A)
    (s : state B) (e : exn) :
  out (m s) = Raise e -> c e = false -> try_except m c h s = m s.
Proof.
  unfold try_except. destruct (m s) as [o s1 t1]; simpl. now intros -> ->.
Qed.

(** Either part of a sequence raised, or both returned. *)
Lemma bind_cases {A C} (m : M B A) (k : A -> M B C) (s : state B) :
  (exists e, out (m s) = Raise e
             /\ bind m k s = Reply (Raise e) (post (m s)) (evs (m s)))
  \/ (exists a, out (m s) = Ok a
                /\ bind m k s
                   = Reply (out (k a (post (m s))))
                       (post (k a (post (m s))))
                       (evs (m s) ++ evs (k a (post (m s))))).
Proof.
  destruct (out (m s)) as [a|e] eqn:Ho.
  - right. exists a. split; [reflexivity | now apply bind_ok].
  - left. exists e. split; [reflexivity | now apply bind_raise].
Qed.

(** *** What a computation may emit *)

Section Emits.

(** Provided its events all satisfy [C], they all satisfy [P]. *)
Variables C P : event -> bool.

Definition emits_if {A} (m : M B A) : Prop :=
  forall s, forallb C (evs (m s)) = true -> forallb P (evs (m s)) = true.

Lemma emits_if_ret {A} (a : A) : emits_if (ret a).
Proof. intros s _. reflexivity. Qed.

Lemma emits_if_raise {A} (e : exn) : emits_if (@raise B A e).
Proof. intros s _. reflexivity. Qed.

Lemma emits_if_gets {A} (f : state B -> A) : emits_if (gets f).
Proof. intros s _. reflexivity. Qed.

Lemma emits_if_modify (f : state B -> state B) : emits_if (modify f).
Proof. intros s _. reflexivity. Qed.

Lemma emits_if_lift {A} (r : res exn A) : emits_if (lift r).
Proof. intros s _. destruct r; reflexivity. Qed.

Lemma emits_if_emit (ev : event) :
  (C ev = true -> P ev = true) -> emits_if (emit ev).
Proof.
  intros Hev s. simpl. rewrite !andb_true_r. exact Hev.
Qed.

Lemma emits_if_call {X} (op : B -> res wd_exn X * B)
    (ev : res wd_exn X -> event) :
  (forall r, C (ev r) = true -> P (ev r) = true) -> emits_if (call op ev).
Proof.
  intros Hev s. unfold call. destruct (op (drv s)) as [r b]; simpl.
  rewrite !andb_true_r. apply Hev.
Qed.

Lemma emits_if_bind {A D} (m : M B A) (k : A -> M B D) :
  emits_if m -> (forall a, emits_if (k a)) -> emits_if (bind m k).
Proof.
  intros Hm Hk s.
  destruct (bind_cases m k s) as [(e & Ho & ->) | (a & Ho & ->)]; simpl.
  - apply Hm.
  - rewrite !forallb_app, !andb_true_iff. intros [H1 H2].
    split; [now apply Hm | now apply Hk].
Qed.

Lemma emits_if_try {A} (m : M B A) (c : exn -> bool) (h : exn -> M B A) :
  emits_if m -> (forall e, emits_if (h e)) -> emits_if (try_except m c h).
Proof.
  intros Hm Hh s.
  destruct (out (m s)) as [a|e] eqn:Ho.
  - rewrite (try_ok _ _ _ _ _ Ho). apply Hm.
  - destruct (c e) eqn:Hc.
    + rewrite (try_caught _ _ _ _ _ Ho Hc). simpl.
      rewrite !forallb_app, !andb_true_iff. intros [H1 H2].
      split; [now apply Hm | now apply Hh].
    + rewrite (try_uncaught _ _ _ _ _ Ho Hc). apply Hm.
Qed.

Lemma emits_if_weaken (Q : event -> bool) {A} (m : M B A) :
  (forall ev, Q ev = true -> P ev = true) ->
  (forall s, forallb C (evs (m s)) = true -> forallb Q (evs (m s)) = true) ->
  emits_if m.
Proof.
  intros HQP Hm s HC. specialize (Hm s HC).
  rewrite forallb_forall in *. auto.
Qed.

(** Provided its events all satisfy [C], it returns. *)
Definition ok_if {A} (m : M B A) : Prop :=
  forall s, forallb C (evs (m s)) = true -> is_ok (out (m s)) = true.

Lemma ok_if_ret {A} (a : A) : ok_if (ret a).
Proof. intros s _. reflexivity. Qed.

Lemma ok_if_gets {A} (f : state B -> A) : ok_if (gets f).
Proof. intros s _. reflexivity. Qed.

Lemma ok_if_modify (f : state B -> state B) : ok_if (modify f).
Proof. intros s _. reflexivity. Qed.

Lemma ok_if_emit (ev : event) : ok_if (emit ev).
Proof. intros s _. reflexivity. Qed.

Lemma ok_if_call {X} (op : B -> res wd_exn X * B)
    (ev : res wd_exn X -> event) :
  (forall e, C (ev (Raise e)) = false) -> ok_if (call op ev).
Proof.
  intros Hev s. unfold call. destruct (op (drv s)) as [[x|e] b]; simpl;
    [reflexivity|].
  rewrite Hev. discriminate.
Qed.

Lemma ok_if_bind {A D} (m : M B A) (k : A -> M B D) :
  ok_if m -> (forall a, ok_if (k a)) -> ok_if (bind m k).
Proof.
  intros Hm Hk s.
  destruct (bind_cases m k s) as [(e & Ho & ->) | (a & Ho & ->)]; simpl.
  - intros HC. apply Hm in HC. now rewrite Ho in HC.
  - rewrite forallb_app, andb_true_iff. intros [H1 H2]. now apply Hk.
Qed.

Lemma ok_if_try_all {A} (m : M B A) (h : exn -> M B A) :
  (forall e, ok_if (h e)) -> ok_if (try_except m (fun _ => true) h).
Proof.
  intros Hh s.
  destruct (out (m s)) as [a|e] eqn:Ho.
  - rewrite (try_ok _ _ _ _ _ Ho). now rewrite Ho.
  - rewrite (try_caught _ _ _ _ _ Ho eq_refl). simpl.
    rewrite forallb_app, andb_true_iff. intros [H1 H2]. now apply Hh.
Qed.

End Emits.

(** All its events satisfy [P]. *)
Definition emits (P : event -> bool) {A} (m : M B A) : Prop :=
  forall s, forallb P (evs (m s)) = true.

Lemma emits_of_if (P : event -> bool) {A} (m : M B A) :
  emits_if (fun _ => true) P m -> emits P m.
Proof.
  intros Hm s. apply Hm. apply forallb_forall. reflexivity.
Qed.

Lemma emits_if_any (C P : event -> bool) {A} (m : M B A) :
  emits P m -> emits_if C P m.
Proof. intros Hm s _. apply Hm. Qed.

(** *** What a computation leaves alone *)

Definition keeps {X A} (f : state B -> X) (m : M B A) : Prop :=
  forall s, f (post (m s)) = f s.

Lemma keeps_bind {X A D} (f : state B -> X) (m : M B A) (k : A -> M B D) :
  keeps f m -> (forall a, keeps f (k a)) -> keeps f (bind m k).
Proof.
  intros Hm Hk s.
  destruct (bind_cases m k s) as [(e & Ho & ->) | (a & Ho & ->)]; simpl.
  - apply Hm.
  - now rewrite Hk, Hm.
Qed.

Lemma keeps_try {X A} (f : state B -> X) (m : M B A) (c : exn -> bool)
    (h : exn -> M B A) :
  keeps f m -> (forall e, keeps f (h e)) -> keeps f (try_except m c h).
Proof.
  intros Hm Hh s.
  destruct (out (m s)) as [a|e] eqn:Ho.
  - rewrite (try_ok _ _ _ _ _ Ho). apply Hm.
  - destruct (c e) eqn:Hc.
    + rewrite (try_caught _ _ _ _ _ Ho Hc). simpl. now rewrite Hh, Hm.
    + rewrite (try_uncaught _ _ _ _ _ Ho Hc). apply Hm.
Qed.

Lemma keeps_ret {X A} (f : state B -> X) (a : A) : keeps f (ret a).
Proof. intros s. reflexivity. Qed.

Lemma keeps_raise {X A} (f : state B -> X) (e : exn) : keeps f (@raise B A e).
Proof. intros s. reflexivity. Qed.

Lemma keeps_gets {X A} (f : state B -> X) (g : state B -> A) : keeps f (gets g).
Proof. intros s. reflexivity. Qed.

Lemma keeps_emit {X} (f : state B -> X) (ev : event) : keeps f (emit ev).
Proof. intros s. reflexivity. Qed.

Lemma keeps_browser_call {X} (op : B -> res wd_exn X * B)
    (ev : res wd_exn X -> event) : keeps browser (call op ev).
Proof. intros s. unfold call. now destruct (op (drv s)). Qed.

(** *** What a computation may raise *)

Definition raises_only {A} (c : exn -> bool) (m : M B A) : Prop :=
  forall s e, out (m s) = Raise e -> c e = true.

Lemma raises_only_bind {A D} c (m : M B A) (k : A -> M B D) :
  raises_only c m -> (forall a, raises_only c (k a)) ->
  raises_only c (bind m k).
Proof.
  intros Hm Hk s e.
  destruct (bind_cases m k s) as [(e' & Ho & ->) | (a & Ho & ->)]; simpl.
  - intros [= <-]. now apply (Hm s).
  - apply Hk.
Qed.

Lemma raises_only_try {A} c (m : M B A) c' (h : exn -> M B A) :
  raises_only c m -> (forall e, raises_only c (h e)) ->
  raises_only c (try_except m c' h).
Proof.
  intros Hm Hh s e.
  destruct (out (m s)) as [a|e'] eqn:Ho.
  - rewrite (try_ok _ _ _ _ _ Ho). now rewrite Ho.
  - destruct (c' e') eqn:Hc.
    + rewrite (try_caught _ _ _ _ _ Ho Hc). simpl. apply Hh.
    + rewrite (try_uncaught _ _ _ _ _ Ho Hc). apply Hm.
Qed.

Lemma raises_only_try_all {A} c (m : M B A) (h : exn -> M B A) :
  (forall e, raises_only c (h e)) ->
  raises_only c (try_except m (fun _ => true) h).
Proof.
  intros Hh s e.
  destruct (out (m s)) as [a|e'] eqn:Ho.
  - rewrite (try_ok _ _ _ _ _ Ho). now rewrite Ho.
  - rewrite (try_caught _ _ _ _ _ Ho eq_refl). simpl. apply Hh.
Qed.

Lemma raises_only_call {X} (op : B -> res wd_exn X * B) ev :
  raises_only is_Exception (call op ev).
Proof.
  intros s e. unfold call. destruct (op (drv s)) as [[x|e'] b]; simpl;
    [discriminate|].
  now intros [= <-].
Qed.

Lemma raises_only_total {A} c (m : M B A) :
  (forall s, is_ok (out (m s)) = true) -> raises_only c m.
Proof. intros Hm s e Ho. specialize (Hm s). now rewrite Ho in Hm. Qed.

Lemma raises_only_raise {A} (c : exn -> bool) e :
  c e = true -> raises_only c (@raise B A e).
Proof. intros Hc s e'. simpl. now intros [= <-]. Qed.

End MonadFacts.

(** Lists of events, piecewise. *)
Module TraceFacts.

Import Trace.

Lemma forallb_weaken (P Q : event -> bool) (tr : list event) :
  (forall ev, P ev = true -> Q ev = true) ->
  forallb P tr = true -> forallb Q tr = true.
Proof.
  intros HPQ. rewrite !forallb_forall. intros HP ev Hin. auto.
Qed.

Lemma forallb_none (P Q : event -> bool) (tr : list event) :
  (forall ev, P ev = true -> Q ev = false) ->
  forallb P tr = true -> existsb Q tr = false.
Proof.
  intros HPQ. induction tr as [|ev tr IH]; simpl; [reflexivity|].
  rewrite andb_true_iff. intros [Hev Htr].
  now rewrite (HPQ ev Hev), IH.
Qed.

Lemma clicks_app (t1 t2 : list event) :
  clicks (t1 ++ t2) = clicks t1 ++ clicks t2.
Proof.
  induction t1 as [|ev t1 IH]; simpl; [reflexivity|].
  destruct ev; simpl; now rewrite ?IH.
Qed.

Lemma clicks_none (tr : list event) :
  existsb is_click tr = false -> clicks tr = [].
Proof.
  induction tr as [|ev tr IH]; simpl; [reflexivity|].
  destruct ev; simpl; try discriminate; exact IH.
Qed.

Lemma probes_app (t1 t2 : list event) :
  probes (t1 ++ t2) = probes t1 ++ probes t2.
Proof.
  induction t1 as [|ev t1 IH]; simpl; [reflexivity|].
  destruct ev as [| | | | | | | | | | | | |e n [a|x]| | | | | | |]; simpl;
    rewrite ?IH; try reflexivity.
  destruct (String.eqb n "value"); simpl; now rewrite ?IH.
Qed.

Lemma failed_waits_app (n : nat) (t1 t2 : list event) :
  failed_waits n (t1 ++ t2) = failed_waits (failed_waits n t1) t2.
Proof.
  revert n. induction t1 as [|ev t1 IH]; intros n; simpl; [reflexivity|].
  destruct ev as [| | |t [u|e]| | | | | | | | | | | | | | | | |]; simpl;
    now rewrite ?IH.
Qed.

Lemma failed_waits_none (n : nat) (tr : list event) :
  existsb is_wait_url tr = false -> failed_waits n tr = n.
Proof.
  induction tr as [|ev tr IH]; simpl; [reflexivity|].
  destruct ev; simpl; try discriminate; exact IH.
Qed.

Lemma after_app_skip (P : event -> bool) (t1 t2 : list event) :
  existsb P t1 = false -> after P (t1 ++ t2) = after P t2.
Proof.
  induction t1 as [|ev t1 IH]; simpl; [reflexivity|].
  rewrite orb_false_iff. intros [-> Ht1]. now apply IH.
Qed.

Lemma guarded_app (P Q : event -> bool) (seen : bool) (t1 t2 : list event) :
  guarded P Q seen (t1 ++ t2)
  = guarded P Q seen t1 && guarded P Q (seen || existsb P t1) t2.
Proof.
  revert seen. induction t1 as [|ev t1 IH]; intros seen; simpl.
  - now rewrite orb_false_r.
  - now rewrite IH, andb_assoc, orb_assoc.
Qed.

Lemma guarded_seen (P Q : event -> bool) (tr : list event) :
  guarded P Q true tr = true.
Proof.
  induction tr as [|ev tr IH]; simpl; [reflexivity|].
  now rewrite implb_true_r, IH.
Qed.

Lemma guarded_none (P Q : event -> bool) (seen : bool) (tr : list event) :
  existsb Q tr = false -> guarded P Q seen tr = true.
Proof.
  revert seen. induction tr as [|ev tr IH]; intros seen; simpl;
    [reflexivity|].
  rewrite orb_false_iff. intros [-> Htr]. simpl. now apply IH.
Qed.

Lemma guarded_preceded (P Q : event -> bool) (tr : list event) :
  guarded P Q false tr = true -> preceded P Q tr.
Proof.
  intros Hg pre ev post -> HQ.
  rewrite guarded_app in Hg. simpl in Hg.
  apply andb_true_iff in Hg as [_ Hg].
  apply andb_true_iff in Hg as [Hg _].
  now rewrite HQ in Hg.
Qed.

(** One kind of event inside another. *)
Lemma quiet_nav tpl ev : quiet ev = true -> nav tpl ev = true.
Proof. destruct ev; simpl; congruence. Qed.

Lemma quiet_login_step ev : quiet ev = true -> login_step ev = true.
Proof. destruct ev; simpl; congruence. Qed.

Lemma quiet_acting ev : quiet ev = true -> acting ev = true.
Proof.
  destruct ev as [| | | | | | | | | |[] ? ?|[] ? ?| | | | | | | | |];
    simpl; try congruence; intros Hq; rewrite ?Hq; reflexivity.
Qed.

Lemma nav_acting tpl ev :
  tpl = NetgearAdmin.HOME_URL \/ tpl = NetgearAdmin.BLOCK_URL ->
  nav tpl ev = true -> acting ev = true.
Proof.
  intros Htpl.
  destruct ev as [| | | | | | | | | |[] ? ?|[] ? ?| | | | | | | | |];
    simpl; try congruence;
    destruct Htpl as [-> | ->]; intros ->; simpl; auto using orb_true_r.
Qed.

End TraceFacts.

Import Trace TraceFacts.

(** Side conditions on single events: by cases and computation. *)
Ltac event_side :=
  simpl; intros;
  repeat match goal with
         | r : res wd_exn _ |- _ => destruct r
         | lvl : level |- _ => destruct lvl
         end;
  simpl in *; try reflexivity; try congruence; auto.

Ltac emits_step :=
  first
    [ apply emits_if_ret
    | apply emits_if_raise
    | apply emits_if_gets
    | apply emits_if_modify
    | apply emits_if_lift
    | apply emits_if_bind; [| intros ?]
    | apply emits_if_try; [| intros ?]
    | apply emits_if_emit; solve [event_side]
    | apply emits_if_call; solve [event_side]
    | match goal with
      | |- emits_if _ _ (if ?c then _ else _) => destruct c
      | |- emits_if _ _ (match ?c with _ => _ end) => destruct c
      end ].

Ltac raises_step :=
  first
    [ apply raises_only_call
    | apply raises_only_raise; reflexivity
    | apply raises_only_total; intros ?; reflexivity
    | apply raises_only_bind; [| intros ?]
    | apply raises_only_try_all; intros ?
    | apply raises_only_try; [| intros ?]
    | match goal with
      | |- raises_only _ (if ?c then _ else _) => destruct c
      | |- raises_only _ (match ?c with _ => _ end) => destruct c
      end ].

Ltac keeps_step :=
  first
    [ apply keeps_ret
    | apply keeps_raise
    | apply keeps_gets
    | apply keeps_emit
    | apply keeps_browser_call
    | apply keeps_bind; [| intros ?]
    | apply keeps_try; [| intros ?]
    | match goal with
      | |- keeps _ (if ?c then _ else _) => destruct c
      | |- keeps _ (match ?c with _ => _ end) => destruct c
      | |- keeps _ (modify _) => intros ?; reflexivity
      end ].

(** Symbolic execution: unfold the monad, split on the reply of the
    next webdriver call. *)
Ltac exec_cbn :=
  cbn [out post evs drv browser os_environ _screenshot_num app
       is_ok is_Exception].

Ltac exec :=
  cbv [bind ret raise try_except emit call gets modify
       NetgearAdmin.log NetgearAdmin.sleep NetgearAdmin.browser_quit];
  exec_cbn.

Ltac split_call :=
  match goal with
  | |- context [match ?op ?b with pair _ _ => _ end] =>
      let r := fresh "r" in
      let b' := fresh "b" in
      destruct (op b) as [r b']; destruct r; exec_cbn
  end.

Ltac split_reply :=
  match goal with
  | |- context [match ?f ?s with Reply _ _ _ => _ end] =>
      let o := fresh "o" in
      let s' := fresh "s" in
      let t := fresh "t" in
      destruct (f s) as [o s' t]; destruct o; exec_cbn
  end.

(** The log at hand is not that of a cooperative browser. *)
Ltac coop_absurd :=
  repeat first [split_call | split_reply];
  cbn [forallb coop is_ok andb]; rewrite ?andb_false_r;
  intros; discriminate.

(** ** Facts about the methods *)

Section MethodFacts.

Context {B : Type} `{WebDriver B}.
Variable self : NetgearAdmin.t.

Lemma do_screenshot_quiet : emits quiet (NetgearAdmin.do_screenshot self).
Proof.
  apply emits_of_if. unfold NetgearAdmin.do_screenshot, NetgearAdmin.log.
  repeat emits_step.
Qed.

Lemma error_screenshot_quiet fname :
  emits quiet (NetgearAdmin.error_screenshot fname).
Proof.
  apply emits_of_if. unfold NetgearAdmin.error_screenshot, NetgearAdmin.log.
  repeat emits_step.
Qed.


Lemma get_retry_nav tpl args xs :
  emits (nav tpl) (NetgearAdmin.get_retry (Format tpl args) xs).
Proof.
  apply emits_of_if. induction xs as [|x xs IH]; simpl.
  - apply emits_if_bind; [|intros ?; emits_step].
    eapply emits_if_weaken; [apply quiet_nav|]. intros s _. apply error_screenshot_quiet.
  - unfold NetgearAdmin.log, NetgearAdmin.sleep.
    apply emits_if_bind; [repeat emits_step|].
    intros [|]; [emits_step|].
    apply emits_if_bind; [apply emits_if_call; intros r _; apply String.eqb_refl|].
    intros _. apply emits_if_bind; [repeat emits_step | intros _; exact IH].
Qed.

Lemma get_nav tpl : emits (nav tpl) (NetgearAdmin.get self tpl).
Proof.
  apply emits_of_if. unfold NetgearAdmin.get, NetgearAdmin.log.
  apply emits_if_bind; [repeat emits_step | intros _].
  apply emits_if_bind; [apply emits_if_call; intros r _; apply String.eqb_refl|].
  intros _. apply emits_if_any, get_retry_nav.
Qed.

Lemma wait_for_source_quiet left :
  emits quiet (NetgearAdmin.wait_for_source left).
Proof.
  apply emits_of_if. induction left as [|left IH]; simpl;
    unfold NetgearAdmin.log, NetgearAdmin.sleep.
  - apply emits_if_bind; [repeat emits_step | intros src].
    destruct (_ <? _)%Z; [|emits_step].
    apply emits_if_bind; [|intros ?; emits_step].
    apply emits_if_any, error_screenshot_quiet.
  - apply emits_if_bind; [repeat emits_step | intros src].
    destruct (_ <? _)%Z; [|emits_step].
    do 3 (apply emits_if_bind; [repeat emits_step | intros ?]).
    exact IH.
Qed.

Lemma wait_for_page_load_quiet timeout :
  emits quiet (NetgearAdmin.wait_for_page_load timeout).
Proof.
  apply emits_of_if.
  unfold NetgearAdmin.wait_for_page_load, NetgearAdmin.wait_for_ajax_load.
  apply emits_if_bind; [repeat emits_step | intros _].
  apply emits_if_any, wait_for_source_quiet.
Qed.

Lemma page_nav tpl :
  emits (nav tpl)
    (NetgearAdmin.get self tpl;;
     NetgearAdmin.wait_for_page_load 20;;
     NetgearAdmin.do_screenshot self).
Proof.
  apply emits_of_if.
  apply emits_if_bind; [apply emits_if_any, get_nav | intros _].
  apply emits_if_bind; [|intros _];
    (eapply emits_if_weaken; [apply quiet_nav|]); apply emits_if_any.
  - apply wait_for_page_load_quiet.
  - apply do_screenshot_quiet.
Qed.

Lemma get_start_page_nav :
  emits (nav NetgearAdmin.START_URL) (NetgearAdmin.get_start_page self).
Proof. apply page_nav. Qed.

Lemma get_home_page_nav :
  emits (nav NetgearAdmin.HOME_URL) (NetgearAdmin.get_home_page self).
Proof. apply page_nav. Qed.

Lemma get_block_page_nav :
  emits (nav NetgearAdmin.BLOCK_URL) (NetgearAdmin.get_block_page self).
Proof. apply page_nav. Qed.

Lemma check_login_steps : emits login_step (NetgearAdmin.check_login self).
Proof.
  apply emits_of_if. unfold NetgearAdmin.check_login, NetgearAdmin.log.
  apply emits_if_bind; [|intros _; repeat emits_step].
  apply emits_if_try; [|intros _; repeat emits_step].
  do 4 (apply emits_if_bind; [repeat emits_step | intros ?]).
  apply emits_if_bind; [|intros _];
    (eapply emits_if_weaken; [apply quiet_login_step|]); apply emits_if_any.
  - apply wait_for_page_load_quiet.
  - apply do_screenshot_quiet.
Qed.

Lemma get_browser_setup : emits setup (NetgearAdmin.get_browser self).
Proof.
  apply emits_of_if. unfold NetgearAdmin.get_browser, NetgearAdmin.log.
  repeat emits_step.
Qed.

Lemma reboot_acting : emits acting (@NetgearAdmin.reboot B _).
Proof.
  apply emits_of_if. unfold NetgearAdmin.reboot, NetgearAdmin.sleep.
  repeat emits_step.
Qed.

Lemma block_services_loop_acting value apply radios :
  emits acting (NetgearAdmin.block_services_loop self value apply radios).
Proof.
  apply emits_of_if. induction radios as [|radio radios IH]; simpl;
    [emits_step|].
  unfold NetgearAdmin.log, NetgearAdmin.sleep.
  apply emits_if_bind; [repeat emits_step | intros attr].
  destruct (_ || _); [|exact IH].
  do 2 (apply emits_if_bind; [repeat emits_step | intros ?]).
  apply emits_if_bind;
    [eapply emits_if_weaken;
       [apply quiet_acting | apply emits_if_any, do_screenshot_quiet]
    | intros ?].
  do 3 (apply emits_if_bind; [repeat emits_step | intros ?]).
  apply emits_if_bind;
    [eapply emits_if_weaken;
       [apply quiet_acting | apply emits_if_any, wait_for_page_load_quiet]
    | intros ?].
  apply emits_if_bind;
    [eapply emits_if_weaken;
       [apply quiet_acting | apply emits_if_any, do_screenshot_quiet]
    | intros ?].
  emits_step.
Qed.

Lemma block_services_acting value :
  emits acting (NetgearAdmin.block_services self value).
Proof.
  apply emits_of_if. unfold NetgearAdmin.block_services.
  do 2 (apply emits_if_bind; [repeat emits_step | intros ?]).
  apply emits_if_any, block_services_loop_acting.
Qed.


(** *** Exceptions *)

Lemma do_screenshot_raises :
  raises_only is_Exception (NetgearAdmin.do_screenshot self).
Proof.
  unfold NetgearAdmin.do_screenshot, NetgearAdmin.log, emit.
  repeat raises_step.
Qed.

Lemma error_screenshot_raises fname :
  raises_only is_Exception (@NetgearAdmin.error_screenshot B _ fname).
Proof.
  unfold NetgearAdmin.error_screenshot, NetgearAdmin.log, emit.
  repeat raises_step.
Qed.

(** [error_screenshot] never returns. *)
Lemma error_screenshot_fails fname (s : state B) :
  is_ok (out (NetgearAdmin.error_screenshot fname s)) = false.
Proof.
  unfold NetgearAdmin.error_screenshot. exec.
  repeat (split_call; try reflexivity).
Qed.

Lemma get_retry_raises url xs :
  raises_only is_Exception (@NetgearAdmin.get_retry B _ url xs).
Proof.
  induction xs as [|x xs IH]; simpl.
  - apply raises_only_bind; [apply error_screenshot_raises | intros ?].
    raises_step.
  - unfold NetgearAdmin.log, NetgearAdmin.sleep, emit.
    apply raises_only_bind; [repeat raises_step | intros [|]];
      [raises_step|].
    do 2 (apply raises_only_bind; [repeat raises_step | intros ?]).
    exact IH.
Qed.

Lemma wait_for_source_raises left :
  raises_only is_Exception (@NetgearAdmin.wait_for_source B _ left).
Proof.
  induction left as [|left IH]; simpl;
    unfold NetgearAdmin.log, NetgearAdmin.sleep, emit;
    (apply raises_only_bind; [repeat raises_step | intros src]);
    (destruct (_ <? _)%Z; [|raises_step]).
  - apply raises_only_bind; [apply error_screenshot_raises | intros ?].
    raises_step.
  - do 3 (apply raises_only_bind; [repeat raises_step | intros ?]).
    exact IH.
Qed.

Lemma page_raises tpl :
  raises_only is_Exception
    (NetgearAdmin.get self tpl;;
     NetgearAdmin.wait_for_page_load 20;;
     NetgearAdmin.do_screenshot self).
Proof.
  unfold NetgearAdmin.get, NetgearAdmin.wait_for_page_load,
    NetgearAdmin.wait_for_ajax_load, NetgearAdmin.log, emit.
  apply raises_only_bind; [|intros _].
  - do 2 (apply raises_only_bind; [repeat raises_step | intros ?]).
    apply get_retry_raises.
  - apply raises_only_bind; [|intros _; apply do_screenshot_raises].
    apply raises_only_bind; [repeat raises_step | intros ?].
    apply wait_for_source_raises.
Qed.

Lemma reboot_raises : raises_only is_Exception (@NetgearAdmin.reboot B _).
Proof.
  unfold NetgearAdmin.reboot, NetgearAdmin.sleep, emit. repeat raises_step.
Qed.

Lemma block_services_raises value :
  raises_only is_Exception (NetgearAdmin.block_services self value).
Proof.
  unfold NetgearAdmin.block_services.
  do 2 (apply raises_only_bind; [repeat raises_step | intros ?]).
  induction a0 as [|radio radios IH]; simpl; [raises_step|].
  unfold NetgearAdmin.log, NetgearAdmin.sleep, emit.
  apply raises_only_bind; [repeat raises_step | intros attr].
  destruct (_ || _); [|exact IH].
  do 2 (apply raises_only_bind; [repeat raises_step | intros ?]).
  apply raises_only_bind; [apply do_screenshot_raises | intros ?].
  do 3 (apply raises_only_bind; [repeat raises_step | intros ?]).
  apply raises_only_bind; [|intros ?].
  - unfold NetgearAdmin.wait_for_page_load, NetgearAdmin.wait_for_ajax_load.
    apply raises_only_bind; [repeat raises_step | intros ?].
    apply wait_for_source_raises.
  - apply raises_only_bind; [apply do_screenshot_raises | intros ?].
    raises_step.
Qed.

(** [check_login] always returns. *)
Lemma check_login_returns (s : state B) :
  is_ok (out (NetgearAdmin.check_login self s)) = true.
Proof.
  assert (Hok : ok_if (fun _ => true) (NetgearAdmin.check_login self)).
  { unfold NetgearAdmin.check_login, NetgearAdmin.log.
    apply ok_if_bind; [apply ok_if_try_all; intros; apply ok_if_emit|].
    intros _. apply ok_if_try_all. intros _.
    apply ok_if_bind; [apply ok_if_emit | intros; apply ok_if_ret]. }
  apply Hok. apply forallb_forall. reflexivity.
Qed.

(** *** The [browser] attribute *)

Lemma do_screenshot_keeps :
  keeps browser (NetgearAdmin.do_screenshot self).
Proof.
  unfold NetgearAdmin.do_screenshot, NetgearAdmin.log. repeat keeps_step.
Qed.

Lemma error_screenshot_keeps fname :
  keeps browser (@NetgearAdmin.error_screenshot B _ fname).
Proof.
  unfold NetgearAdmin.error_screenshot, NetgearAdmin.log. repeat keeps_step.
Qed.

Lemma get_retry_keeps url xs :
  keeps browser (@NetgearAdmin.get_retry B _ url xs).
Proof.
  induction xs as [|x xs IH]; simpl.
  - apply keeps_bind; [apply error_screenshot_keeps | intros ?]. keeps_step.
  - unfold NetgearAdmin.log, NetgearAdmin.sleep.
    apply keeps_bind; [repeat keeps_step | intros [|]]; [keeps_step|].
    do 2 (apply keeps_bind; [repeat keeps_step | intros ?]).
    exact IH.
Qed.

Lemma wait_for_page_load_keeps timeout :
  keeps browser (@NetgearAdmin.wait_for_page_load B _ timeout).
Proof.
  unfold NetgearAdmin.wait_for_page_load, NetgearAdmin.wait_for_ajax_load.
  apply keeps_bind; [repeat keeps_step | intros _].
  generalize 21%nat. intros left. induction left as [|left IH]; simpl;
    unfold NetgearAdmin.log, NetgearAdmin.sleep;
    (apply keeps_bind; [repeat keeps_step | intros src]);
    (destruct (_ <? _)%Z; [|keeps_step]).
  - apply keeps_bind; [apply error_screenshot_keeps | intros ?]. keeps_step.
  - do 3 (apply keeps_bind; [repeat keeps_step | intros ?]).
    exact IH.
Qed.

Lemma page_keeps tpl :
  keeps browser
    (NetgearAdmin.get self tpl;;
     NetgearAdmin.wait_for_page_load 20;;
     NetgearAdmin.do_screenshot self).
Proof.
  apply keeps_bind; [|intros _].
  - unfold NetgearAdmin.get, NetgearAdmin.log.
    do 2 (apply keeps_bind; [repeat keeps_step | intros ?]).
    apply get_retry_keeps.
  - apply keeps_bind; [apply wait_for_page_load_keeps | intros _].
    apply do_screenshot_keeps.
Qed.

Lemma check_login_keeps : keeps browser (NetgearAdmin.check_login self).
Proof.
  unfold NetgearAdmin.check_login, NetgearAdmin.log.
  apply keeps_bind; [|intros _; repeat keeps_step].
  apply keeps_try; [|intros _; repeat keeps_step].
  do 4 (apply keeps_bind; [repeat keeps_step | intros ?]).
  apply keeps_bind; [apply wait_for_page_load_keeps | intros _].
  apply do_screenshot_keeps.
Qed.

Lemma get_browser_keeps : keeps browser (NetgearAdmin.get_browser self).
Proof.
  unfold NetgearAdmin.get_browser, NetgearAdmin.log. repeat keeps_step.
Qed.

Lemma reboot_keeps : keeps browser (@NetgearAdmin.reboot B _).
Proof.
  unfold NetgearAdmin.reboot, NetgearAdmin.sleep. repeat keeps_step.
Qed.

Lemma block_services_keeps value :
  keeps browser (NetgearAdmin.block_services self value).
Proof.
  unfold NetgearAdmin.block_services.
  do 2 (apply keeps_bind; [repeat keeps_step | intros ?]).
  induction a0 as [|radio radios IH]; simpl; [keeps_step|].
  unfold NetgearAdmin.log, NetgearAdmin.sleep.
  apply keeps_bind; [repeat keeps_step | intros attr].
  destruct (_ || _); [|exact IH].
  do 2 (apply keeps_bind; [repeat keeps_step | intros ?]).
  apply keeps_bind; [apply do_screenshot_keeps | intros ?].
  do 3 (apply keeps_bind; [repeat keeps_step | intros ?]).
  apply keeps_bind; [apply wait_for_page_load_keeps | intros ?].
  apply keeps_bind; [apply do_screenshot_keeps | intros ?].
  keeps_step.
Qed.


End MethodFacts.

(** *** More on single events and lists *)

Module TraceFacts2.

(** No record of level [ERROR] or above. *)
Definition calm (ev : event) : bool := negb (is_error_log ev).

(** The parameters of the waits and sleeps of [get]. *)
Definition get_params (ev : event) : bool :=
  match ev with
  | EvWaitUrl t _ => (t =? 15)%Z
  | EvSleep n => (n =? 2)%Z
  | _ => true
  end.

(** What [get] may raise, the [RuntimeError] it announces excluded. *)
Definition name_or_driver (e : exn) : bool :=
  match e with
  | NameError name => String.eqb name "codecs"
  | WebDriverException _ => true
  | _ => false
  end.

Lemma name_or_driver_Exception e :
  name_or_driver e = true -> is_Exception e = true.
Proof. destruct e; simpl; congruence. Qed.

End TraceFacts2.

Import TraceFacts2.

Section Settling.

Context {B : Type} `{WebDriver B}.

(** When it returns, no URL wait is left failed. *)
Definition settles {A} (m : M B A) : Prop :=
  forall s n, is_ok (out (m s)) = true ->
              (failed_waits n (evs (m s)) <= n)%nat.

Lemma settles_bind {A D} (m : M B A) (k : A -> M B D) :
  settles m -> (forall a, settles (k a)) -> settles (bind m k).
Proof.
  intros Hm Hk s n.
  destruct (bind_cases m k s) as [(e & Ho & ->) | (a & Ho & ->)]; simpl;
    [discriminate|].
  intros Hok. rewrite failed_waits_app.
  etransitivity; [now apply Hk|]. apply Hm. now rewrite Ho.
Qed.

Lemma settles_inert {A} (P : event -> bool) (m : M B A) :
  (forall ev, P ev = true -> is_wait_url ev = false) ->
  emits P m -> settles m.
Proof.
  intros HP Hm s n _.
  rewrite failed_waits_none; [reflexivity|].
  eapply forallb_none; [exact HP | apply Hm].
Qed.

(** When it returns, an event satisfying [P] occurred. *)
Definition ok_has (P : event -> bool) {A} (m : M B A) : Prop :=
  forall s, is_ok (out (m s)) = true -> existsb P (evs (m s)) = true.

Lemma ok_has_bind_l (P : event -> bool) {A D} (m : M B A) (k : A -> M B D) :
  ok_has P m -> ok_has P (bind m k).
Proof.
  intros Hm s.
  destruct (bind_cases m k s) as [(e & Ho & ->) | (a & Ho & ->)]; simpl;
    [discriminate|].
  intros _. rewrite existsb_app, Hm; [reflexivity | now rewrite Ho].
Qed.

Lemma ok_has_bind_r (P : event -> bool) {A D} (m : M B A) (k : A -> M B D) :
  (forall a, ok_has P (k a)) -> ok_has P (bind m k).
Proof.
  intros Hk s.
  destruct (bind_cases m k s) as [(e & Ho & ->) | (a & Ho & ->)]; simpl;
    [discriminate|].
  intros Hok. rewrite existsb_app, (Hk a); [apply orb_true_r | exact Hok].
Qed.

Lemma ok_has_call (P : event -> bool) {X} (op : B -> res wd_exn X * B)
    (ev : res wd_exn X -> event) :
  (forall x, P (ev (Ok x)) = true) -> ok_has P (call op ev).
Proof.
  intros HP s. unfold call. destruct (op (drv s)) as [[x|e] b]; simpl;
    [|discriminate].
  intros _. now rewrite HP.
Qed.

Lemma ok_has_raise (P : event -> bool) {A} (e : exn) :
  ok_has P (@raise B A e).
Proof. intros s. discriminate. Qed.

End Settling.

(** Split on the outcome of the first part of a sequence. *)
Tactic Notation "bind_split" ident(e) ident(a) ident(Ho) :=
  match goal with
  | |- context [bind ?m ?k ?s] =>
      destruct (bind_cases m k s) as [(e & Ho & ->) | (a & Ho & ->)];
      simpl
  end.

Ltac ok_step :=
  first
    [ apply ok_if_ret
    | apply ok_if_gets
    | apply ok_if_modify
    | apply ok_if_emit
    | apply ok_if_call; solve [event_side]
    | apply ok_if_bind; [| intros ?]
    | apply ok_if_try_all; intros ?
    | match goal with
      | |- ok_if _ (if ?c then _ else _) => destruct c
      | |- ok_if _ (match ?c with _ => _ end) => destruct c
      end ].

Section MethodFacts3.

Context {B : Type} `{WebDriver B}.
Variable self : NetgearAdmin.t.

(** *** [get] *)

Lemma error_screenshot_name_or_driver fname :
  raises_only name_or_driver (@NetgearAdmin.error_screenshot B _ fname).
Proof.
  intros s e. unfold NetgearAdmin.error_screenshot. exec.
  repeat (split_call; cbn [out]; try (intros [= <-]; reflexivity)).
Qed.

Lemma get_retry_name_or_driver url xs :
  raises_only name_or_driver (@NetgearAdmin.get_retry B _ url xs).
Proof.
  induction xs as [|x xs IH]; simpl.
  - intros s e.
    bind_split e' a Ho.
    + intros [= <-]. now apply (error_screenshot_name_or_driver None s).
    + pose proof (error_screenshot_fails None s) as Hf.
      now rewrite Ho in Hf.
  - unfold NetgearAdmin.log, NetgearAdmin.sleep.
    apply raises_only_bind.
    + apply raises_only_total. intros s. exec. split_call; reflexivity.
    + intros [|]; [apply raises_only_total; reflexivity|].
      apply raises_only_bind.
      * intros s e. unfold call. destruct (navigate _ _) as [[u|w] b]; simpl;
          [discriminate | now intros [= <-]].
      * intros _. apply raises_only_bind; [|intros _; exact IH].
        apply raises_only_total. reflexivity.
Qed.

Lemma get_name_or_driver tpl :
  raises_only name_or_driver (NetgearAdmin.get self tpl).
Proof.
  unfold NetgearAdmin.get, NetgearAdmin.log.
  apply raises_only_bind; [apply raises_only_total; reflexivity | intros _].
  apply raises_only_bind; [|intros _; apply get_retry_name_or_driver].
  intros s e. unfold call. destruct (navigate _ _) as [[u|w] b]; simpl;
    [discriminate | now intros [= <-]].
Qed.

Lemma get_retry_settled url xs (s : state B) (n : nat) :
  is_ok (out (NetgearAdmin.get_retry url xs s)) = true ->
  failed_waits n (evs (NetgearAdmin.get_retry url xs s)) = 0%nat.
Proof.
  revert s n. induction xs as [|x xs IH]; intros s n; simpl.
  - bind_split e' a Ho; discriminate.
  - exec. destruct (wait_url_not_blank 15 (drv s)) as [[u|w] b1]; simpl.
    + reflexivity.
    + destruct (navigate url b1) as [[u|w'] b2]; simpl; [|discriminate].
      match goal with
      | |- context [NetgearAdmin.get_retry url xs ?s'] =>
          specialize (IH s'); destruct (NetgearAdmin.get_retry url xs s')
            as [o s2 t2]
      end.
      simpl in *. intros Hok. now apply IH.
Qed.

Lemma get_settled tpl (s : state B) (n : nat) :
  is_ok (out (NetgearAdmin.get self tpl s)) = true ->
  failed_waits n (evs (NetgearAdmin.get self tpl s)) = 0%nat.
Proof.
  unfold NetgearAdmin.get. exec.
  destruct (navigate _ (drv s)) as [[u|w] b1]; exec_cbn; [|discriminate].
  match goal with
  | |- context [NetgearAdmin.get_retry ?url ?xs ?s'] =>
      pose proof (get_retry_settled url xs s' n) as IH;
      destruct (NetgearAdmin.get_retry url xs s') as [o s2 t2]
  end.
  exact IH.
Qed.

End MethodFacts3.

Section MethodFacts4.

Context {B : Type} `{WebDriver B}.
Variable self : NetgearAdmin.t.

(** *** With a cooperative browser *)

Lemma get_retry_coop url x xs (s : state B) :
  forallb coop (evs (NetgearAdmin.get_retry url (x :: xs) s)) = true ->
  out (NetgearAdmin.get_retry url (x :: xs) s) = Ok tt
  /\ evs (NetgearAdmin.get_retry url (x :: xs) s) = [EvWaitUrl 15 (Ok tt)].
Proof.
  cbn [NetgearAdmin.get_retry]. exec.
  split_call; [destruct a; now split | coop_absurd].
Qed.

Lemma get_coop tpl : ok_if coop (NetgearAdmin.get self tpl).
Proof.
  unfold NetgearAdmin.get, NetgearAdmin.log.
  do 2 (apply ok_if_bind; [repeat ok_step | intros ?]).
  intros s Hc. change (seq 0 5) with (0%nat :: seq 1 4) in *.
  apply get_retry_coop in Hc as [-> _]. reflexivity.
Qed.

Lemma get_calm tpl : emits_if coop calm (NetgearAdmin.get self tpl).
Proof.
  unfold NetgearAdmin.get, NetgearAdmin.log.
  do 2 (apply emits_if_bind; [repeat emits_step | intros ?]).
  intros s Hc. change (seq 0 5) with (0%nat :: seq 1 4) in *.
  apply get_retry_coop in Hc as [_ ->]. reflexivity.
Qed.

Lemma wait_for_source_coop left (s : state B) :
  forallb coop (evs (NetgearAdmin.wait_for_source left s)) = true ->
  out (NetgearAdmin.wait_for_source left s) = Ok tt
  /\ exists src, evs (NetgearAdmin.wait_for_source left s) = [EvSource (Ok src)].
Proof.
  destruct left as [|left]; cbn [NetgearAdmin.wait_for_source]; exec;
    (split_call; [|coop_absurd]);
    (destruct (_ <? _)%Z eqn:Hlen; exec_cbn; [|intros _; split; eauto]);
    intros Hc; exfalso; revert Hc;
    repeat first [split_call | split_reply];
    cbn [forallb coop andb];
    (replace (30 <=? Z.of_nat (String.length a))%Z with false by lia);
    discriminate.
Qed.

Lemma wait_for_page_load_coop timeout :
  ok_if coop (@NetgearAdmin.wait_for_page_load B _ timeout).
Proof.
  unfold NetgearAdmin.wait_for_page_load, NetgearAdmin.wait_for_ajax_load.
  apply ok_if_bind; [repeat ok_step | intros _].
  intros s Hc. apply wait_for_source_coop in Hc as [-> _]. reflexivity.
Qed.

Lemma wait_for_page_load_calm timeout :
  emits_if coop calm (@NetgearAdmin.wait_for_page_load B _ timeout).
Proof.
  unfold NetgearAdmin.wait_for_page_load, NetgearAdmin.wait_for_ajax_load.
  apply emits_if_bind; [repeat emits_step | intros _].
  intros s Hc. apply wait_for_source_coop in Hc as [_ [src ->]]. reflexivity.
Qed.

Lemma do_screenshot_coop : ok_if coop (NetgearAdmin.do_screenshot self).
Proof.
  unfold NetgearAdmin.do_screenshot, NetgearAdmin.log. repeat ok_step.
Qed.

Lemma do_screenshot_calm : emits_if coop calm (NetgearAdmin.do_screenshot self).
Proof.
  unfold NetgearAdmin.do_screenshot, NetgearAdmin.log. repeat emits_step.
Qed.

Lemma page_coop tpl :
  ok_if coop
    (NetgearAdmin.get self tpl;;
     NetgearAdmin.wait_for_page_load 20;;
     NetgearAdmin.do_screenshot self).
Proof.
  apply ok_if_bind; [apply get_coop | intros _].
  apply ok_if_bind; [apply wait_for_page_load_coop | intros _].
  apply do_screenshot_coop.
Qed.

Lemma page_calm tpl :
  emits_if coop calm
    (NetgearAdmin.get self tpl;;
     NetgearAdmin.wait_for_page_load 20;;
     NetgearAdmin.do_screenshot self).
Proof.
  apply emits_if_bind; [apply get_calm | intros _].
  apply emits_if_bind; [apply wait_for_page_load_calm | intros _].
  apply do_screenshot_calm.
Qed.

Lemma check_login_calm : emits_if coop calm (NetgearAdmin.check_login self).
Proof.
  unfold NetgearAdmin.check_login, NetgearAdmin.log.
  apply emits_if_bind; [|intros _; repeat emits_step].
  apply emits_if_try; [|intros _; repeat emits_step].
  do 4 (apply emits_if_bind; [repeat emits_step | intros ?]).
  apply emits_if_bind; [apply wait_for_page_load_calm | intros _].
  apply do_screenshot_calm.
Qed.

Lemma reboot_coop : ok_if coop (@NetgearAdmin.reboot B _).
Proof.
  unfold NetgearAdmin.reboot, NetgearAdmin.sleep. repeat ok_step.
Qed.

Lemma reboot_calm : emits_if coop calm (@NetgearAdmin.reboot B _).
Proof.
  unfold NetgearAdmin.reboot, NetgearAdmin.sleep. repeat emits_step.
Qed.

Lemma block_services_coop value :
  ok_if coop (NetgearAdmin.block_services self value).
Proof.
  unfold NetgearAdmin.block_services.
  do 2 (apply ok_if_bind; [repeat ok_step | intros ?]).
  induction a0 as [|radio radios IH]; simpl; [ok_step|].
  unfold NetgearAdmin.log, NetgearAdmin.sleep.
  apply ok_if_bind; [repeat ok_step | intros attr].
  destruct (_ || _); [|exact IH].
  do 2 (apply ok_if_bind; [repeat ok_step | intros ?]).
  apply ok_if_bind; [apply do_screenshot_coop | intros ?].
  do 3 (apply ok_if_bind; [repeat ok_step | intros ?]).
  apply ok_if_bind; [apply wait_for_page_load_coop | intros ?].
  apply ok_if_bind; [apply do_screenshot_coop | intros ?].
  ok_step.
Qed.

Lemma block_services_calm value :
  emits_if coop calm (NetgearAdmin.block_services self value).
Proof.
  unfold NetgearAdmin.block_services.
  do 2 (apply emits_if_bind; [repeat emits_step | intros ?]).
  induction a0 as [|radio radios IH]; simpl; [emits_step|].
  unfold NetgearAdmin.log, NetgearAdmin.sleep.
  apply emits_if_bind; [repeat emits_step | intros attr].
  destruct (_ || _); [|exact IH].
  do 2 (apply emits_if_bind; [repeat emits_step | intros ?]).
  apply emits_if_bind; [apply do_screenshot_calm | intros ?].
  do 3 (apply emits_if_bind; [repeat emits_step | intros ?]).
  apply emits_if_bind; [apply wait_for_page_load_calm | intros ?].
  apply emits_if_bind; [apply do_screenshot_calm | intros ?].
  emits_step.
Qed.

Lemma get_browser_calm : emits_if coop calm (NetgearAdmin.get_browser self).
Proof.
  unfold NetgearAdmin.get_browser, NetgearAdmin.log. repeat emits_step.
Qed.

(** The browser names [parse_args] accepts. *)
Definition browsers : list string :=
  ["phantomjs"; "firefox"; "chrome"; "chrome-headless"].

Lemma get_browser_coop :
  In (NetgearAdmin.browser_name self) browsers ->
  ok_if coop (NetgearAdmin.get_browser self).
Proof.
  unfold browsers, NetgearAdmin.get_browser, NetgearAdmin.log. simpl.
  intros [<- | [<- | [<- | [<- | []]]]]; simpl; repeat ok_step.
Qed.

(** *** Milestones *)

Lemma get_browser_created :
  ok_has session_created (NetgearAdmin.get_browser self).
Proof.
  unfold NetgearAdmin.get_browser, NetgearAdmin.log.
  apply ok_has_bind_l.
  repeat match goal with
         | |- ok_has _ (if ?c then _ else _) => destruct c
         end;
    try apply ok_has_raise;
    repeat (apply ok_has_bind_r; intros ?);
    apply ok_has_call; reflexivity.
Qed.

Lemma get_browser_ready :
  ok_has session_ready (NetgearAdmin.get_browser self).
Proof.
  unfold NetgearAdmin.get_browser.
  apply ok_has_bind_r. intros _. apply ok_has_bind_l.
  apply ok_has_call. reflexivity.
Qed.

Lemma get_browser_not_ready (s : state B) :
  is_ok (out (NetgearAdmin.get_browser self s)) = false ->
  existsb session_ready (evs (NetgearAdmin.get_browser self s)) = false.
Proof.
  unfold NetgearAdmin.get_browser, NetgearAdmin.log.
  match goal with
  | |- context [bind ?m ?k s] =>
      assert (Hm : existsb session_ready (evs (m s)) = false);
      [|destruct (bind_cases m k s) as [(e & Ho & ->) | (a & Ho & ->)]]
  end.
  - eapply forallb_none with (P := fun ev => negb (session_ready ev)).
    + intros ev. now destruct (session_ready ev).
    + match goal with
      | |- forallb ?P (evs (?m s)) = true =>
          assert (Hem : emits_if (fun _ => true) P m) by repeat emits_step;
          apply Hem, forallb_forall; reflexivity
      end.
  - intros _. exact Hm.
  - cbn [out evs]. rewrite existsb_app, Hm. cbn [orb].
    exec. split_call; [discriminate | reflexivity].
Qed.

Lemma get_fetched tpl : ok_has (fetched tpl) (NetgearAdmin.get self tpl).
Proof.
  unfold NetgearAdmin.get.
  apply ok_has_bind_r. intros _. apply ok_has_bind_l.
  apply ok_has_call. intros ?. apply String.eqb_refl.
Qed.

Lemma page_fetched tpl :
  ok_has (fetched tpl)
    (NetgearAdmin.get self tpl;;
     NetgearAdmin.wait_for_page_load 20;;
     NetgearAdmin.do_screenshot self).
Proof. apply ok_has_bind_l, get_fetched. Qed.

Lemma page_waited_for tpl :
  ok_has page_waited
    (NetgearAdmin.get self tpl;;
     NetgearAdmin.wait_for_page_load 20;;
     NetgearAdmin.do_screenshot self).
Proof.
  apply ok_has_bind_r. intros _. apply ok_has_bind_l.
  unfold NetgearAdmin.wait_for_page_load, NetgearAdmin.wait_for_ajax_load.
  apply ok_has_bind_l, ok_has_bind_l, ok_has_call. reflexivity.
Qed.

Lemma page_settles tpl :
  settles
    (NetgearAdmin.get self tpl;;
     NetgearAdmin.wait_for_page_load 20;;
     NetgearAdmin.do_screenshot self).
Proof.
  apply settles_bind.
  - intros s n Hok. rewrite get_settled by exact Hok. lia.
  - intros _. apply settles_bind; [|intros _];
      eapply settles_inert with (P := quiet);
      try (intros []; simpl; congruence).
    + apply wait_for_page_load_quiet.
    + apply do_screenshot_quiet.
Qed.

End MethodFacts4.

(** *** Clicks and radios *)

Module Radios.

(** The value [block_services] looks for. *)
Definition wanted (value : bool) : string :=
  if value then "perschedule" else "never".

(** The first radio read whose value is the wanted one. *)
Definition chosen (value : bool) (ps : list (elem * option string))
  : option elem :=
  fst <$> List.find (fun p => bool_decide (snd p = Some (wanted value))) ps.

Lemma matches_wanted (value : bool) (attr : option string) :
  (value && bool_decide (attr = Some "perschedule"))
  || (negb value && bool_decide (attr = Some "never"))
  = bool_decide (attr = Some (wanted value)).
Proof. destruct value; simpl; [apply orb_false_r | reflexivity]. Qed.

Lemma quiet_probes (tr : list event) :
  forallb quiet tr = true -> probes tr = [].
Proof.
  induction tr as [|ev tr IH]; simpl; [reflexivity|].
  destruct ev; simpl; try discriminate; try exact IH.
  destruct lvl; simpl; try discriminate; exact IH.
Qed.

Lemma quiet_clicks (tr : list event) :
  forallb quiet tr = true -> clicks tr = [].
Proof.
  induction tr as [|ev tr IH]; simpl; [reflexivity|].
  destruct ev; simpl; try discriminate; try exact IH.
  destruct lvl; simpl; try discriminate; exact IH.
Qed.

End Radios.

Import Radios.

Section MethodFacts5.

Context {B : Type} `{WebDriver B}.
Variable self : NetgearAdmin.t.

(** The two halves of [check_login]. *)
Definition dismiss_multi_login : M B unit :=
  try_except
    (let xpath := "//form[starts-with(@action, 'multi_login.cgi')]" in
     call (find_element ByXpath xpath) (EvFind ByXpath xpath);;
     NetgearAdmin.log INFO "Multi login warning screen detected";;
     yes <- call (find_element ByName "yes") (EvFind ByName "yes");;
     call (click yes) (EvClick yes);;
     NetgearAdmin.wait_for_page_load 20;;
     NetgearAdmin.do_screenshot self)
    (fun _ => true)
    (fun _ => NetgearAdmin.log DEBUG "No Multi login warning screen detected").

Definition find_logout : M B bool :=
  try_except
    (call (find_element ByName "logout") (EvFind ByName "logout");;
     ret true)
    (fun _ => true)
    (fun _ => NetgearAdmin.log DEBUG "Logout button not found";; ret false).

Lemma check_login_halves :
  NetgearAdmin.check_login self = (dismiss_multi_login;; find_logout).
Proof. reflexivity. Qed.

Lemma dismiss_returns (s : state B) : out (dismiss_multi_login s) = Ok tt.
Proof.
  assert (Hok : ok_if (fun _ => true) dismiss_multi_login).
  { apply ok_if_try_all. intros _. apply ok_if_emit. }
  specialize (Hok s). destruct (out _) as [[]|e]; [reflexivity|].
  discriminate Hok. apply forallb_forall. reflexivity.
Qed.

Lemma dismiss_no_probe (s : state B) :
  existsb login_probe (evs (dismiss_multi_login s)) = false.
Proof.
  apply forallb_none with (P := fun ev => login_step ev && negb (login_probe ev)).
  { intros ev. destruct (login_probe ev); [|reflexivity].
    now rewrite andb_false_r. }
  revert s. apply emits_of_if.
  unfold dismiss_multi_login, NetgearAdmin.log.
  apply emits_if_try; [|intros _; repeat emits_step].
  do 4 (apply emits_if_bind; [repeat emits_step | intros ?]).
  apply emits_if_bind; [|intros _];
    (eapply emits_if_weaken with (Q := quiet);
     [intros ev Hq; rewrite (quiet_login_step _ Hq);
      destruct ev; simpl in *; try reflexivity; discriminate|]); intros s _.
  - apply wait_for_page_load_quiet.
  - apply do_screenshot_quiet.
Qed.

Lemma dismiss_clicks (s : state B) (e : elem) :
  In e (clicks (evs (dismiss_multi_login s))) ->
  In (EvFind ByName "yes" (Ok e)) (evs (dismiss_multi_login s)).
Proof.
  unfold dismiss_multi_login. exec.
  split_call; [|simpl; tauto].
  split_call; [|simpl; tauto].
  split_call; [|simpl; intuition (subst; auto)].
  match goal with
  | |- context [NetgearAdmin.wait_for_page_load 20 ?s'] =>
      pose proof (wait_for_page_load_quiet 20 s') as Hw;
      destruct (NetgearAdmin.wait_for_page_load 20 s') as [[[]|?] s1 t1]
  end; exec_cbn; cbn [evs] in Hw.
  - match goal with
    | |- context [NetgearAdmin.do_screenshot self ?s'] =>
        pose proof (do_screenshot_quiet self s') as Hd;
        destruct (NetgearAdmin.do_screenshot self s') as [[[]|?] s2 t2]
    end; exec_cbn; cbn [evs] in Hd;
      cbn [clicks In]; rewrite ?clicks_app, ?(quiet_clicks _ Hw),
        ?(quiet_clicks _ Hd); cbn [app clicks In];
      intros [<- | []]; auto 6.
  - cbn [clicks In]. rewrite ?clicks_app, ?(quiet_clicks _ Hw).
    cbn [app clicks In]. intros [<- | []]; auto 6.
Qed.

(** [check_login] returns whether the logout button was found; all it
    clicks is the [yes] button of the multi-login warning. *)
Lemma check_login_spec (s : state B) :
  let r := NetgearAdmin.check_login self s in
  exists b : bool,
    out r = Ok b
    /\ existsb login_confirmed (evs r) = b
    /\ existsb login_refused (evs r) = negb b
    /\ (forall e, In e (clicks (evs r)) ->
                  In (EvFind ByName "yes" (Ok e)) (evs r)).
Proof.
  rewrite check_login_halves. cbv zeta.
  rewrite (bind_ok _ _ _ _ (dismiss_returns s)). cbn [out evs].
  pose proof (dismiss_no_probe s) as Hp.
  pose proof (dismiss_clicks s) as Hc.
  set (t1 := evs (dismiss_multi_login s)) in *.
  assert (Hconf : existsb login_confirmed t1 = false).
  { clear -Hp. induction t1 as [|ev t1 IH]; [reflexivity|].
    simpl in *. apply orb_false_iff in Hp as [Hev Ht].
    rewrite IH by exact Ht.
    destruct ev as [| | | | | | | | | |[] ? []| | | | | | | | | |];
      simpl in *; rewrite ?orb_false_r; congruence. }
  assert (Href : existsb login_refused t1 = false).
  { clear -Hp. induction t1 as [|ev t1 IH]; [reflexivity|].
    simpl in *. apply orb_false_iff in Hp as [Hev Ht].
    rewrite IH by exact Ht.
    destruct ev as [| | | | | | | | | |[] ? []| | | | | | | | | |];
      simpl in *; rewrite ?orb_false_r; congruence. }
  unfold find_logout. exec.
  split_call; cbn [out evs].
  - exists true. rewrite !existsb_app, Hconf, Href, clicks_app.
    repeat split; try reflexivity.
    intros e. cbn [clicks]. rewrite app_nil_r. intros He.
    apply in_or_app. left. now apply Hc.
  - exists false. rewrite !existsb_app, Hconf, Href, clicks_app.
    repeat split; try reflexivity.
    intros e'. cbn [clicks]. rewrite app_nil_r. intros He.
    apply in_or_app. left. now apply Hc.
Qed.

(** [reboot], when it returns, has done these five steps. *)
Lemma reboot_ok (s : state B) :
  is_ok (out (NetgearAdmin.reboot s)) = true ->
  exists button,
    evs (NetgearAdmin.reboot s)
    = [EvFind ById "reboot" (Ok button); EvClick button (Ok tt);
       EvSleep 1; EvAlert (Ok tt); EvAccept (Ok tt)].
Proof.
  unfold NetgearAdmin.reboot. exec.
  repeat (split_call; [|discriminate]).
  intros _. repeat match goal with u : unit |- _ => destruct u end.
  eexists. reflexivity.
Qed.

End MethodFacts5.

Section BlockServices.

Context {B : Type} `{WebDriver B}.
Variable self : NetgearAdmin.t.

(** Split on a screenshot or a page wait whose events are known to be
    quiet and which returns when the browser cooperates. *)
Ltac split_quiet :=
  match goal with
  | |- context [NetgearAdmin.do_screenshot self ?s'] =>
      let Hq := fresh "Hq" in
      let Hk := fresh "Hk" in
      pose proof (do_screenshot_quiet self s') as Hq;
      pose proof (do_screenshot_coop self s') as Hk;
      destruct (NetgearAdmin.do_screenshot self s') as [[[]|?] ? ?];
      exec_cbn; cbn [evs out is_ok] in Hq, Hk
  | |- context [NetgearAdmin.wait_for_page_load ?t ?s'] =>
      let Hq := fresh "Hq" in
      let Hk := fresh "Hk" in
      pose proof (wait_for_page_load_quiet t s') as Hq;
      pose proof (wait_for_page_load_coop t s') as Hk;
      destruct (NetgearAdmin.wait_for_page_load t s') as [[[]|?] ? ?];
      exec_cbn; cbn [evs out is_ok] in Hq, Hk
  end.

Ltac coop_contra :=
  cbn [forallb coop andb is_ok app]; rewrite ?forallb_app;
  cbn [forallb coop andb is_ok]; rewrite ?forallb_app;
  rewrite ?andb_true_iff; intros;
  repeat match goal with
         | Hc : _ /\ _ |- _ => destruct Hc
         end;
  repeat match goal with
         | Hk : forallb coop ?t = true -> _, Hc : forallb coop ?t = true |- _ =>
             apply Hk in Hc
         end;
  discriminate.

Lemma block_services_loop_coop value apply radios (s : state B) :
  let r := NetgearAdmin.block_services_loop self value apply radios s in
  forallb coop (evs r) = true ->
  match chosen value (probes (evs r)) with
  | Some radio =>
      In radio radios /\ clicks (evs r) = [radio; apply] /\ out r = Ok true
  | None =>
      fst <$> probes (evs r) = radios /\ clicks (evs r) = []
      /\ out r = Ok false
  end.
Proof.
  cbv zeta. revert s. induction radios as [|radio radios IH]; intros s.
  - intros _. simpl. auto.
  - cbn [NetgearAdmin.block_services_loop]. exec.
    split_call; [|intros; discriminate].
    rewrite !matches_wanted.
    destruct (bool_decide (a = Some (wanted value))) eqn:Hm.
    + repeat first [split_call | split_quiet];
        try solve [coop_contra].
      intros _. cbn [probes out]. rewrite String.eqb_refl.
      unfold chosen. cbn [List.find snd fst fmap option_fmap option_map].
      rewrite Hm. cbn [fmap option_fmap option_map fst].
      repeat split; [now left|].
      cbn [clicks]. rewrite !clicks_app. cbn [clicks].
      rewrite !clicks_app, (quiet_clicks _ Hq), (quiet_clicks _ Hq0),
        (quiet_clicks _ Hq1). reflexivity.
    + specialize (IH (State b (os_environ s) (browser s) (_screenshot_num s))).
      destruct (NetgearAdmin.block_services_loop self value apply radios _)
        as [o s2 t2].
      cbn [evs out app] in *. cbn [forallb coop is_ok andb].
      intros Hc. specialize (IH Hc).
      cbn [probes]. rewrite String.eqb_refl.
      unfold chosen in *. cbn [List.find snd]. rewrite Hm.
      destruct (List.find _ (probes t2)) as [[radio' a']|];
        cbn [fmap option_fmap option_map fst] in *.
      * destruct IH as (Hin & Hcl & Ho). repeat split; auto. now right.
      * destruct IH as (Hpr & Hcl & Ho). repeat split; auto.
        cbn [fmap list_fmap fst]. f_equal. exact Hpr.
Qed.

End BlockServices.

(** ** The paths through [run] *)

Section Paths.

Context {B : Type} `{WebDriver B}.
Variable self : NetgearAdmin.t.

Lemma bind_assoc {A C D} (m : M B A) (k : A -> M B C) (h : C -> M B D)
    (s : state B) :
  bind (bind m k) h s = bind m (fun a => bind (k a) h) s.
Proof.
  unfold bind. destruct (m s) as [[a|e] s1 t1]; [|reflexivity].
  destruct (k a s1) as [[c|e] s2 t2]; [|reflexivity].
  destruct (h c s2) as [o s3 t3]. now rewrite app_assoc.
Qed.

Lemma bind_modify {C} (f : state B -> state B) (k : unit -> M B C)
    (s : state B) :
  bind (modify f) k s = k tt (f s).
Proof. unfold bind, modify. now destruct (k tt (f s)). Qed.

Lemma bind_emit {C} (ev : event) (k : unit -> M B C) (s : state B) :
  bind (emit ev) k s
  = Reply (out (k tt s)) (post (k tt s)) (ev :: evs (k tt s)).
Proof. unfold bind, emit. now destruct (k tt s). Qed.

Lemma bind_ret {A C} (a : A) (k : A -> M B C) (s : state B) :
  bind (ret a) k s = k a s.
Proof. unfold bind, ret. now destruct (k a s). Qed.

Lemma call_out {X} (op : B -> res wd_exn X * B)
    (ev : res wd_exn X -> event) (s : state B) :
  exists r : res wd_exn X,
    evs (call op ev s) = [ev r]
    /\ out (call op ev s)
       = match r with
         | Ok x => Ok x
         | Raise e => Raise (WebDriverException e)
         end
    /\ browser (post (call op ev s)) = browser s.
Proof.
  unfold call. destruct (op (drv s)) as [r b]. exists r. repeat split.
Qed.

(** What [run] does once logged in. *)
Definition perform : M B unit :=
  (if eq_str (NetgearAdmin.action self) ACTION_REBOOT then
     NetgearAdmin.get_home_page self;;
     NetgearAdmin.reboot
   else ret tt);;
  (if eq_str (NetgearAdmin.action self) ACTION_BLOCK
      || eq_str (NetgearAdmin.action self) ACTION_UNBLOCK then
     NetgearAdmin.get_block_page self;;
     NetgearAdmin.block_services self
       (eq_str (NetgearAdmin.action self) ACTION_BLOCK);;
     ret tt
   else ret tt).

(** The replies of the parts of [run_body], each from the state the
    part before it left. *)
Definition at_browser (s : state B) : reply B unit :=
  NetgearAdmin.get_browser self s.

Definition at_start (s : state B) : reply B unit :=
  let s1 := post (at_browser s) in
  NetgearAdmin.get_start_page self
    (State (drv s1) (os_environ s1) true (_screenshot_num s1)).

Definition at_login (s : state B) : reply B bool :=
  NetgearAdmin.check_login self (post (at_start s)).

Definition at_action (s : state B) : reply B unit :=
  perform (post (at_login s)).

(** The five ways through [run_body]. *)
Inductive body_path (s : state B) (rb : reply B unit) : Prop :=
  | NoBrowser :
      is_ok (out (at_browser s)) = false ->
      out rb = out (at_browser s) ->
      evs rb = evs (at_browser s) ->
      browser (post rb) = browser s ->
      body_path s rb
  | NoStartPage :
      is_ok (out (at_browser s)) = true ->
      is_ok (out (at_start s)) = false ->
      out rb = out (at_start s) ->
      evs rb = evs (at_browser s) ++ evs (at_start s) ->
      browser (post rb) = true ->
      body_path s rb
  | LoginRefused (q : res wd_exn unit) :
      is_ok (out (at_browser s)) = true ->
      is_ok (out (at_start s)) = true ->
      out (at_login s) = Ok false ->
      out rb = match q with
               | Ok _ => Raise (SystemExit (ExitInt 1))
               | Raise e => Raise (WebDriverException e)
               end ->
      evs rb = evs (at_browser s) ++ evs (at_start s) ++ evs (at_login s)
               ++ [EvLog CRITICAL "Login failed"; EvQuit q] ->
      browser (post rb) = true ->
      body_path s rb
  | ActionFailed :
      is_ok (out (at_browser s)) = true ->
      is_ok (out (at_start s)) = true ->
      out (at_login s) = Ok true ->
      is_ok (out (at_action s)) = false ->
      out rb = out (at_action s) ->
      evs rb = evs (at_browser s) ++ evs (at_start s) ++ evs (at_login s)
               ++ evs (at_action s) ->
      browser (post rb) = true ->
      body_path s rb
  | Finished (q : res wd_exn unit) :
      is_ok (out (at_browser s)) = true ->
      is_ok (out (at_start s)) = true ->
      out (at_login s) = Ok true ->
      is_ok (out (at_action s)) = true ->
      out rb = match q with
               | Ok _ => Ok tt
               | Raise e => Raise (WebDriverException e)
               end ->
      evs rb = evs (at_browser s) ++ evs (at_start s) ++ evs (at_login s)
               ++ evs (at_action s) ++ [EvQuit q] ->
      browser (post rb) = true ->
      body_path s rb.

Lemma perform_keeps : keeps browser perform.
Proof.
  unfold perform, NetgearAdmin.get_home_page, NetgearAdmin.get_block_page.
  apply keeps_bind; [|intros _].
  - destruct (eq_str _ _); [|apply keeps_ret].
    apply keeps_bind; [apply page_keeps | intros _; apply reboot_keeps].
  - destruct (_ || _); [|apply keeps_ret].
    apply keeps_bind; [apply page_keeps | intros _].
    apply keeps_bind; [apply block_services_keeps | intros _].
    apply keeps_ret.
Qed.

Lemma run_body_tail (logged_in : bool) (s : state B) :
  ((if negb logged_in then
      NetgearAdmin.log CRITICAL "Login failed";;
      NetgearAdmin.browser_quit;;
      raise (SystemExit (ExitInt 1))
    else ret tt);;
   (if eq_str (NetgearAdmin.action self) ACTION_REBOOT then
      NetgearAdmin.get_home_page self;;
      NetgearAdmin.reboot
    else ret tt);;
   (if eq_str (NetgearAdmin.action self) ACTION_BLOCK
       || eq_str (NetgearAdmin.action self) ACTION_UNBLOCK then
      NetgearAdmin.get_block_page self;;
      NetgearAdmin.block_services self
        (eq_str (NetgearAdmin.action self) ACTION_BLOCK);;
      ret tt
    else ret tt);;
   NetgearAdmin.browser_quit) s
  = ((if negb logged_in then
        NetgearAdmin.log CRITICAL "Login failed";;
        NetgearAdmin.browser_quit;;
        raise (SystemExit (ExitInt 1))
      else ret tt);;
     perform;;
     NetgearAdmin.browser_quit) s.
Proof.
  unfold perform.
  destruct (bind_cases
              (if negb logged_in then
                 NetgearAdmin.log CRITICAL "Login failed";;
                 NetgearAdmin.browser_quit;;
                 raise (SystemExit (ExitInt 1))
               else ret tt)
              (fun _ => perform;; NetgearAdmin.browser_quit) s)
    as [(e & Ho & Heq) | (a & Ho & Heq)]; unfold perform in Heq; rewrite Heq.
  - now rewrite (bind_raise _ _ _ _ Ho).
  - rewrite (bind_ok _ _ _ _ Ho). now rewrite bind_assoc.
Qed.

Lemma run_body_path (s : state B) : body_path s (NetgearAdmin.run_body self s).
Proof.
  unfold NetgearAdmin.run_body.
  pose proof (get_browser_keeps self s) as Kb.
  destruct (bind_cases (NetgearAdmin.get_browser self)
      (fun _ =>
         modify (fun s => State (drv s) (os_environ s) true (_screenshot_num s));;
         NetgearAdmin.get_start_page self;;
         logged_in <- NetgearAdmin.check_login self;;
         (if negb logged_in then
            NetgearAdmin.log CRITICAL "Login failed";;
            NetgearAdmin.browser_quit;;
            raise (SystemExit (ExitInt 1))
          else ret tt);;
         (if eq_str (NetgearAdmin.action self) ACTION_REBOOT then
            NetgearAdmin.get_home_page self;;
            NetgearAdmin.reboot
          else ret tt);;
         (if eq_str (NetgearAdmin.action self) ACTION_BLOCK
             || eq_str (NetgearAdmin.action self) ACTION_UNBLOCK then
            NetgearAdmin.get_block_page self;;
            NetgearAdmin.block_services self
              (eq_str (NetgearAdmin.action self) ACTION_BLOCK);;
            ret tt
          else ret tt);;
         NetgearAdmin.browser_quit) s)
    as [(e & Hgb & ->) | ([] & Hgb & ->)].
  { apply NoBrowser; unfold at_browser; cbn [out evs post];
      rewrite ?Hgb; auto. }
  rewrite bind_modify.
  set (s1 := State _ _ true _).
  assert (Hok_b : is_ok (out (at_browser s)) = true)
    by (unfold at_browser; now rewrite Hgb).
  pose proof (page_keeps self NetgearAdmin.START_URL s1) as Ks.
  change (NetgearAdmin.get self NetgearAdmin.START_URL;;
          NetgearAdmin.wait_for_page_load 20;;
          NetgearAdmin.do_screenshot self)
    with (NetgearAdmin.get_start_page self) in Ks.
  match goal with
  | |- context [bind (NetgearAdmin.get_start_page self) ?k s1] =>
      destruct (bind_cases (NetgearAdmin.get_start_page self) k s1)
        as [(e & Hsp & Heq) | ([] & Hsp & Heq)]
  end; rewrite Heq; clear Heq.
  { apply NoStartPage; auto; unfold at_start, at_browser; fold s1;
      cbn [out evs post]; rewrite ?Hsp; auto. }
  assert (Hok_s : is_ok (out (at_start s)) = true)
    by (unfold at_start, at_browser; fold s1; now rewrite Hsp).
  set (s2 := post (NetgearAdmin.get_start_page self s1)) in *.
  destruct (check_login_spec self s2) as (b & Hcl & _).
  pose proof (check_login_keeps self s2) as Kl.
  rewrite (bind_ok _ _ _ _ Hcl).
  set (s3 := post (NetgearAdmin.check_login self s2)) in *.
  assert (Hs3 : browser s3 = true) by (rewrite Kl, Ks; reflexivity).
  rewrite run_body_tail.
  assert (Hl : at_login s = NetgearAdmin.check_login self s2) by reflexivity.
  destruct b; cbn [negb].
  - rewrite bind_ret.
    pose proof (perform_keeps s3) as Kp.
    assert (Ha : at_action s = perform s3) by reflexivity.
    destruct (bind_cases perform (fun _ => NetgearAdmin.browser_quit) s3)
      as [(e & Hp & ->) | ([] & Hp & ->)].
    + apply ActionFailed; auto; cbn [out evs post];
        rewrite ?Hl, ?Ha, ?Hp, ?Kp; auto.
    + unfold NetgearAdmin.browser_quit.
      destruct (call_out quit EvQuit (post (perform s3)))
        as (q & Hev & Hout & Hbr).
      apply (Finished _ _ q); auto; cbn [out evs post];
        rewrite ?Hl, ?Ha, ?Hp, ?Hev, ?Hout, ?Hbr, ?Kp; auto.
      now destruct q as [[]|].
  - destruct (call_out quit EvQuit s3) as (q & Hev & Hout & Hbr).
    match goal with
    | |- context [bind ?m ?k s3] =>
        assert (Hm : out (m s3)
                     = match q with
                       | Ok _ => Raise (SystemExit (ExitInt 1))
                       | Raise e => Raise (WebDriverException e)
                       end
                     /\ evs (m s3) = [EvLog CRITICAL "Login failed"; EvQuit q]
                     /\ browser (post (m s3)) = true);
        [|destruct Hm as (Hmo & Hme & Hmb);
          assert (Hr : exists e, out (m s3) = Raise e)
            by (rewrite Hmo; destruct q; eauto);
          destruct Hr as (e & Hr); rewrite (bind_raise m k s3 e Hr)]
    end.
    + unfold NetgearAdmin.log, NetgearAdmin.browser_quit.
      rewrite bind_emit. cbn [out evs post].
      destruct q as [[]|w];
        [rewrite (bind_ok _ _ _ _ Hout) | rewrite (bind_raise _ _ _ _ Hout)];
        cbn [out evs post]; rewrite Hev; unfold raise; cbn [out evs post app];
        rewrite ?Hbr; auto.
    + apply (LoginRefused _ _ q); auto; cbn [out evs post];
        rewrite ?Hl, ?Hme, ?Hmb; auto. congruence.
Qed.

End Paths.

Section RunAndMain.

Context {B : Type} `{WebDriver B}.

Lemma bind_gets {A C} (f : state B -> A) (k : A -> M B C) (s : state B) :
  bind (gets f) k s = k (f s) s.
Proof. unfold bind, gets. now destruct (k (f s) s). Qed.

Lemma bind_raise_now {A C} (e : exn) (k : A -> M B C) (s : state B) :
  bind (raise e) k s = Reply (Raise e) s [].
Proof. reflexivity. Qed.

(** [run] is its body, and whatever the [except] clause adds. *)
Lemma run_outcome (self : NetgearAdmin.t) (s : state B) :
  let rb := NetgearAdmin.run_body self s in
  let r := NetgearAdmin.run self s in
  exists cleanup,
    evs r = EvLog DEBUG "Getting page..." :: evs rb ++ cleanup
    /\ match out rb with
       | Ok _ => out r = Ok tt /\ cleanup = []
       | Raise e =>
           if is_Exception e && browser (post rb) then
             exists q,
               cleanup = [EvQuit q]
               /\ out r = Raise (match q with
                                | Ok _ => e
                                | Raise w => WebDriverException w
                                end)
           else cleanup = [] /\ out r = Raise e
       end.
Proof.
  cbv zeta. unfold NetgearAdmin.run, NetgearAdmin.log.
  rewrite bind_emit. cbn [out evs].
  destruct (out (NetgearAdmin.run_body self s)) as [[]|e] eqn:Hb.
  - rewrite (try_ok _ _ _ _ _ Hb), Hb. exists []. now rewrite app_nil_r.
  - destruct (is_Exception e) eqn:He; cbn [andb].
    + rewrite (try_caught _ _ _ _ _ Hb He). cbn [out evs].
      rewrite bind_gets.
      destruct (browser (post (NetgearAdmin.run_body self s))).
      * unfold NetgearAdmin.browser_quit.
        destruct (call_out quit EvQuit (post (NetgearAdmin.run_body self s)))
          as (q & Hev & Hout & _).
        exists [EvQuit q]. split.
        -- destruct q as [[]|w];
             [rewrite (bind_ok _ _ _ _ Hout)
             | rewrite (bind_raise _ _ _ _ Hout)];
             cbn [evs raise]; now rewrite Hev, ?app_nil_r.
        -- exists q. split; [reflexivity|].
           destruct q as [[]|w];
             [rewrite (bind_ok _ _ _ _ Hout)
             | rewrite (bind_raise _ _ _ _ Hout)]; reflexivity.
      * exists []. rewrite bind_ret. cbn [raise out evs]. auto.
    + rewrite (try_uncaught _ _ _ _ _ Hb He), Hb.
      exists []. now rewrite app_nil_r.
Qed.

Variable parse_qs : string -> gmap string (list string).
Variable config_file : res exn pyval.

(** The object [main] builds. *)
Definition script_of (args : Namespace) (debug : bool)
    (router_ip username password : pyval) : NetgearAdmin.t :=
  {| NetgearAdmin.ip := router_ip;
     NetgearAdmin.username := username;
     NetgearAdmin.password := password;
     NetgearAdmin.action := of_opt (action args);
     NetgearAdmin.browser_name := browser_name args;
     NetgearAdmin._screenshot := debug |}.

(** [main] either stops before [run], having only logged, or runs the
    script on a fresh object and prints the CGI header if that
    returns. *)
Inductive main_path (args : Namespace) (r : reply B unit) : Prop :=
  | Stopped (e : exn) :
      out r = Raise e ->
      forallb prelude (evs r) = true ->
      main_path args r
  | Ran (debug : bool) (router_ip username password : pyval)
        (s0 : state B) (pre tail : list event) :
      let script := script_of args debug router_ip username password in
      browser s0 = false ->
      forallb startup pre = true ->
      evs r = pre ++ evs (NetgearAdmin.run script s0) ++ tail ->
      match out (NetgearAdmin.run script s0) with
      | Ok _ => out r = Ok tt /\ forallb is_print tail = true
      | Raise e => out r = Raise e /\ tail = []
      end ->
      main_path args r.

Ltac lookup name :=
  match goal with
  | |- context [lift (getConfigValue ?p ?e ?c ?a name ?d)] =>
      destruct (getConfigValue p e c a name d) as [?|?];
      cbn [lift];
      [rewrite bind_ret
      | rewrite bind_raise_now; cbn [out evs];
        eapply Stopped; cbn [out evs]; [reflexivity | reflexivity]]
  end.

Lemma main_paths (args : Namespace) (s : state B) :
  main_path args (main parse_qs config_file args s).
Proof.
  unfold main. cbv zeta. rewrite bind_gets.
  set (isCgi := bool_decide _).
  assert (Hlevel : forall (k : bool -> M B unit),
    (forall debug s', main_path args (k debug s')) ->
    main_path args
      (bind (if (verbose args >? 0)%Z then set_log_debug;; ret true
             else ret false) k s)).
  { intros k Hk. destruct (_ >? _)%Z.
    - unfold set_log_debug. rewrite bind_assoc, bind_emit. cbn beta.
      rewrite bind_ret.
      destruct (Hk true s) as [e Ho He | debug ip u p s0 pre tail script
                                        Hf Hpre Hev Hout].
      + eapply Stopped; cbn [out evs]; eauto.
      + eapply (Ran _ _ debug ip u p s0 (EvLogLevel DEBUG :: pre) tail);
          cbn [out evs]; auto.
        now rewrite Hev.
    - rewrite bind_ret. apply Hk. }
  apply Hlevel. clear Hlevel. intros debug s'.
  lookup "action". lookup "router_ip". lookup "username". lookup "password".
  destruct (negb (truthy a0) || negb (truthy a1) || negb (truthy a2)).
  { unfold NetgearAdmin.log. rewrite bind_assoc, bind_emit. cbn beta.
    rewrite bind_raise_now. eapply Stopped; reflexivity. }
  rewrite bind_ret.
  destruct (negb (truthy a)).
  { unfold NetgearAdmin.log. rewrite bind_assoc, bind_emit. cbn beta.
    rewrite bind_raise_now. eapply Stopped; reflexivity. }
  rewrite bind_ret.
  unfold NetgearAdmin.__init__, NetgearAdmin.log.
  rewrite bind_assoc, bind_emit. cbn beta.
  rewrite bind_assoc, bind_modify, bind_ret.
  fold (script_of args debug a0 a1 a2).
  set (script := script_of args debug a0 a1 a2).
  set (s0 := State _ _ false 1).
  match goal with
  | |- context [bind (NetgearAdmin.run script) ?k s0] =>
      destruct (bind_cases (NetgearAdmin.run script) k s0)
        as [(e & Ho & ->) | ([] & Ho & ->)]
  end.
  - eapply (Ran _ _ debug a0 a1 a2 s0
              [EvLog DEBUG "Getting browser instance..."] []);
      cbn [out evs]; auto.
    + now rewrite app_nil_r.
    + unfold script in *. now rewrite Ho.
  - eapply (Ran _ _ debug a0 a1 a2 s0
              [EvLog DEBUG "Getting browser instance..."]);
      cbn [out evs]; auto.
    unfold script in *. rewrite Ho.
    destruct isCgi; cbn; auto.
Qed.

End RunAndMain.

Section Whole.

Context {B : Type} `{WebDriver B}.

(** *** The actions *)

Section Perform.

Variable self : NetgearAdmin.t.

Lemma perform_acting : emits acting (perform self).
Proof.
  apply emits_of_if.
  unfold perform, NetgearAdmin.get_home_page, NetgearAdmin.get_block_page.
  apply emits_if_bind; [|intros _].
  - destruct (eq_str _ _); [|emits_step].
    apply emits_if_bind; [|intros _; apply emits_if_any, reboot_acting].
    eapply emits_if_weaken;
      [intros ev; apply (nav_acting NetgearAdmin.HOME_URL); now left|].
    intros s _. apply page_nav.
  - destruct (_ || _); [|emits_step].
    apply emits_if_bind; [|intros _].
    + eapply emits_if_weaken;
        [intros ev; apply (nav_acting NetgearAdmin.BLOCK_URL); now right|].
      intros s _. apply page_nav.
    + apply emits_if_bind; [|intros _; emits_step].
      apply emits_if_any, block_services_acting.
Qed.

Lemma perform_raises : raises_only is_Exception (perform self).
Proof.
  unfold perform, NetgearAdmin.get_home_page, NetgearAdmin.get_block_page.
  apply raises_only_bind; [|intros _].
  - destruct (eq_str _ _); [|raises_step].
    apply raises_only_bind; [apply page_raises | intros _].
    apply reboot_raises.
  - destruct (_ || _); [|raises_step].
    apply raises_only_bind; [apply page_raises | intros _].
    apply raises_only_bind; [apply block_services_raises | intros _].
    raises_step.
Qed.

Lemma acting_settles {A} (m : M B A) :
  emits (fun ev => acting ev && negb (is_wait_url ev)) m -> settles m.
Proof.
  apply settles_inert. intros ev. destruct (is_wait_url ev); [|reflexivity].
  now rewrite andb_false_r.
Qed.

Lemma reboot_settles : settles (@NetgearAdmin.reboot B _).
Proof.
  apply acting_settles, emits_of_if.
  unfold NetgearAdmin.reboot, NetgearAdmin.sleep. repeat emits_step.
Qed.

Lemma quiet_inert ev : quiet ev = true -> acting ev && negb (is_wait_url ev) = true.
Proof.
  intros Hq. rewrite (quiet_acting _ Hq).
  destruct ev; simpl in *; try reflexivity; discriminate.
Qed.

Lemma block_services_settles value :
  settles (NetgearAdmin.block_services self value).
Proof.
  apply acting_settles, emits_of_if. unfold NetgearAdmin.block_services.
  do 2 (apply emits_if_bind; [repeat emits_step | intros ?]).
  induction a0 as [|radio radios IH]; simpl; [emits_step|].
  unfold NetgearAdmin.log, NetgearAdmin.sleep.
  apply emits_if_bind; [repeat emits_step | intros attr].
  destruct (_ || _); [|exact IH].
  do 2 (apply emits_if_bind; [repeat emits_step | intros ?]).
  apply emits_if_bind;
    [eapply emits_if_weaken;
       [apply quiet_inert | intros s _; apply do_screenshot_quiet]
    | intros ?].
  do 3 (apply emits_if_bind; [repeat emits_step | intros ?]).
  apply emits_if_bind;
    [eapply emits_if_weaken;
       [apply quiet_inert | intros s _; apply wait_for_page_load_quiet]
    | intros ?].
  apply emits_if_bind;
    [eapply emits_if_weaken;
       [apply quiet_inert | intros s _; apply do_screenshot_quiet]
    | intros ?].
  emits_step.
Qed.

Lemma settles_ret {A} (a : A) : settles (@ret B A a).
Proof. intros s n _. reflexivity. Qed.

Lemma perform_settles : settles (perform self).
Proof.
  unfold perform, NetgearAdmin.get_home_page, NetgearAdmin.get_block_page.
  apply settles_bind; [|intros _].
  - destruct (eq_str _ _); [|apply settles_ret].
    apply settles_bind; [apply page_settles | intros _; apply reboot_settles].
  - destruct (_ || _); [|apply settles_ret].
    apply settles_bind; [apply page_settles | intros _].
    apply settles_bind; [apply block_services_settles | intros _].
    apply settles_ret.
Qed.

Lemma perform_coop : ok_if coop (perform self).
Proof.
  unfold perform, NetgearAdmin.get_home_page, NetgearAdmin.get_block_page.
  apply ok_if_bind; [|intros _].
  - destruct (eq_str _ _); [|ok_step].
    apply ok_if_bind; [apply page_coop | intros _; apply reboot_coop].
  - destruct (_ || _); [|ok_step].
    apply ok_if_bind; [apply page_coop | intros _].
    apply ok_if_bind; [apply block_services_coop | intros _]. ok_step.
Qed.

Lemma perform_calm : emits_if coop calm (perform self).
Proof.
  unfold perform, NetgearAdmin.get_home_page, NetgearAdmin.get_block_page.
  apply emits_if_bind; [|intros _].
  - destruct (eq_str _ _); [|emits_step].
    apply emits_if_bind; [apply page_calm | intros _; apply reboot_calm].
  - destruct (_ || _); [|emits_step].
    apply emits_if_bind; [apply page_calm | intros _].
    apply emits_if_bind; [apply block_services_calm | intros _]. emits_step.
Qed.

(** With none of the three actions, nothing is done. *)
Lemma perform_idle (s : state B) :
  eq_str (NetgearAdmin.action self) ACTION_REBOOT = false ->
  eq_str (NetgearAdmin.action self) ACTION_BLOCK = false ->
  eq_str (NetgearAdmin.action self) ACTION_UNBLOCK = false ->
  perform self s = Reply (Ok tt) s [].
Proof. unfold perform. intros -> -> ->. reflexivity. Qed.

End Perform.

(** *** The whole program *)

Variable parse_qs : string -> gmap string (list string).
Variable config_file : res exn pyval.

(** [main] stops before [run], or goes one of the ways through
    [run_body], followed by what the [except] clause of [run] and the
    CGI header add. *)
Inductive whole_path (args : Namespace) (r : reply B unit) : Prop :=
  | NotStarted (e : exn) :
      out r = Raise e ->
      forallb prelude (evs r) = true ->
      whole_path args r
  | Started (debug : bool) (router_ip username password : pyval)
        (s0 : state B) (pre cleanup tail : list event) :
      let script := script_of args debug router_ip username password in
      let rb := NetgearAdmin.run_body script s0 in
      browser s0 = false ->
      forallb startup pre = true ->
      forallb is_quit cleanup = true ->
      forallb is_print tail = true ->
      evs r = pre ++ EvLog DEBUG "Getting page..." :: evs rb ++ cleanup ++ tail ->
      body_path script s0 rb ->
      match out rb with
      | Ok _ => out r = Ok tt /\ cleanup = []
      | Raise e =>
          tail = []
          /\ if is_Exception e && browser (post rb) then
               exists q,
                 cleanup = [EvQuit q]
                 /\ out r = Raise (match q with
                                  | Ok _ => e
                                  | Raise w => WebDriverException w
                                  end)
             else cleanup = [] /\ out r = Raise e
      end ->
      whole_path args r.

Lemma main_whole (args : Namespace) (s : state B) :
  whole_path args (main parse_qs config_file args s).
Proof.
  destruct (main_paths parse_qs config_file args s)
    as [e Ho He | debug ip u p s0 pre tail script Hf Hpre Hev Hout].
  { eapply NotStarted; eauto. }
  destruct (run_outcome script s0) as (cleanup & Hrun & Hcl).
  fold script in Hcl.
  assert (Hq : forallb is_quit cleanup = true).
  { destruct (out (NetgearAdmin.run_body script s0)) as [[]|e].
    - now destruct Hcl as [_ ->].
    - destruct (_ && _); [destruct Hcl as (q & -> & _) | destruct Hcl as [-> _]];
        reflexivity. }
  assert (Ht : forallb is_print tail = true).
  { destruct (out (NetgearAdmin.run script s0)) as [[]|e];
      [apply Hout | now destruct Hout as [_ ->]]. }
  eapply (Started _ _ debug ip u p s0 pre cleanup tail); auto.
  - rewrite Hev, Hrun. cbn [app]. now rewrite <- app_assoc.
  - apply run_body_path.
  - fold script. destruct (out (NetgearAdmin.run_body script s0)) as [[]|e].
    + destruct Hcl as [Hr ->]. rewrite Hr in Hout. tauto.
    + destruct (_ && _).
      * destruct Hcl as (q & -> & Hr). rewrite Hr in Hout.
        destruct Hout as [-> ->]. eauto.
      * destruct Hcl as [-> Hr]. rewrite Hr in Hout.
        destruct Hout as [-> ->]. auto.
Qed.

End Whole.

(** ** The statements of the specification *)

Lemma exit_status_Exception {A} (e : exn) :
  is_Exception e = true -> exit_status (@Raise exn A e) = 1.
Proof. destruct e; simpl; congruence. Qed.

(** Two kinds of events have nothing in common: by cases on the event,
    comparing strings where a selector or a template decides. *)
Ltac kind_disjoint :=
  let ev := fresh "ev" in
  intros ev;
  destruct ev as [| | | | | | | | | |[] ? ?|[] ? ?| | | | | |[] ?| | |];
  simpl; try congruence; try reflexivity;
  rewrite ?orb_true_iff, ?andb_true_iff; intros;
  repeat match goal with
         | Hd : _ \/ _ |- _ => destruct Hd
         | Hd : _ /\ _ |- _ => destruct Hd
         | Hd : String.eqb _ _ = true |- _ =>
             apply String.eqb_eq in Hd; rewrite Hd in *; clear Hd
         end;
  try reflexivity; try discriminate;
  repeat match goal with
         | r : res wd_exn _ |- _ => destruct r
         end;
  try reflexivity; try discriminate.

(** For every list known to hold events of one kind only, record that
    it has no event satisfying [Q], when that is so. *)
Ltac none_of Q :=
  repeat match goal with
         | HK : forallb ?K ?t = true |- _ =>
             lazymatch goal with
             | _ : existsb Q t = false |- _ => fail
             | _ =>
                 let Hn := fresh "Hn" in
                 assert (Hn : existsb Q t = false)
                   by (eapply forallb_none; [|exact HK]; kind_disjoint)
             end
         end.

Ltac use_none :=
  rewrite ?existsb_app; cbn [existsb];
  rewrite ?existsb_app; cbn [existsb];
  repeat match goal with
         | Hn : existsb _ _ = false |- _ => rewrite Hn
         end;
  cbn [orb andb negb is_critical is_warning is_error_log is_new
       session_created session_ready is_quit is_get fetches fetched
       page_waited finds login_probe login_confirmed login_refused
       is_click action_step is_wait_url is_print locator_eqb template
       String.eqb Ascii.eqb Bool.eqb NetgearAdmin.START_URL
       NetgearAdmin.HOME_URL NetgearAdmin.BLOCK_URL].

(** ** The default user name *)

Section DefaultUsername.

Context {B : Type} `{WebDriver B}.
Variable parse_qs : string -> gmap string (list string).

(** Without a query string a lookup either returns what the command
    line gave or ends with the outcome of loading config.json. *)
Lemma getConfigValue_cli_or_file (environ : gmap string string) (e : exn)
    (args : Namespace) (name : string) (default : pyval) :
  environ !! "QUERY_STRING" = None ->
  getConfigValue parse_qs environ (Raise e) args name default = Raise e
  \/ exists v,
       getConfigValue parse_qs environ (Raise e) args name default = Ok v.
Proof.
  intros Henv. unfold getConfigValue, query_stage. rewrite Henv.
  destruct (vars args !! name) as [v|]; [|now left].
  destruct (truthy v); [right; now exists v | now left].
Qed.

(** C3, on the code: with no [-u] on the command line and no query
    string, the lookup of the user name, whose default is ['admin'],
    loads config.json before the default is considered; when the file
    cannot be loaded the exception of the load comes out of
    [getConfigValue] instead of ['admin'], and [main] ends with that
    exception before a browser is started, having logged nothing. *)
Theorem default_username_needs_config_file (e : exn) (args : Namespace)
    (s : state B) :
  username args = None ->
  os_environ s !! "QUERY_STRING" = None ->
  let r := main parse_qs (Raise e) args s in
  getConfigValue parse_qs (os_environ s) (Raise e) args
    "username" (VStr "admin") = Raise e
  /\ out r = Raise e
  /\ evs r = (if (verbose args >? 0)%Z then [EvLogLevel DEBUG] else []).
Proof.
  intros Hu Henv. cbv zeta.
  assert (Hname : getConfigValue parse_qs (os_environ s) (Raise e) args
                    "username" (VStr "admin") = Raise e).
  { apply getConfigValue_load_error.
    - unfold cli_value, vars. rewrite Hu. reflexivity.
    - unfold query_value. now rewrite Henv. }
  split; [exact Hname|].
  unfold main, set_log_debug. cbv zeta. rewrite bind_gets.
  destruct (getConfigValue_cli_or_file (os_environ s) e args
              "action" (VBool false) Henv) as [-> | [a ->]];
    [|destruct (getConfigValue_cli_or_file (os_environ s) e args
                  "router_ip" (VBool false) Henv) as [-> | [ip ->]]];
    rewrite ?Hname; cbn [lift];
    destruct (verbose args >? 0)%Z;
    rewrite ?bind_assoc, ?bind_emit; cbn beta;
    rewrite ?bind_ret, ?bind_raise_now; cbn [out evs app];
    split; reflexivity.
Qed.

End DefaultUsername.

Section Claims.

Context {B : Type} `{WebDriver B}.
Variable parse_qs : string -> gmap string (list string).
Variable config_file : res exn pyval.

Section Segments.

Variable self : NetgearAdmin.t.
Variable s : state B.

Lemma at_browser_setup : forallb setup (evs (at_browser self s)) = true.
Proof. apply get_browser_setup. Qed.

Lemma at_start_nav :
  forallb (nav NetgearAdmin.START_URL) (evs (at_start self s)) = true.
Proof. apply get_start_page_nav. Qed.

Lemma at_login_steps : forallb login_step (evs (at_login self s)) = true.
Proof. apply check_login_steps. Qed.

Lemma at_action_acting : forallb acting (evs (at_action self s)) = true.
Proof. apply perform_acting. Qed.

End Segments.

(** The events of the parts of a run, by kind. *)
Ltac segments script s0 :=
  pose proof (at_browser_setup script s0);
  pose proof (at_start_nav script s0);
  pose proof (at_login_steps script s0);
  pose proof (at_action_acting script s0).

(** C1: when the logout button is not found, the process logs a
    critical record and exits with a non-zero status; it fetches no
    action page and touches no element of one, and all it may have
    clicked is the [yes] button of the multi-login warning. *)
Theorem login_failure_is_fatal (args : Namespace) (s : state B) :
  let r := main parse_qs config_file args s in
  existsb login_refused (evs r) = true ->
  existsb is_critical (evs r) = true
  /\ exit_status (out r) <> 0
  /\ existsb action_step (evs r) = false
  /\ (forall e, In e (clicks (evs r)) ->
                In (EvFind ByName "yes" (Ok e)) (evs r)).
Proof.
  cbv zeta.
  destruct (main_whole parse_qs config_file args s)
    as [e Ho Hpre
       | debug ip u p s0 pre cleanup tail script rb
           Hf Hpre Hcl Htail Hev Hpath Hout];
    intros Href.
  { none_of login_refused. congruence. }
  unfold rb in *. clear rb.
  segments script s0.
  destruct (check_login_spec script (post (at_start script s0)))
    as (b & Hb & _ & Hrefused & Hclicks).
  fold (at_login script s0) in Hb, Hrefused, Hclicks.
  rewrite Hev in *. clear Hev.
  destruct Hpath as [Hgb Horb Hevb Hbr
                    | Hgb Hsp Horb Hevb Hbr
                    | q Hgb Hsp Hl Horb Hevb Hbr
                    | Hgb Hsp Hl Hact Horb Hevb Hbr
                    | q Hgb Hsp Hl Hact Horb Hevb Hbr];
    rewrite Hevb in *; clear Hevb.
  - exfalso. none_of login_refused. revert Href. use_none. discriminate.
  - exfalso. none_of login_refused. revert Href. use_none. discriminate.
  - repeat split.
    + rewrite !existsb_app. cbn [existsb]. rewrite !existsb_app.
      cbn [existsb is_critical]. now rewrite ?orb_true_r.
    + rewrite Horb in Hout. destruct q as [[]|w].
      * cbn [is_Exception andb] in Hout. destruct Hout as (_ & _ & ->).
        discriminate.
      * cbn [is_Exception andb] in Hout.
        rewrite Hbr in Hout. destruct Hout as (_ & q' & _ & ->).
        rewrite exit_status_Exception; [discriminate | now destruct q'].
    + none_of action_step. use_none. reflexivity.
    + none_of is_click.
      repeat match goal with
             | Hn : existsb is_click _ = false |- _ =>
                 apply clicks_none in Hn
             end.
      intros e. rewrite !clicks_app. cbn [clicks]. rewrite !clicks_app.
      cbn [clicks].
      repeat match goal with
             | Hn : clicks _ = [] |- _ => rewrite Hn
             end.
      cbn [app]. rewrite ?app_nil_r. intros He. apply Hclicks in He.
      rewrite ?in_app_iff. cbn [In]. rewrite ?in_app_iff. tauto.
  - exfalso. rewrite Hl in Hb. injection Hb as <-. cbn [negb] in Hrefused.
    none_of login_refused. revert Href. use_none. discriminate.
  - exfalso. rewrite Hl in Hb. injection Hb as <-. cbn [negb] in Hrefused.
    none_of login_refused. revert Href. use_none. discriminate.
Qed.


(** C4, on the code: with no action on the command line the script
    performs none, whatever the query string and config.json say;
    [main] hands [args.action] to the object, not the value it looked
    up and checked. *)
Theorem action_only_from_command_line (args : Namespace) (s : state B) :
  action args = None ->
  existsb action_step (evs (main parse_qs config_file args s)) = false.
Proof.
  intros Hnone.
  destruct (main_whole parse_qs config_file args s)
    as [e Ho Hpre
       | debug ip u p s0 pre cleanup tail script rb
           Hf Hpre Hcl Htail Hev Hpath Hout].
  { none_of action_step. assumption. }
  unfold rb in *. clear rb.
  segments script s0.
  assert (Hidle : evs (at_action script s0) = []).
  { unfold at_action. rewrite perform_idle; [reflexivity | | |];
      unfold script, script_of; simpl; now rewrite Hnone. }
  rewrite Hev. clear Hev. none_of action_step.
  destruct Hpath as [Hgb Horb Hevb Hbr
                    | Hgb Hsp Horb Hevb Hbr
                    | q Hgb Hsp Hl Horb Hevb Hbr
                    | Hgb Hsp Hl Hact Horb Hevb Hbr
                    | q Hgb Hsp Hl Hact Horb Hevb Hbr];
    rewrite Hevb, ?Hidle; use_none; reflexivity.
Qed.

(** *** Navigation *)

Lemma count_app (P : event -> bool) (t1 t2 : list event) :
  count P (t1 ++ t2) = (count P t1 + count P t2)%nat.
Proof. unfold count. now rewrite List.filter_app, length_app. Qed.

Lemma count_none (P : event -> bool) (tr : list event) :
  existsb P tr = false -> count P tr = 0%nat.
Proof.
  unfold count. induction tr as [|ev tr IH]; simpl; [reflexivity|].
  rewrite orb_false_iff. intros [-> Htr]. now apply IH.
Qed.

(** What [error_screenshot] emits. *)
Definition snapshot (ev : event) : bool :=
  match ev with
  | EvShot _ _ | EvTitle _ | EvScript _ _ | EvLog ERROR _ => true
  | _ => false
  end.

Lemma error_screenshot_snapshot fname :
  emits snapshot (@NetgearAdmin.error_screenshot B _ fname).
Proof.
  apply emits_of_if. unfold NetgearAdmin.error_screenshot, NetgearAdmin.log.
  repeat emits_step.
Qed.

Lemma get_retry_bounded url xs (s : state B) :
  let t := evs (NetgearAdmin.get_retry url xs s) in
  (count is_get t <= length xs)%nat
  /\ (count is_wait_url t <= length xs)%nat
  /\ forallb get_params t = true.
Proof.
  cbv zeta. revert s. induction xs as [|x xs IH]; intros s.
  - cbn [NetgearAdmin.get_retry length].
    pose proof (error_screenshot_snapshot None s) as Hs.
    bind_split e a Ho.
    + none_of is_get. none_of is_wait_url.
      rewrite !count_none by assumption. repeat split; try lia.
      eapply forallb_weaken; [|exact Hs]. now intros [].
    + pose proof (error_screenshot_fails None s) as Hf.
      now rewrite Ho in Hf.
  - cbn [NetgearAdmin.get_retry length]. exec.
    split_call; [cbn; repeat split; lia|].
    split_call.
    + specialize (IH (State b0 (os_environ s) (browser s) (_screenshot_num s))).
      destruct (NetgearAdmin.get_retry url xs _) as [o s2 t2].
      cbn [evs] in *. destruct IH as (Hg & Hw & Hp).
      unfold count in *. cbn. rewrite Hp. repeat split; lia.
    + cbn. repeat split; lia.
Qed.

(** C6, on the code: [get] fetches the URL at most six times, waits at
    most five times, 15 seconds each, and sleeps 2 seconds after each
    retry; it never raises [RuntimeError]: once the five waits have
    failed, what comes out is the [NameError] of [error_screenshot], or
    an exception of a webdriver call made there. *)
Theorem get_gives_up_without_RuntimeError (self : NetgearAdmin.t)
    (tpl : string) (s : state B) :
  let r := NetgearAdmin.get self tpl s in
  (count is_get (evs r) <= 6)%nat
  /\ (count is_wait_url (evs r) <= 5)%nat
  /\ forallb get_params (evs r) = true
  /\ (forall msg, out r <> Raise (RuntimeError msg))
  /\ (gave_up (evs r) = true ->
      exists e, out r = Raise e /\ name_or_driver e = true).
Proof.
  cbv zeta. repeat split.
  - unfold NetgearAdmin.get. exec. split_call; [|cbn; lia].
    match goal with
    | |- context [NetgearAdmin.get_retry ?url ?xs ?s'] =>
        destruct (get_retry_bounded url xs s') as (Hg & _ & _);
        destruct (NetgearAdmin.get_retry url xs s') as [o s2 t2]
    end.
    cbn [evs length seq] in *. unfold count in *. cbn. lia.
  - unfold NetgearAdmin.get. exec. split_call; [|cbn; lia].
    match goal with
    | |- context [NetgearAdmin.get_retry ?url ?xs ?s'] =>
        destruct (get_retry_bounded url xs s') as (_ & Hw & _);
        destruct (NetgearAdmin.get_retry url xs s') as [o s2 t2]
    end.
    cbn [evs length seq] in *. unfold count in *. cbn. lia.
  - unfold NetgearAdmin.get. exec. split_call; [|reflexivity].
    match goal with
    | |- context [NetgearAdmin.get_retry ?url ?xs ?s'] =>
        destruct (get_retry_bounded url xs s') as (_ & _ & Hp);
        destruct (NetgearAdmin.get_retry url xs s') as [o s2 t2]
    end.
    cbn [evs] in *. cbn. exact Hp.
  - intros msg Ho. apply (get_name_or_driver self tpl s) in Ho. discriminate.
  - unfold gave_up. intros Hg.
    destruct (out (NetgearAdmin.get self tpl s)) as [[]|e] eqn:Ho.
    + rewrite (get_settled self tpl s 0) in Hg by now rewrite Ho.
      discriminate.
    + exists e. split; [reflexivity|].
      now apply (get_name_or_driver self tpl s).
Qed.

(** *** Warnings and failed waits *)

(** Where the count of failed waits went up, a warning was logged. *)
Definition warned (t : list event) : Prop :=
  forall n, (n < failed_waits n t)%nat -> existsb is_warning t = true.

Lemma warned_app (t1 t2 : list event) :
  warned t1 -> warned t2 -> warned (t1 ++ t2).
Proof.
  intros H1 H2 n. rewrite failed_waits_app, existsb_app. intros Hlt.
  destruct (Nat.lt_ge_cases n (failed_waits n t1)) as [Hn|Hn].
  - now rewrite (H1 n Hn).
  - rewrite (H2 (failed_waits n t1)); [apply orb_true_r | lia].
Qed.

Lemma warned_inert (t : list event) :
  existsb is_wait_url t = false -> warned t.
Proof. intros Ht n. rewrite failed_waits_none by exact Ht. lia. Qed.

Lemma warned_cons (ev : event) (t : list event) :
  is_wait_url ev = false -> warned t -> warned (ev :: t).
Proof.
  intros Hev Ht. change (ev :: t) with ([ev] ++ t).
  apply warned_app; [|exact Ht]. apply warned_inert. simpl. now rewrite Hev.
Qed.

Definition warns {A} (m : M B A) : Prop := forall s, warned (evs (m s)).

Lemma warns_bind {A D} (m : M B A) (k : A -> M B D) :
  warns m -> (forall a, warns (k a)) -> warns (bind m k).
Proof.
  intros Hm Hk s.
  destruct (bind_cases m k s) as [(e & Ho & ->) | (a & Ho & ->)]; cbn [evs].
  - apply Hm.
  - apply warned_app; [apply Hm | apply Hk].
Qed.

Lemma warns_inert {A} (P : event -> bool) (m : M B A) :
  (forall ev, P ev = true -> is_wait_url ev = false) ->
  emits P m -> warns m.
Proof.
  intros HP Hm s. apply warned_inert.
  eapply forallb_none; [exact HP | apply Hm].
Qed.

Lemma get_retry_warns url xs : warns (@NetgearAdmin.get_retry B _ url xs).
Proof.
  induction xs as [|x xs IH]; cbn [NetgearAdmin.get_retry].
  - apply warns_bind; [|intros _ s; apply warned_inert; reflexivity].
    eapply warns_inert; [|apply error_screenshot_snapshot]. now intros [].
  - intros s. exec. split_call.
    + intros n. cbn. lia.
    + intros n _. repeat first [split_call | split_reply]; reflexivity.
Qed.

Lemma page_warns (self : NetgearAdmin.t) tpl :
  warns
    (NetgearAdmin.get self tpl;;
     NetgearAdmin.wait_for_page_load 20;;
     NetgearAdmin.do_screenshot self).
Proof.
  apply warns_bind; [|intros _; apply warns_bind; [|intros _]].
  - unfold NetgearAdmin.get, NetgearAdmin.log.
    apply warns_bind; [intros s; apply warned_inert; reflexivity | intros _].
    apply warns_bind; [|intros _; apply get_retry_warns].
    intros s. apply warned_inert. unfold call.
    now destruct (navigate _ _).
  - eapply warns_inert; [|apply wait_for_page_load_quiet]. now intros [].
  - eapply warns_inert; [|apply do_screenshot_quiet]. now intros [].
Qed.

Lemma reboot_inert :
  emits (fun ev => acting ev && negb (is_wait_url ev)) (@NetgearAdmin.reboot B _).
Proof.
  apply emits_of_if.
  unfold NetgearAdmin.reboot, NetgearAdmin.sleep. repeat emits_step.
Qed.

Lemma block_services_inert (self : NetgearAdmin.t) value :
  emits (fun ev => acting ev && negb (is_wait_url ev))
    (NetgearAdmin.block_services self value).
Proof.
  apply emits_of_if. unfold NetgearAdmin.block_services.
  do 2 (apply emits_if_bind; [repeat emits_step | intros ?]).
  induction a0 as [|radio radios IH]; simpl; [emits_step|].
  unfold NetgearAdmin.log, NetgearAdmin.sleep.
  apply emits_if_bind; [repeat emits_step | intros attr].
  destruct (_ || _); [|exact IH].
  do 2 (apply emits_if_bind; [repeat emits_step | intros ?]).
  apply emits_if_bind;
    [eapply emits_if_weaken;
       [apply quiet_inert | intros s _; apply do_screenshot_quiet]
    | intros ?].
  do 3 (apply emits_if_bind; [repeat emits_step | intros ?]).
  apply emits_if_bind;
    [eapply emits_if_weaken;
       [apply quiet_inert | intros s _; apply wait_for_page_load_quiet]
    | intros ?].
  apply emits_if_bind;
    [eapply emits_if_weaken;
       [apply quiet_inert | intros s _; apply do_screenshot_quiet]
    | intros ?].
  emits_step.
Qed.

Lemma inert_no_wait ev :
  acting ev && negb (is_wait_url ev) = true -> is_wait_url ev = false.
Proof.
  destruct (is_wait_url ev); [|reflexivity]. now rewrite andb_false_r.
Qed.

Lemma perform_warns (self : NetgearAdmin.t) : warns (perform self).
Proof.
  unfold perform, NetgearAdmin.get_home_page, NetgearAdmin.get_block_page.
  apply warns_bind; [|intros _].
  - destruct (eq_str _ _); [|intros s; apply warned_inert; reflexivity].
    apply warns_bind; [apply page_warns | intros _].
    eapply warns_inert; [apply inert_no_wait | apply reboot_inert].
  - destruct (_ || _); [|intros s; apply warned_inert; reflexivity].
    apply warns_bind; [apply page_warns | intros _].
    apply warns_bind; [|intros _ s; apply warned_inert; reflexivity].
    eapply warns_inert; [apply inert_no_wait | apply block_services_inert].
Qed.

(** When a navigation uses up its waits, the process exits with a
    non-zero status, having logged warnings but no critical record,
    and having quit the browser. *)
Lemma navigation_failure_outcome (args : Namespace) (s : state B) :
  let r := main parse_qs config_file args s in
  gave_up (evs r) = true ->
  exit_status (out r) <> 0
  /\ existsb is_critical (evs r) = false
  /\ existsb is_warning (evs r) = true
  /\ existsb is_quit (evs r) = true.
Proof.
  cbv zeta. unfold gave_up.
  destruct (main_whole parse_qs config_file args s)
    as [e Ho Hpre
       | debug ip u p s0 pre cleanup tail script rb
           Hf Hpre Hcl Htail Hev Hpath Hout];
    intros Hgave.
  { exfalso. none_of is_wait_url. rewrite failed_waits_none in Hgave by
      assumption. discriminate. }
  unfold rb in *. clear rb.
  segments script s0.
  pose proof (page_settles script NetgearAdmin.START_URL
                (let s1 := post (at_browser script s0) in
                 State (drv s1) (os_environ s1) true (_screenshot_num s1)) 0%nat)
    as Hsettle_s.
  pose proof (perform_settles script (post (at_login script s0)) 0%nat)
    as Hsettle_a.
  pose proof (page_raises script NetgearAdmin.START_URL
                (let s1 := post (at_browser script s0) in
                 State (drv s1) (os_environ s1) true (_screenshot_num s1)))
    as Hraise_s.
  pose proof (perform_raises script (post (at_login script s0))) as Hraise_a.
  change (is_ok (out (at_start script s0)) = true ->
          (failed_waits 0 (evs (at_start script s0)) <= 0)%nat) in Hsettle_s.
  change (is_ok (out (at_action script s0)) = true ->
          (failed_waits 0 (evs (at_action script s0)) <= 0)%nat) in Hsettle_a.
  assert (Hwarned : warned (evs (main parse_qs config_file args s))).
  { rewrite Hev. none_of is_wait_url.
    assert (Hws : warned (evs (at_start script s0))) by apply page_warns.
    assert (Hwa : warned (evs (at_action script s0))) by apply perform_warns.
    destruct Hpath as [Hgb Horb Hevb Hbr
                      | Hgb Hsp Horb Hevb Hbr
                      | q Hgb Hsp Hl Horb Hevb Hbr
                      | Hgb Hsp Hl Hact Horb Hevb Hbr
                      | q Hgb Hsp Hl Hact Horb Hevb Hbr];
      rewrite Hevb;
      repeat first
        [ assumption
        | apply warned_app
        | apply warned_cons; [reflexivity|]
        | apply warned_inert; first [assumption | reflexivity] ]. }
  assert (Hwarn : existsb is_warning (evs (main parse_qs config_file args s))
                  = true).
  { apply (Hwarned 0%nat). apply Nat.leb_le in Hgave. lia. }
  clear Hwarned.
  rewrite Hev in *. clear Hev.
  none_of is_wait_url. none_of is_critical.
  destruct Hpath as [Hgb Horb Hevb Hbr
                    | Hgb Hsp Horb Hevb Hbr
                    | q Hgb Hsp Hl Horb Hevb Hbr
                    | Hgb Hsp Hl Hact Horb Hevb Hbr
                    | q Hgb Hsp Hl Hact Horb Hevb Hbr];
    rewrite Hevb in *; clear Hevb.
  - exfalso. revert Hgave.
    repeat first [rewrite failed_waits_app | progress cbn [failed_waits]
                 | match goal with
                   | Hn : existsb is_wait_url ?t = false
                     |- context [failed_waits ?n ?t] =>
                       rewrite (failed_waits_none n t Hn)
                   end].
    discriminate.
  - rewrite Horb in Hout.
    destruct (out (at_start script s0)) as [[]|e] eqn:Hos; [discriminate|].
    specialize (Hraise_s e Hos). rewrite Hraise_s, Hbr in Hout.
    cbn [andb] in Hout. destruct Hout as (-> & q & -> & ->).
    repeat split.
    + rewrite exit_status_Exception; [discriminate | now destruct q].
    + use_none. reflexivity.
    + exact Hwarn.
    + rewrite !existsb_app. cbn [existsb is_quit]. rewrite !existsb_app.
      cbn [existsb is_quit]. now rewrite ?orb_true_r.
  - exfalso. revert Hgave.
    assert (Hz : failed_waits 0 (evs (at_start script s0)) = 0%nat)
      by (specialize (Hsettle_s Hsp); lia).
    repeat first [rewrite failed_waits_app | progress cbn [failed_waits]
                 | match goal with
                   | Hn : existsb is_wait_url ?t = false
                     |- context [failed_waits ?n ?t] =>
                       rewrite (failed_waits_none n t Hn)
                   end
                 | rewrite Hz].
    discriminate.
  - rewrite Horb in Hout.
    destruct (out (at_action script s0)) as [[]|e] eqn:Hoa; [discriminate|].
    specialize (Hraise_a e Hoa). rewrite Hraise_a, Hbr in Hout.
    cbn [andb] in Hout. destruct Hout as (-> & q & -> & ->).
    repeat split.
    + rewrite exit_status_Exception; [discriminate | now destruct q].
    + use_none. reflexivity.
    + exact Hwarn.
    + rewrite !existsb_app. cbn [existsb is_quit]. rewrite !existsb_app.
      cbn [existsb is_quit]. now rewrite ?orb_true_r.
  - exfalso. revert Hgave.
    assert (Hz : failed_waits 0 (evs (at_start script s0)) = 0%nat)
      by (specialize (Hsettle_s Hsp); lia).
    assert (Hza : failed_waits 0 (evs (at_action script s0)) = 0%nat)
      by (specialize (Hsettle_a Hact); lia).
    repeat first [rewrite failed_waits_app | progress cbn [failed_waits]
                 | match goal with
                   | Hn : existsb is_wait_url ?t = false
                     |- context [failed_waits ?n ?t] =>
                       rewrite (failed_waits_none n t Hn)
                   end
                 | rewrite Hz | rewrite Hza].
    discriminate.
Qed.

(** *** Service blocking *)

(** What a cooperative browser sees of [block_services]: the two
    lookups, then the loop over the radios. *)
Lemma block_services_spec (self : NetgearAdmin.t) (value : bool)
    (s : state B) :
  let r := NetgearAdmin.block_services self value s in
  cooperative (evs r) = true ->
  exists apply radios rest,
    evs r = EvFind ByName "apply" (Ok apply)
            :: EvFindAll ByName "skeyword" (Ok radios) :: rest
    /\ match chosen value (probes (evs r)) with
       | Some radio =>
           In radio radios /\ clicks (evs r) = [radio; apply]
           /\ out r = Ok true
       | None =>
           fst <$> probes (evs r) = radios /\ clicks (evs r) = []
           /\ out r = Ok false
       end.
Proof.
  cbv zeta. unfold cooperative, NetgearAdmin.block_services. exec.
  split_call; [|intros; discriminate].
  split_call; [|intros; discriminate].
  match goal with
  | |- context [NetgearAdmin.block_services_loop self value ?ap ?rs ?s'] =>
      pose proof (block_services_loop_coop self value ap rs s') as Hloop;
      destruct (NetgearAdmin.block_services_loop self value ap rs s')
        as [o s2 t2]
  end.
  cbv zeta in Hloop. cbn [evs out] in Hloop.
  cbn [forallb coop is_ok andb probes clicks]. intros Hc.
  exists a, a0, t2. split; [reflexivity|]. now apply Hloop.
Qed.

(** C2: with a cooperative browser, [block_services] looks up the
    [apply] button and the [skeyword] radios and reads the [value] of
    the radios in turn; at the first radio whose value is the wanted
    one (['perschedule'] to block, ['never'] to unblock) it clicks that
    radio, then [apply], and returns [True]; when no radio has the
    wanted value it has read them all, clicked nothing and returns
    [False]. *)
Theorem block_services_clicks (self : NetgearAdmin.t) (value : bool)
    (s : state B) :
  let r := NetgearAdmin.block_services self value s in
  cooperative (evs r) = true ->
  exists apply radios rest,
    evs r = EvFind ByName "apply" (Ok apply)
            :: EvFindAll ByName "skeyword" (Ok radios) :: rest
    /\ match chosen value (probes (evs r)) with
       | Some radio =>
           In radio radios /\ clicks (evs r) = [radio; apply]
           /\ out r = Ok true
       | None =>
           fst <$> probes (evs r) = radios /\ clicks (evs r) = []
           /\ out r = Ok false
       end.
Proof.
  exact (block_services_spec self value s).
Qed.

(** Which of the two [run] asks for. *)
Lemma perform_block_services (self : NetgearAdmin.t) (s : state B) :
  eq_str (NetgearAdmin.action self) ACTION_REBOOT = false ->
  eq_str (NetgearAdmin.action self) ACTION_BLOCK
  || eq_str (NetgearAdmin.action self) ACTION_UNBLOCK = true ->
  perform self s
  = (NetgearAdmin.get_block_page self;;
     NetgearAdmin.block_services self
       (eq_str (NetgearAdmin.action self) ACTION_BLOCK);;
     ret tt) s.
Proof.
  unfold perform. intros -> ->. now rewrite bind_ret.
Qed.

Lemma perform_reboot (self : NetgearAdmin.t) (s : state B) :
  eq_str (NetgearAdmin.action self) ACTION_REBOOT = true ->
  eq_str (NetgearAdmin.action self) ACTION_BLOCK
  || eq_str (NetgearAdmin.action self) ACTION_UNBLOCK = false ->
  is_ok (out (perform self s)) = true ->
  exists button,
    evs (perform self s)
    = evs (NetgearAdmin.get_home_page self s)
      ++ [EvFind ById "reboot" (Ok button); EvClick button (Ok tt);
          EvSleep 1; EvAlert (Ok tt); EvAccept (Ok tt)]
    /\ is_ok (out (NetgearAdmin.get_home_page self s)) = true.
Proof.
  unfold perform. intros -> ->. rewrite bind_assoc.
  destruct (bind_cases (NetgearAdmin.get_home_page self)
              (fun _ => NetgearAdmin.reboot;; ret tt) s)
    as [(e & Ho & ->) | ([] & Ho & ->)]; cbn [out evs is_ok];
    [discriminate|].
  destruct (bind_cases NetgearAdmin.reboot (fun _ => ret tt)
              (post (NetgearAdmin.get_home_page self s)))
    as [(e & Hr & ->) | ([] & Hr & ->)]; cbn [out evs is_ok ret];
    [discriminate|].
  intros _.
  destruct (reboot_ok (post (NetgearAdmin.get_home_page self s)))
    as (button & ->); [now rewrite Hr|].
  exists button. rewrite app_nil_r, Ho. now split.
Qed.

(** *** With a cooperative browser *)

(** Split a hypothesis on a concatenation of events into its parts. *)
Ltac split_coop Hc :=
  unfold cooperative in Hc;
  repeat first [rewrite forallb_app in Hc | progress cbn [forallb] in Hc];
  rewrite ?andb_true_iff in Hc;
  repeat match goal with
         | Hd : _ /\ _ |- _ => destruct Hd
         end.

(** When the browser cooperates and [main] gets to [run], the run goes
    all the way: browser, start page, login, action, quit. *)
Lemma cooperative_run (args : Namespace) (s : state B) :
  let r := main parse_qs config_file args s in
  In (browser_name args) browsers ->
  existsb is_new (evs r) = true ->
  cooperative (evs r) = true ->
  exists debug ip u p s0 pre tail,
    let script := script_of args debug ip u p in
    forallb startup pre = true
    /\ forallb is_print tail = true
    /\ evs r = pre ++ EvLog DEBUG "Getting page..."
               :: evs (at_browser script s0) ++ evs (at_start script s0)
               ++ evs (at_login script s0) ++ evs (at_action script s0)
               ++ EvQuit (Ok tt) :: tail
    /\ out r = Ok tt
    /\ is_ok (out (at_action script s0)) = true
    /\ existsb login_confirmed (evs (at_login script s0)) = true
    /\ forallb coop (evs (at_browser script s0)) = true
    /\ forallb coop (evs (at_start script s0)) = true
    /\ forallb coop (evs (at_login script s0)) = true
    /\ forallb coop (evs (at_action script s0)) = true.
Proof.
  cbv zeta. intros Hname Hnew Hc.
  destruct (main_whole parse_qs config_file args s)
    as [e Ho Hpre
       | debug ip u p s0 pre cleanup tail script rb
           Hf Hpre Hcl Htail Hev Hpath Hout].
  { exfalso. none_of is_new. congruence. }
  unfold rb in *. clear rb. clear Hnew.
  exists debug, ip, u, p, s0, pre, tail. fold script.
  pose proof (get_browser_coop script Hname s0) as Kb.
  pose proof (page_coop script NetgearAdmin.START_URL
                (let s1 := post (at_browser script s0) in
                 State (drv s1) (os_environ s1) true (_screenshot_num s1)))
    as Ks.
  change (forallb coop (evs (at_start script s0)) = true ->
          is_ok (out (at_start script s0)) = true) in Ks.
  pose proof (perform_coop script (post (at_login script s0))) as Ka.
  change (forallb coop (evs (at_action script s0)) = true ->
          is_ok (out (at_action script s0)) = true) in Ka.
  change (forallb coop (evs (at_browser script s0)) = true ->
          is_ok (out (at_browser script s0)) = true) in Kb.
  destruct (check_login_spec script (post (at_start script s0)))
    as (b & Hb & Hconf & Hrefused & _).
  change (existsb login_refused (evs (at_login script s0)) = negb b)
    in Hrefused.
  change (existsb login_confirmed (evs (at_login script s0)) = b) in Hconf.
  change (out (at_login script s0) = Ok b) in Hb.
  rewrite Hev in Hc |- *. clear Hev.
  destruct Hpath as [Hgb Horb Hevb Hbr
                    | Hgb Hsp Horb Hevb Hbr
                    | q Hgb Hsp Hl Horb Hevb Hbr
                    | Hgb Hsp Hl Hact Horb Hevb Hbr
                    | q Hgb Hsp Hl Hact Horb Hevb Hbr];
    rewrite Hevb in Hc |- *; clear Hevb; split_coop Hc.
  - exfalso. rewrite Kb in Hgb by assumption. discriminate.
  - exfalso. rewrite Ks in Hsp by assumption. discriminate.
  - exfalso. destruct q; discriminate || idtac.
    assert (Hno : existsb login_refused (evs (at_login script s0)) = false).
    { eapply forallb_none; [|eassumption]. kind_disjoint. }
    rewrite Hl in Hb. injection Hb as <-. rewrite Hno in Hrefused.
    discriminate.
  - exfalso. rewrite Ka in Hact by assumption. discriminate.
  - destruct q as [[]|w]; [|discriminate].
    rewrite Horb in Hout. destruct Hout as [-> ->].
    rewrite Hl in Hb. injection Hb as <-.
    repeat split; auto.
    cbn [app]. now rewrite <- !app_assoc.
Qed.

(** C8: for the reboot action, with a cooperative browser and the
    configuration complete, the script logs in, fetches the home page,
    clicks the element with id [reboot], accepts the alert, quits the
    browser and returns. *)
Theorem reboot_clicks_and_accepts (args : Namespace) (s : state B) :
  let r := main parse_qs config_file args s in
  action args = Some ACTION_REBOOT ->
  In (browser_name args) browsers ->
  existsb is_new (evs r) = true ->
  cooperative (evs r) = true ->
  out r = Ok tt
  /\ exists before button tail,
       evs r = before
               ++ [EvFind ById "reboot" (Ok button); EvClick button (Ok tt);
                   EvSleep 1; EvAlert (Ok tt); EvAccept (Ok tt);
                   EvQuit (Ok tt)]
               ++ tail
       /\ existsb login_confirmed before = true
       /\ existsb (fetched NetgearAdmin.HOME_URL) before = true
       /\ forallb is_print tail = true.
Proof.
  cbv zeta. intros Haction Hname Hnew Hc.
  destruct (cooperative_run args s Hname Hnew Hc)
    as (debug & ip & u & p & s0 & pre & tail & Hpre & Htail & Hev & Hout
        & Hact & Hconf & _).
  cbv zeta in *.
  set (script := script_of args debug ip u p) in *.
  split; [exact Hout|].
  destruct (perform_reboot script (post (at_login script s0)))
    as (button & Hevs & Hhome); auto;
    try (unfold script, script_of; cbn [NetgearAdmin.action];
         rewrite Haction; reflexivity).
  pose proof (page_fetched script NetgearAdmin.HOME_URL
                (post (at_login script s0)) Hhome) as Hfetched.
  change (evs (at_action script s0)
          = evs (NetgearAdmin.get_home_page script (post (at_login script s0)))
            ++ [EvFind ById "reboot" (Ok button); EvClick button (Ok tt);
                EvSleep 1; EvAlert (Ok tt); EvAccept (Ok tt)]) in Hevs.
  exists (pre ++ EvLog DEBUG "Getting page..."
          :: evs (at_browser script s0) ++ evs (at_start script s0)
          ++ evs (at_login script s0)
          ++ evs (NetgearAdmin.get_home_page script (post (at_login script s0)))),
    button, tail.
  repeat split.
  - rewrite Hev, Hevs. rewrite <- !app_assoc. cbn [app].
    now rewrite <- !app_assoc.
  - rewrite !existsb_app. cbn [existsb]. rewrite !existsb_app, Hconf.
    now rewrite ?orb_true_r.
  - rewrite !existsb_app. cbn [existsb]. rewrite !existsb_app.
    unfold NetgearAdmin.get_home_page. rewrite Hfetched.
    now rewrite ?orb_true_r.
  - exact Htail.
Qed.

(** An attribute of an element was read. *)
Definition is_attr (ev : event) : bool :=
  match ev with EvAttr _ _ _ => true | _ => false end.

Lemma probes_none (tr : list event) :
  existsb is_attr tr = false -> probes tr = [].
Proof.
  induction tr as [|ev tr IH]; simpl; [reflexivity|].
  destruct ev; simpl; try discriminate; exact IH.
Qed.

Lemma calm_no_error (tr : list event) :
  forallb calm tr = true -> existsb is_error_log tr = false.
Proof.
  apply forallb_none. intros ev. unfold calm.
  now destruct (is_error_log ev).
Qed.

(** C10: with a cooperative browser and the configuration complete,
    when the block page has no [skeyword] radio with the wanted value
    [block_services] returns [False], [run] ignores that (the browser
    is quit, the header printed) and the process exits with status 0;
    nothing of level [ERROR] or above is logged, every radio was read,
    and nothing is clicked once the [apply] button has been looked
    up. *)
Theorem unmatched_radio_exits_zero (args : Namespace) (s : state B) :
  let r := main parse_qs config_file args s in
  let value := eq_str (of_opt (action args)) ACTION_BLOCK in
  action args = Some ACTION_BLOCK \/ action args = Some ACTION_UNBLOCK ->
  In (browser_name args) browsers ->
  existsb is_new (evs r) = true ->
  cooperative (evs r) = true ->
  chosen value (probes (evs r)) = None ->
  out r = Ok tt
  /\ exit_status (out r) = 0
  /\ existsb is_error_log (evs r) = false
  /\ clicks (after (finds ByName "apply") (evs r)) = []
  /\ (exists radios,
        In (EvFindAll ByName "skeyword" (Ok radios)) (evs r)
        /\ fst <$> probes (evs r) = radios)
  /\ exists debug router_ip username password st before tail,
       let script := script_of args debug router_ip username password in
       let bs := NetgearAdmin.block_services script value st in
       evs r = before ++ evs bs ++ EvQuit (Ok tt) :: tail
       /\ forallb is_print tail = true
       /\ out bs = Ok false.
Proof.
  cbv zeta. intros Haction Hname Hnew Hc Hchosen.
  destruct (cooperative_run args s Hname Hnew Hc)
    as (debug & ip & u & p & s0 & pre & tail & Hpre & Htail & Hev & Hout
        & Hact & Hconf & Hcb & Hcs & Hcl & Hca).
  cbv zeta in *.
  set (script := script_of args debug ip u p) in *.
  assert (Hvalue : eq_str (NetgearAdmin.action script) ACTION_BLOCK
                   = eq_str (of_opt (action args)) ACTION_BLOCK)
    by reflexivity.
  assert (Hperform : at_action script s0
                     = (NetgearAdmin.get_block_page script;;
                        NetgearAdmin.block_services script
                          (eq_str (of_opt (action args)) ACTION_BLOCK);;
                        ret tt) (post (at_login script s0))).
  { unfold at_action. rewrite perform_block_services; [reflexivity | |];
      unfold script, script_of; cbn [NetgearAdmin.action];
      destruct Haction as [-> | ->]; reflexivity. }
  set (s1 := post (at_login script s0)) in *.
  pose proof (get_block_page_nav script s1) as Hnav.
  pose proof (page_coop script NetgearAdmin.BLOCK_URL s1) as Kp.
  pose proof (page_calm script NetgearAdmin.BLOCK_URL s1) as Cp.
  change (NetgearAdmin.get script NetgearAdmin.BLOCK_URL;;
          NetgearAdmin.wait_for_page_load 20;;
          NetgearAdmin.do_screenshot script)
    with (NetgearAdmin.get_block_page script) in Kp, Cp.
  rewrite Hperform in Hev, Hact, Hca.
  destruct (bind_cases (NetgearAdmin.get_block_page script)
              (fun _ =>
                 NetgearAdmin.block_services script
                   (eq_str (of_opt (action args)) ACTION_BLOCK);;
                 ret tt) s1)
    as [(e & Hp & Heq) | ([] & Hp & Heq)];
    rewrite Heq in Hev, Hact, Hca; clear Heq; cbn [out evs] in *;
    [discriminate|].
  set (s2 := post (NetgearAdmin.get_block_page script s1)) in *.
  destruct (bind_cases
              (NetgearAdmin.block_services script
                 (eq_str (of_opt (action args)) ACTION_BLOCK))
              (fun _ => ret tt) s2)
    as [(e & Hbs & Heq) | (b & Hbs & Heq)];
    rewrite Heq in Hev, Hact, Hca; clear Heq;
    cbn [out evs ret] in *; [discriminate|].
  rewrite app_nil_r in Hev, Hca.
  rewrite forallb_app in Hca. apply andb_true_iff in Hca as [Hcp Hcbs].
  destruct (block_services_spec script _ s2 Hcbs)
    as (apply & radios & rest & Hbsev & Hspec).
  set (bs := NetgearAdmin.block_services script _ s2) in *.
  pose proof (block_services_calm script _ s2 Hcbs) as Cbs.
  fold bs in Cbs.
  segments script s0.
  (* the radios read are those of [block_services] *)
  assert (Hprobes : probes (evs (main parse_qs config_file args s))
                    = probes (evs bs)).
  { rewrite Hev. none_of is_attr.
    repeat match goal with
           | Hn : existsb is_attr _ = false |- _ => apply probes_none in Hn
           end.
    repeat first [rewrite probes_app | progress cbn [probes]].
    repeat match goal with
           | Hn : probes _ = [] |- _ => rewrite Hn
           end.
    cbn [app]. now rewrite app_nil_r. }
  rewrite Hprobes in Hchosen |- *. rewrite Hchosen in Hspec.
  destruct Hspec as (Hread & Hnoclick & Hfalse).
  repeat split.
  - exact Hout.
  - now rewrite Hout.
  - rewrite Hev.
    assert (existsb is_error_log (evs (at_browser script s0)) = false)
      by exact (calm_no_error _ (get_browser_calm script s0 Hcb)).
    assert (existsb is_error_log (evs (at_start script s0)) = false)
      by exact (calm_no_error _
                  (page_calm script NetgearAdmin.START_URL _ Hcs)).
    assert (existsb is_error_log (evs (at_login script s0)) = false)
      by exact (calm_no_error _
                  (check_login_calm script (post (at_start script s0)) Hcl)).
    pose proof (calm_no_error _ (Cp Hcp)).
    pose proof (calm_no_error _ Cbs).
    none_of is_error_log. use_none. reflexivity.
  - rewrite Hev. none_of (finds ByName "apply").
    rewrite !after_app_skip by assumption. cbn [after finds].
    rewrite !after_app_skip by assumption.
    rewrite Hbsev in Hnoclick |- *. cbn [clicks] in Hnoclick.
    rewrite <- !app_assoc. rewrite !after_app_skip by assumption.
    cbn [app after].
    change (finds ByName "apply" (EvFind ByName "apply" (Ok apply)))
      with true. cbv iota.
    none_of is_click.
    cbn [clicks]. rewrite clicks_app. cbn [clicks]. rewrite Hnoclick.
    now rewrite (clicks_none tail).
  - exists radios. split; [|exact Hread].
    rewrite Hev, Hbsev.
    repeat first [rewrite in_app_iff | progress cbn [In]]. tauto.
  - exists debug, ip, u, p, s2,
      (pre ++ EvLog DEBUG "Getting page..."
         :: evs (at_browser script s0) ++ evs (at_start script s0)
         ++ evs (at_login script s0)
         ++ evs (NetgearAdmin.get_block_page script s1)), tail.
    cbv zeta. fold script. fold bs.
    split; [|split; [exact Htail | exact Hfalse]].
    rewrite Hev. rewrite <- !app_assoc. cbn [app].
    rewrite <- !app_assoc. reflexivity.
Qed.

(** *** The order of the steps *)

Lemma existsb_weaken (P Q : event -> bool) (tr : list event) :
  (forall ev, P ev = true -> Q ev = true) ->
  existsb P tr = true -> existsb Q tr = true.
Proof.
  intros HPQ. rewrite !existsb_exists. intros (ev & Hin & HP). eauto.
Qed.

(** In [check_login] nothing is clicked before the [yes] button was
    found. *)
Lemma check_login_guarded (self : NetgearAdmin.t) (s : state B) (seen : bool) :
  guarded yes_or_confirmed is_click seen
    (evs (NetgearAdmin.check_login self s)) = true.
Proof.
  rewrite check_login_halves.
  rewrite (bind_ok _ _ _ _ (dismiss_returns self s)). cbn [evs].
  rewrite guarded_app. apply andb_true_iff. split.
  - unfold dismiss_multi_login. exec.
    split_call; [|simpl; now destruct seen].
    split_call; [|simpl; now destruct seen].
    split_call; [|simpl; now rewrite orb_true_r].
    repeat split_reply; simpl; rewrite ?orb_true_r; simpl;
      now rewrite ?guarded_seen.
  - apply guarded_none. unfold find_logout. exec. split_call; reflexivity.
Qed.

Ltac guard_solve :=
  repeat first
    [ rewrite guarded_app
    | progress cbn [guarded]
    | match goal with
      | Hn : existsb ?Q ?t = false |- context [guarded ?P ?Q ?seen ?t] =>
          rewrite (guarded_none P Q seen t Hn)
      end
    | match goal with
      | Hy : existsb ?P ?t = true |- context [existsb ?P ?t] => rewrite Hy
      end
    | match goal with
      | |- context [guarded yes_or_confirmed is_click ?seen
                      (evs (at_login ?sc ?st))] =>
          change (evs (at_login sc st))
            with (evs (NetgearAdmin.check_login sc (post (at_start sc st))));
          rewrite (check_login_guarded sc (post (at_start sc st)) seen)
      end
    | progress rewrite ?orb_true_r, ?orb_false_r, ?andb_true_r
    | rewrite guarded_seen
    | progress cbn [orb andb implb negb is_critical is_warning is_error_log
                    is_new session_created session_ready is_quit is_get
                    fetches fetched page_waited finds login_probe
                    login_confirmed login_refused is_click action_step
                    is_wait_url is_print yes_or_confirmed locator_eqb] ];
  try reflexivity.

(** Every click comes after the login indicator was found, unless it
    is on the element that the lookup of the [yes] button, the event
    just before it, returned: [yes] is that element, if the last
    event was such a lookup, [confirmed] tells whether the indicator
    was found already. *)
Fixpoint yes_clicks (yes : option elem) (confirmed : bool)
    (tr : list event) : bool :=
  match tr with
  | [] => true
  | ev :: tr' =>
      match ev with
      | EvClick e _ =>
          confirmed
          || match yes with Some y => Nat.eqb e y | None => false end
      | _ => true
      end
      && yes_clicks
           match ev with
           | EvFind ByName sel (Ok e) =>
               if String.eqb sel "yes" then Some e else None
           | _ => None
           end
           (confirmed || login_confirmed ev) tr'
  end.

Definition yes_guarded (confirmed : bool) (tr : list event) : Prop :=
  forall yes, yes_clicks yes confirmed tr = true.

(** Before the login indicator is found, a click is on the element
    that the lookup of the [yes] button just returned. *)
Definition clicks_yes_until_login (tr : list event) : Prop :=
  forall pre e r post,
    tr = pre ++ EvClick e r :: post ->
    existsb login_confirmed pre = false ->
    exists pre', pre = pre' ++ [EvFind ByName "yes" (Ok e)].

Lemma yes_clicks_sound (tr : list event) (yes : option elem)
    (confirmed : bool) :
  yes_clicks yes confirmed tr = true ->
  forall pre e r post,
    tr = pre ++ EvClick e r :: post ->
    confirmed || existsb login_confirmed pre = false ->
    (pre = [] /\ yes = Some e)
    \/ exists pre', pre = pre' ++ [EvFind ByName "yes" (Ok e)].
Proof.
  revert yes confirmed.
  induction tr as [|ev tr IH]; intros yes confirmed Hy pre e r post Heq Hc.
  { now destruct pre. }
  cbn [yes_clicks] in Hy. apply andb_true_iff in Hy as [Hev Htr].
  destruct pre as [|ev' pre]; cbn [app] in Heq; injection Heq as -> ->.
  - left. split; [reflexivity|].
    apply orb_false_iff in Hc as [-> _]. cbn [orb] in Hev.
    destruct yes as [y|]; [|discriminate].
    apply Nat.eqb_eq in Hev. now subst.
  - right. cbn [existsb] in Hc. rewrite orb_assoc in Hc.
    destruct (IH _ _ Htr pre e r post eq_refl Hc)
      as [[-> Hyes] | [pre' ->]].
    + exists []. cbn [app]. f_equal.
      destruct ev' as [| | | | | | | | | |[] sel [e'|]| | | | | | | | | |];
        try discriminate.
      destruct (String.eqb sel "yes") eqn:Hsel; [|discriminate].
      apply String.eqb_eq in Hsel. injection Hyes as ->. now subst.
    + exists (ev' :: pre'). reflexivity.
Qed.

Lemma yes_guarded_sound (tr : list event) :
  yes_guarded false tr -> clicks_yes_until_login tr.
Proof.
  intros Hy pre e r post Heq Hc.
  destruct (yes_clicks_sound tr None false (Hy None) pre e r post Heq Hc)
    as [[_ Hn] | Hp]; [discriminate | exact Hp].
Qed.

Lemma yes_guarded_seen (tr : list event) : yes_guarded true tr.
Proof.
  induction tr as [|ev tr IH]; intros yes; [reflexivity|].
  cbn [yes_clicks orb]. rewrite IH. now destruct ev.
Qed.

Lemma yes_guarded_none (confirmed : bool) (tr : list event) :
  existsb is_click tr = false -> yes_guarded confirmed tr.
Proof.
  revert confirmed.
  induction tr as [|ev tr IH]; intros confirmed Hn yes; [reflexivity|].
  cbn [existsb] in Hn. apply orb_false_iff in Hn as [Hev Htr].
  cbn [yes_clicks]. rewrite (IH _ Htr).
  destruct ev; try reflexivity. discriminate.
Qed.

Lemma yes_clicks_app (yes : option elem) (confirmed : bool)
    (t1 t2 : list event) :
  yes_clicks yes confirmed t1 = true ->
  yes_guarded (confirmed || existsb login_confirmed t1) t2 ->
  yes_clicks yes confirmed (t1 ++ t2) = true.
Proof.
  revert yes confirmed.
  induction t1 as [|ev t1 IH]; intros yes confirmed H1 H2.
  - cbn [app]. cbn [existsb] in H2. rewrite orb_false_r in H2. apply H2.
  - cbn [app yes_clicks] in *.
    apply andb_true_iff in H1 as [Hev Ht1]. rewrite Hev. cbn [andb].
    apply IH; [exact Ht1|].
    cbn [existsb] in H2. now rewrite <- orb_assoc.
Qed.

Lemma yes_guarded_app (confirmed : bool) (t1 t2 : list event) :
  yes_guarded confirmed t1 ->
  yes_guarded (confirmed || existsb login_confirmed t1) t2 ->
  yes_guarded confirmed (t1 ++ t2).
Proof. intros H1 H2 yes. apply yes_clicks_app; [apply H1 | exact H2]. Qed.

Lemma yes_guarded_cons (confirmed : bool) (ev : event) (tr : list event) :
  is_click ev = false ->
  yes_guarded (confirmed || login_confirmed ev) tr ->
  yes_guarded confirmed (ev :: tr).
Proof.
  intros Hev Htr yes. cbn [yes_clicks]. rewrite Htr.
  destruct ev; try reflexivity. discriminate.
Qed.

(** In [check_login] the one click is on the [yes] button just
    found. *)
Lemma check_login_yes (self : NetgearAdmin.t) (s : state B)
    (confirmed : bool) :
  yes_guarded confirmed (evs (NetgearAdmin.check_login self s)).
Proof.
  rewrite check_login_halves.
  rewrite (bind_ok _ _ _ _ (dismiss_returns self s)). cbn [evs].
  apply yes_guarded_app.
  - intros yes. unfold dismiss_multi_login. exec.
    split_call; [|reflexivity].
    split_call; [|reflexivity].
    split_call.
    + match goal with
      | |- context [NetgearAdmin.wait_for_page_load 20 ?s'] =>
          pose proof (wait_for_page_load_quiet 20 s') as Hw;
          destruct (NetgearAdmin.wait_for_page_load 20 s') as [[[]|?] s1 t1]
      end; exec_cbn; cbn [evs] in Hw;
        [match goal with
         | |- context [NetgearAdmin.do_screenshot self ?s'] =>
             pose proof (do_screenshot_quiet self s') as Hd;
             destruct (NetgearAdmin.do_screenshot self s') as [[[]|?] s2 t2]
         end; exec_cbn; cbn [evs] in Hd|];
        simpl; rewrite Nat.eqb_refl, ?orb_true_r; cbn [andb];
        apply yes_guarded_none; none_of is_click;
        rewrite ?existsb_app; cbn [existsb is_click]; use_none;
        reflexivity.
    + simpl. rewrite Nat.eqb_refl. now rewrite ?orb_true_r.
  - apply yes_guarded_none. unfold find_logout. exec. split_call; reflexivity.
Qed.

Lemma yes_guarded_true (confirmed : bool) (tr : list event) :
  confirmed = true -> yes_guarded confirmed tr.
Proof. intros ->. apply yes_guarded_seen. Qed.

Ltac yes_solve :=
  repeat first
    [ apply yes_guarded_none; first [assumption | reflexivity]
    | match goal with
      | |- yes_guarded ?c (evs (at_login ?sc ?st)) =>
          exact (check_login_yes sc (post (at_start sc st)) c)
      end
    | apply yes_guarded_true;
      solve [ repeat match goal with
                     | Hy : existsb login_confirmed _ = true |- _ =>
                         rewrite Hy
                     end;
              repeat first [rewrite orb_true_r | progress cbn [orb]];
              reflexivity ]
    | apply yes_guarded_app
    | apply yes_guarded_cons; [reflexivity|] ].

(** C7, as amended: in every run the webdriver is set up before any
    page is fetched; the start page is fetched and waited for before
    the login indicator is looked up; the action page is fetched and
    its elements are looked up only once the indicator was found; no
    click comes before that, other than on the [yes] button of the
    multi-login warning, clicked right after it was found; and once
    [get_browser] has returned, the browser is quit, after which
    nothing is done but quitting again and printing the CGI header. *)
Theorem steps_in_order (args : Namespace) (s : state B) :
  let tr := evs (main parse_qs config_file args s) in
  preceded session_ready is_get tr
  /\ preceded (fetched NetgearAdmin.START_URL) login_probe tr
  /\ preceded page_waited login_probe tr
  /\ preceded login_confirmed action_step tr
  /\ preceded yes_or_confirmed is_click tr
  /\ clicks_yes_until_login tr
  /\ (existsb session_ready tr = true ->
      exists before q rest,
        tr = before ++ EvQuit q :: rest
        /\ forallb (fun ev => is_quit ev || is_print ev) rest = true).
Proof.
  cbv zeta.
  destruct (main_whole parse_qs config_file args s)
    as [e Ho Hpre
       | debug ip u p s0 pre cleanup tail script rb
           Hf Hpre Hcl Htail Hev Hpath Hout].
  { none_of is_get. none_of login_probe. none_of action_step.
    none_of is_click. none_of session_ready.
    do 5 (split; [apply guarded_preceded, guarded_none; assumption|]).
    split; [apply yes_guarded_sound, yes_guarded_none; assumption|].
    congruence. }
  unfold rb in *. clear rb.
  segments script s0.
  pose proof (get_browser_ready script s0) as Rb.
  change (is_ok (out (at_browser script s0)) = true ->
          existsb session_ready (evs (at_browser script s0)) = true) in Rb.
  pose proof (get_browser_not_ready script s0) as Nb.
  change (is_ok (out (at_browser script s0)) = false ->
          existsb session_ready (evs (at_browser script s0)) = false) in Nb.
  pose proof (page_fetched script NetgearAdmin.START_URL
                (let s1 := post (at_browser script s0) in
                 State (drv s1) (os_environ s1) true (_screenshot_num s1)))
    as Fs.
  change (is_ok (out (at_start script s0)) = true ->
          existsb (fetched NetgearAdmin.START_URL) (evs (at_start script s0))
          = true) in Fs.
  pose proof (page_waited_for script NetgearAdmin.START_URL
                (let s1 := post (at_browser script s0) in
                 State (drv s1) (os_environ s1) true (_screenshot_num s1)))
    as Ws.
  change (is_ok (out (at_start script s0)) = true ->
          existsb page_waited (evs (at_start script s0)) = true) in Ws.
  pose proof (page_raises script NetgearAdmin.START_URL
                (let s1 := post (at_browser script s0) in
                 State (drv s1) (os_environ s1) true (_screenshot_num s1)))
    as Hraise_s.
  pose proof (perform_raises script (post (at_login script s0))) as Hraise_a.
  destruct (check_login_spec script (post (at_start script s0)))
    as (b & Hb & Hconf & _ & _).
  change (existsb login_confirmed (evs (at_login script s0)) = b) in Hconf.
  change (out (at_login script s0) = Ok b) in Hb.
  rewrite Hev. clear Hev.
  none_of is_get. none_of login_probe. none_of action_step.
  none_of is_click. none_of session_ready.
  destruct Hpath as [Hgb Horb Hevb Hbr
                    | Hgb Hsp Horb Hevb Hbr
                    | q Hgb Hsp Hl Horb Hevb Hbr
                    | Hgb Hsp Hl Hact Horb Hevb Hbr
                    | q Hgb Hsp Hl Hact Horb Hevb Hbr];
    rewrite Hevb; clear Hevb;
    try (specialize (Rb Hgb)); try (specialize (Nb Hgb));
    try (specialize (Fs Hsp)); try (specialize (Ws Hsp));
    try (rewrite Hl in Hb; injection Hb as <-;
         pose proof (existsb_weaken login_confirmed yes_or_confirmed _
                       ltac:(now intros [| | | | | | | | | |[] ? []| | | | | | | | | |];
                             simpl; try congruence; intros ->;
                             rewrite ?orb_true_r) Hconf));
    (split; [apply guarded_preceded; guard_solve|]);
    (split; [apply guarded_preceded; guard_solve|]);
    (split; [apply guarded_preceded; guard_solve|]);
    (split; [apply guarded_preceded; guard_solve|]);
    (split; [apply guarded_preceded; guard_solve|]);
    (split; [apply yes_guarded_sound; yes_solve|]).
  - (* get_browser raised *)
    rewrite Horb, Hbr, Hf in Hout.
    destruct (out (at_browser script s0)) as [[]|e]; [discriminate|].
    rewrite andb_false_r in Hout. destruct Hout as (-> & -> & _).
    use_none. discriminate.
  - (* the start page failed *)
    intros _. rewrite Horb in Hout.
    destruct (out (at_start script s0)) as [[]|e] eqn:Hos; [discriminate|].
    rewrite (Hraise_s e Hos), Hbr in Hout. cbn [andb] in Hout.
    destruct Hout as (-> & q & -> & _).
    exists (pre ++ EvLog DEBUG "Getting page..."
            :: evs (at_browser script s0) ++ evs (at_start script s0)),
      q, []. split; [|reflexivity].
    rewrite <- !app_assoc. cbn [app]. now rewrite <- !app_assoc.
  - (* login refused *)
    intros _. rewrite Horb in Hout.
    exists (pre ++ EvLog DEBUG "Getting page..."
            :: evs (at_browser script s0) ++ evs (at_start script s0)
            ++ evs (at_login script s0) ++ [EvLog CRITICAL "Login failed"]),
      q, (cleanup ++ tail). split.
    + rewrite <- !app_assoc. cbn [app]. now rewrite <- !app_assoc.
    + rewrite forallb_app. apply andb_true_iff. split.
      * eapply forallb_weaken; [|exact Hcl]. now intros ev ->.
      * eapply forallb_weaken; [|exact Htail].
        intros ev ->. apply orb_true_r.
  - (* the action failed *)
    intros _. rewrite Horb in Hout.
    destruct (out (at_action script s0)) as [[]|e] eqn:Hoa; [discriminate|].
    rewrite (Hraise_a e Hoa), Hbr in Hout. cbn [andb] in Hout.
    destruct Hout as (-> & q & -> & _).
    exists (pre ++ EvLog DEBUG "Getting page..."
            :: evs (at_browser script s0) ++ evs (at_start script s0)
            ++ evs (at_login script s0) ++ evs (at_action script s0)),
      q, []. split; [|reflexivity].
    rewrite <- !app_assoc. cbn [app]. now rewrite <- !app_assoc.
  - (* to the end *)
    intros _.
    exists (pre ++ EvLog DEBUG "Getting page..."
            :: evs (at_browser script s0) ++ evs (at_start script s0)
            ++ evs (at_login script s0) ++ evs (at_action script s0)),
      q, (cleanup ++ tail). split.
    + rewrite <- !app_assoc. cbn [app]. now rewrite <- !app_assoc.
    + rewrite forallb_app. apply andb_true_iff. split.
      * eapply forallb_weaken; [|exact Hcl]. now intros ev ->.
      * eapply forallb_weaken; [|exact Htail].
        intros ev ->. apply orb_true_r.
Qed.

End Claims.

(** * Further properties of the script *)

(** ** [getConfigValue] at its edges *)

Section ConfigEdges.

Variable parse_qs : string -> gmap string (list string).
Variable environ : gmap string string.

Lemma query_stage_none (config_file : res exn pyval) (value : option pyval)
    (name : string) (default : pyval) :
  supplied (query_value parse_qs environ name) = None ->
  exists value',
    query_stage parse_qs environ config_file value name default
    = config_stage config_file value' name default
    /\ (value' = value
        \/ exists v, value' = Some v /\ truthy v = false).
Proof.
  unfold query_stage, query_value, supplied.
  destruct (environ !! "QUERY_STRING") as [qs|];
    [|intros _; exists value; auto].
  destruct (parse_qs qs !! name) as [l|]; cbn [fmap option_fmap option_map];
    [|intros _; exists value; auto].
  destruct (truthy (VList (VStr <$> l))) eqn:Ht; [discriminate|].
  intros _. exists (Some (VList (VStr <$> l))). split; [reflexivity|].
  right. eauto.
Qed.

(** The lookup reaches config.json with [value] unbound or bound to a
    falsy value. *)
Lemma getConfigValue_reaches_file (config_file : res exn pyval)
    (args : Namespace) (name : string) (default : pyval) :
  supplied (cli_value args name) = None ->
  supplied (query_value parse_qs environ name) = None ->
  exists value,
    getConfigValue parse_qs environ config_file args name default
    = config_stage config_file value name default
    /\ match value with
       | Some v => truthy v = false
       | None => vars args !! name = None
                 /\ query_value parse_qs environ name = None
       end.
Proof.
  unfold getConfigValue, cli_value, supplied at 1. intros Hcli Hq.
  destruct (vars args !! name) as [v|] eqn:Hv.
  - destruct (truthy v) eqn:Ht; [discriminate|].
    destruct (query_stage_none config_file (Some v) name default Hq)
      as (value' & -> & [-> | (w & -> & Hw)]); eauto.
  - unfold query_stage, query_value in *.
    destruct (environ !! "QUERY_STRING") as [qs|];
      [|exists None; auto].
    destruct (parse_qs qs !! name) as [l|];
      cbn [fmap option_fmap option_map supplied] in *;
      [|exists None; auto].
    destruct (truthy (VList (VStr <$> l))) eqn:Ht; [discriminate|].
    exists (Some (VList (VStr <$> l))). auto.
Qed.

(** X1: when neither the command line nor the query string supplies a
    truthy value and [json.load(open(CONFIG_FILE))] raises, that
    exception comes out of [getConfigValue]; the default is not
    returned. *)
Theorem getConfigValue_unreadable_config (e : exn) (args : Namespace)
    (name : string) (default : pyval) :
  supplied (cli_value args name) = None ->
  supplied (query_value parse_qs environ name) = None ->
  getConfigValue parse_qs environ (Raise e) args name default = Raise e.
Proof.
  intros Hcli Hq.
  destruct (getConfigValue_reaches_file (Raise e) args name default Hcli Hq)
    as (value & -> & _).
  reflexivity.
Qed.

(** X2: for a name that is no attribute of the namespace, is not in
    the query string and is no key of config.json, the local variable
    [value] is never assigned: [getConfigValue] raises
    [UnboundLocalError], whatever the default. *)
Theorem getConfigValue_unknown_name (d : gmap string pyval)
    (args : Namespace) (name : string) (default : pyval) :
  vars args !! name = None ->
  query_value parse_qs environ name = None ->
  d !! name = None ->
  getConfigValue parse_qs environ (Ok (VDict d)) args name default
  = Raise (UnboundLocalError "value").
Proof.
  intros Hv Hq Hd. unfold getConfigValue. rewrite Hv.
  rewrite query_stage_unfold, Hq.
  unfold config_stage, config_lookup. now rewrite Hd.
Qed.

(** A JSON document that is a number, [true], [false] or [null]. *)
Definition json_scalar (v : pyval) : bool :=
  match v with
  | VNone | VBool _ | VInt _ | VFloat _ => true
  | _ => false
  end.

(** X3: when config.json holds a JSON scalar instead of an object,
    every lookup that reaches the file raises [TypeError] at
    [name in config]. *)
Theorem getConfigValue_scalar_config (config : pyval) (args : Namespace)
    (name : string) (default : pyval) :
  json_scalar config = true ->
  supplied (cli_value args name) = None ->
  supplied (query_value parse_qs environ name) = None ->
  getConfigValue parse_qs environ (Ok config) args name default
  = Raise (TypeError "argument is not iterable").
Proof.
  intros Hs Hcli Hq.
  destruct (getConfigValue_reaches_file (Ok config) args name default
              Hcli Hq) as (value & -> & _).
  unfold config_stage, config_lookup.
  destruct config; try discriminate; reflexivity.
Qed.

Lemma config_stage_truthy (config_file : res exn pyval)
    (value : option pyval) (name : string) (default v : pyval) :
  config_stage config_file value name default = Ok v ->
  truthy v = true \/ v = default.
Proof.
  unfold config_stage.
  destruct config_file as [config|e]; [|discriminate].
  destruct (config_lookup config name) as [found|e]; [|discriminate].
  destruct (match found with Some w => Some w | None => value end) as [w|];
    [|discriminate].
  destruct (truthy w) eqn:Hw; intros [= <-]; auto.
Qed.

(** X4: whatever the sources hold, a value [getConfigValue] returns is
    truthy or is the default itself; with a truthy default (the
    ['admin'] of the user name) the result is always truthy. *)
Theorem getConfigValue_truthy_or_default (config_file : res exn pyval)
    (args : Namespace) (name : string) (default v : pyval) :
  getConfigValue parse_qs environ config_file args name default = Ok v ->
  (truthy v = true \/ v = default)
  /\ (truthy default = true -> truthy v = true).
Proof.
  intros Hv.
  assert (Hor : truthy v = true \/ v = default).
  { revert Hv. unfold getConfigValue, query_stage.
    destruct (vars args !! name) as [a|].
    - destruct (truthy a) eqn:Ha; [intros [= <-]; auto|].
      destruct (environ !! "QUERY_STRING") as [qs|];
        [|apply config_stage_truthy].
      destruct (parse_qs qs !! name) as [l|]; [|apply config_stage_truthy].
      cbv zeta.
      destruct (truthy (VList (VStr <$> l))) eqn:Hl;
        [intros [= <-]; auto | apply config_stage_truthy].
    - destruct (environ !! "QUERY_STRING") as [qs|];
        [|apply config_stage_truthy].
      destruct (parse_qs qs !! name) as [l|]; [|apply config_stage_truthy].
      cbv zeta.
      destruct (truthy (VList (VStr <$> l))) eqn:Hl;
        [intros [= <-]; auto | apply config_stage_truthy]. }
  split; [exact Hor|]. intros Hd. destruct Hor as [Ht | ->]; assumption.
Qed.

End ConfigEdges.

(** ** Counting and measuring a log *)

Module Tally.

Definition is_sleep (ev : event) : bool :=
  match ev with EvSleep _ => true | _ => false end.

Definition wait_failed (ev : event) : bool :=
  match ev with EvWaitUrl _ (Raise _) => true | _ => false end.

Definition wait_passed (ev : event) : bool :=
  match ev with EvWaitUrl _ (Ok _) => true | _ => false end.

Definition get_failed (ev : event) : bool :=
  match ev with EvGet _ (Raise _) => true | _ => false end.

Definition is_source (ev : event) : bool :=
  match ev with EvSource _ => true | _ => false end.

(** The seconds an event may take: the timeout of a wait, the length
    of a sleep. *)
Definition seconds (ev : event) : Z :=
  match ev with
  | EvWaitUrl t _ | EvWaitReady t _ | EvSleep t => t
  | _ => 0
  end.

(** The seconds a log may have spent waiting and sleeping. *)
Definition budget (tr : list event) : Z :=
  fold_right (fun ev acc => seconds ev + acc) 0 tr.

Lemma count_cons (P : event -> bool) (ev : event) (tr : list event) :
  count P (ev :: tr) = ((if P ev then 1 else 0) + count P tr)%nat.
Proof. unfold count. simpl. now destruct (P ev). Qed.

Lemma count_nil (P : event -> bool) : count P [] = 0%nat.
Proof. reflexivity. Qed.

Lemma budget_app (t1 t2 : list event) :
  budget (t1 ++ t2) = budget t1 + budget t2.
Proof.
  induction t1 as [|ev t1 IH]; simpl; [reflexivity|].
  unfold budget in *. simpl. rewrite IH. lia.
Qed.

End Tally.

Import Tally.

(** ** The methods under any webdriver *)

Section MethodEdges.

Context {B : Type} `{WebDriver B}.
Variable self : NetgearAdmin.t.

(** The [else] of the [for]: it raises, having taken the failure
    screenshot at most. *)
Lemma get_retry_exhausted url (s : state B) :
  is_ok (out (NetgearAdmin.get_retry url [] s)) = false
  /\ forallb quiet (evs (NetgearAdmin.get_retry url [] s)) = true.
Proof.
  cbn [NetgearAdmin.get_retry].
  pose proof (error_screenshot_fails None s) as Hf.
  pose proof (error_screenshot_quiet None s) as Hq.
  bind_split e a Ho; [auto|].
  rewrite Ho in Hf. discriminate.
Qed.

Lemma get_retry_returned url xs (s : state B) :
  let tr := evs (NetgearAdmin.get_retry url xs s) in
  out (NetgearAdmin.get_retry url xs s) = Ok tt ->
  (count wait_failed tr < length xs)%nat
  /\ count is_get tr = count wait_failed tr
  /\ count is_sleep tr = count wait_failed tr
  /\ count is_warning tr = count wait_failed tr
  /\ count get_failed tr = 0%nat
  /\ exists before, tr = before ++ [EvWaitUrl 15 (Ok tt)]
                    /\ count wait_passed before = 0%nat.
Proof.
  cbv zeta. revert s. induction xs as [|x xs IH]; intros s.
  - intros Ho. destruct (get_retry_exhausted url s) as [Hf _].
    rewrite Ho in Hf. discriminate.
  - cbn [NetgearAdmin.get_retry]. exec.
    destruct (wait_url_not_blank 15 (drv s)) as [[[]|w] b1]; exec_cbn.
    + intros _. cbn [length]. rewrite !count_cons, !count_nil. cbn.
      repeat split; try lia. exists []. split; reflexivity.
    + destruct (navigate url b1) as [[u|w'] b2]; exec_cbn; [|discriminate].
      match goal with
      | |- context [NetgearAdmin.get_retry url xs ?s'] =>
          specialize (IH s'); destruct (NetgearAdmin.get_retry url xs s')
            as [o s2 t2]
      end.
      cbn [out evs] in *. intros Ho. specialize (IH Ho).
      destruct IH as (Hlt & Hg & Hs & Hw & Hgf & before & -> & Hb).
      cbn [length]. rewrite !count_cons. cbn [wait_failed is_get is_sleep
        is_warning get_failed].
      repeat split; try lia.
      eexists (_ :: _ :: _ :: _ :: before). split; [reflexivity|].
      rewrite !count_cons. cbn. exact Hb.
Qed.

(** X5: when [get] returns, the log shows what it took: [k] failed
    waits for some [k < 5], each followed by a warning, a new
    [browser.get] and a sleep, then the wait that passed, which is
    the last thing [get] did; no [browser.get] failed. *)
Theorem get_returns_after_wait (tpl : string) (s : state B) :
  let tr := evs (NetgearAdmin.get self tpl s) in
  out (NetgearAdmin.get self tpl s) = Ok tt ->
  (count wait_failed tr < 5)%nat
  /\ count is_get tr = S (count wait_failed tr)
  /\ count is_sleep tr = count wait_failed tr
  /\ count is_warning tr = count wait_failed tr
  /\ count get_failed tr = 0%nat
  /\ count wait_passed tr = 1%nat
  /\ exists before, tr = before ++ [EvWaitUrl 15 (Ok tt)].
Proof.
  cbv zeta. unfold NetgearAdmin.get. exec.
  destruct (navigate _ (drv s)) as [[u|w] b1]; exec_cbn; [|discriminate].
  match goal with
  | |- context [NetgearAdmin.get_retry ?url ?xs ?s'] =>
      pose proof (get_retry_returned url xs s') as IH;
      destruct (NetgearAdmin.get_retry url xs s') as [o s2 t2]
  end.
  cbv zeta in IH. cbn [out evs] in IH. exec_cbn. intros Ho.
  destruct (IH Ho) as (Hlt & Hg & Hs & Hw & Hgf & before & -> & Hb).
  rewrite length_seq in Hlt.
  rewrite ?count_cons, ?count_app, ?count_cons, ?count_nil in *.
  cbn [wait_failed is_get is_sleep is_warning get_failed wait_passed] in *.
  repeat split; try lia.
  eexists (_ :: _ :: before). reflexivity.
Qed.

Lemma get_retry_get_failed url xs (s : state B) (w : wd_exn) :
  In (EvGet url (Raise w)) (evs (NetgearAdmin.get_retry url xs s)) ->
  out (NetgearAdmin.get_retry url xs s) = Raise (WebDriverException w)
  /\ exists before,
       evs (NetgearAdmin.get_retry url xs s)
       = before ++ [EvGet url (Raise w)].
Proof.
  revert s. induction xs as [|x xs IH]; intros s.
  - intros Hin. exfalso. destruct (get_retry_exhausted url s) as [_ Hq].
    rewrite forallb_forall in Hq. apply Hq in Hin. discriminate.
  - cbn [NetgearAdmin.get_retry]. exec.
    destruct (wait_url_not_blank 15 (drv s)) as [[[]|w0] b1]; exec_cbn.
    + cbn [In]. intros [Heq | []]. discriminate.
    + destruct (navigate url b1) as [[u|w'] b2]; exec_cbn.
      * match goal with
        | |- context [NetgearAdmin.get_retry url xs ?s'] =>
            specialize (IH s'); destruct (NetgearAdmin.get_retry url xs s')
              as [o s2 t2]
        end.
        cbn [out evs In] in *.
        intros [Heq | [Heq | [Heq | [Heq | Hin]]]]; try discriminate.
        destruct (IH Hin) as (-> & before & ->).
        split; [reflexivity|].
        eexists (_ :: _ :: _ :: _ :: before). reflexivity.
      * cbn [In]. intros [Heq | [Heq | [Heq | []]]]; try discriminate.
        injection Heq as <-. split; [reflexivity|].
        eexists [_; _]. reflexivity.
Qed.

Lemma get_retry_same_url url xs (s : state B) (u : formatted)
    (r : res wd_exn unit) :
  In (EvGet u r) (evs (NetgearAdmin.get_retry url xs s)) -> u = url.
Proof.
  revert s. induction xs as [|x xs IH]; intros s.
  - intros Hin. exfalso. destruct (get_retry_exhausted url s) as [_ Hq].
    rewrite forallb_forall in Hq. apply Hq in Hin. discriminate.
  - cbn [NetgearAdmin.get_retry]. exec.
    destruct (wait_url_not_blank 15 (drv s)) as [[[]|w0] b1]; exec_cbn.
    + cbn [In]. intros [Heq | []]. discriminate.
    + destruct (navigate url b1) as [[u'|w'] b2]; exec_cbn.
      * match goal with
        | |- context [NetgearAdmin.get_retry url xs ?s'] =>
            specialize (IH s'); destruct (NetgearAdmin.get_retry url xs s')
              as [o s2 t2]
        end.
        cbn [out evs In] in *.
        intros [Heq | [Heq | [Heq | [Heq | Hin]]]]; try discriminate; auto.
        now injection Heq as <-.
      * cbn [In]. intros [Heq | [Heq | [Heq | []]]]; try discriminate.
        now injection Heq as <-.
Qed.

(** X6: only waits are retried.  When a [browser.get] raises, the
    first as well as a later one, [get] ends there with that
    exception: nothing is logged, fetched or waited for
    afterwards. *)
Theorem get_navigation_error_ends_get (tpl : string) (s : state B)
    (url : formatted) (w : wd_exn) :
  In (EvGet url (Raise w)) (evs (NetgearAdmin.get self tpl s)) ->
  out (NetgearAdmin.get self tpl s) = Raise (WebDriverException w)
  /\ exists before,
       evs (NetgearAdmin.get self tpl s) = before ++ [EvGet url (Raise w)].
Proof.
  unfold NetgearAdmin.get. exec.
  destruct (navigate _ (drv s)) as [[u|w'] b1]; exec_cbn.
  - match goal with
    | |- context [NetgearAdmin.get_retry ?url' ?xs ?s'] =>
        pose proof (get_retry_get_failed url' xs s' w) as IH;
        pose proof (get_retry_same_url url' xs s' url (Raise w)) as Hsame;
        destruct (NetgearAdmin.get_retry url' xs s') as [o s2 t2]
    end.
    cbn [out evs In] in *.
    intros [Heq | [Heq | Hin]]; try discriminate.
    specialize (Hsame Hin). subst url.
    destruct (IH Hin) as (-> & before & ->).
    split; [reflexivity|]. eexists (_ :: _ :: before). reflexivity.
  - cbn [In]. intros [Heq | [Heq | []]]; try discriminate.
    injection Heq as <- <-. split; [reflexivity|].
    eexists [_]. reflexivity.
Qed.

End MethodEdges.

(** ** One warning for each failed wait *)

Section Balance.

Context {B : Type} `{WebDriver B}.

(** [m] logs as many warnings as waits for the URL failed. *)
Definition balanced {A} (m : M B A) : Prop :=
  forall s, count is_warning (evs (m s)) = count wait_failed (evs (m s)).

(** Neither a warning nor a failed wait. *)
Definition hushed (ev : event) : bool :=
  negb (is_warning ev) && negb (wait_failed ev).

Lemma balanced_ret {A} (a : A) : balanced (@ret B A a).
Proof. intros s. reflexivity. Qed.

Lemma balanced_raise {A} (e : exn) : balanced (@raise B A e).
Proof. intros s. reflexivity. Qed.

Lemma balanced_gets {A} (f : state B -> A) : balanced (gets f).
Proof. intros s. reflexivity. Qed.

Lemma balanced_modify (f : state B -> state B) : balanced (modify f).
Proof. intros s. reflexivity. Qed.

Lemma balanced_lift {A} (r : res exn A) : balanced (@lift B A r).
Proof. intros s. destruct r; reflexivity. Qed.

Lemma balanced_emit (ev : event) : hushed ev = true -> balanced (@emit B ev).
Proof.
  unfold hushed. intros Hev s. cbn [emit evs]. rewrite !count_cons.
  destruct (is_warning ev), (wait_failed ev); try discriminate. reflexivity.
Qed.

Lemma balanced_call {X} (op : B -> res wd_exn X * B)
    (ev : res wd_exn X -> event) :
  (forall r, hushed (ev r) = true) -> balanced (call op ev).
Proof.
  intros Hev s. unfold call. destruct (op (drv s)) as [r b].
  specialize (Hev r). unfold hushed in Hev.
  destruct r; cbn [evs]; rewrite !count_cons;
    destruct (is_warning _), (wait_failed _); try discriminate; reflexivity.
Qed.

Lemma balanced_bind {A D} (m : M B A) (k : A -> M B D) :
  balanced m -> (forall x, balanced (k x)) -> balanced (bind m k).
Proof.
  intros Hm Hk s.
  destruct (bind_cases m k s) as [(e & Ho & ->) | (x & Ho & ->)];
    cbn [evs]; [apply Hm|].
  rewrite !count_app, (Hm s), (Hk x (post (m s))). reflexivity.
Qed.

Lemma balanced_try {A} (m : M B A) (c : exn -> bool) (h : exn -> M B A) :
  balanced m -> (forall e, balanced (h e)) -> balanced (try_except m c h).
Proof.
  intros Hm Hh s.
  destruct (out (m s)) as [x|e] eqn:Ho.
  - rewrite (try_ok _ _ _ _ _ Ho). apply Hm.
  - destruct (c e) eqn:Hc.
    + rewrite (try_caught _ _ _ _ _ Ho Hc). cbn [evs].
      rewrite !count_app, (Hm s), (Hh e (post (m s))). reflexivity.
    + rewrite (try_uncaught _ _ _ _ _ Ho Hc). apply Hm.
Qed.

Lemma balanced_if {A} (c : bool) (m1 m2 : M B A) :
  balanced m1 -> balanced m2 -> balanced (if c then m1 else m2).
Proof. now destruct c. Qed.

Lemma balanced_free (P : event -> bool) {A} (m : M B A) :
  (forall ev, P ev = true -> hushed ev = true) -> emits P m -> balanced m.
Proof.
  intros HP Hm s. specialize (Hm s).
  rewrite !count_none; [reflexivity | |];
    (eapply forallb_none; [|exact Hm]); intros ev Hev;
    specialize (HP ev Hev); unfold hushed in HP;
    destruct (is_warning ev), (wait_failed ev); try discriminate; reflexivity.
Qed.

End Balance.

Ltac balanced_step :=
  first
    [ apply balanced_ret
    | apply balanced_raise
    | apply balanced_gets
    | apply balanced_modify
    | apply balanced_lift
    | apply balanced_emit; reflexivity
    | apply balanced_call; intros ?; reflexivity
    | apply balanced_bind; [| intros ?]
    | apply balanced_try; [| intros ?]
    | apply balanced_if ].

(** A kind of event that has neither. *)
Ltac hushed_kind :=
  intros ev; unfold hushed; destruct ev; simpl; try congruence;
  repeat match goal with
         | |- context [match ?x with _ => _ end] => destruct x
         end;
  simpl; congruence.

Section BalancedRun.

Context {B : Type} `{WebDriver B}.
Variable self : NetgearAdmin.t.

(** The [try] of [get]: the wait returns, or it fails and the warning
    is logged. *)
Lemma wait_or_warn_balanced :
  balanced
    (try_except
       (call (wait_url_not_blank 15) (EvWaitUrl 15);; @ret B bool true)
       is_Exception
       (fun _ => NetgearAdmin.log WARNING "GET %s failed; trying again";;
                 ret false)).
Proof.
  intros s. unfold NetgearAdmin.log. exec. split_call; reflexivity.
Qed.

Lemma error_screenshot_balanced fname :
  balanced (@NetgearAdmin.error_screenshot B _ fname).
Proof.
  eapply balanced_free; [|apply error_screenshot_snapshot].
  hushed_kind.
Qed.

Lemma do_screenshot_balanced : balanced (NetgearAdmin.do_screenshot self).
Proof.
  unfold NetgearAdmin.do_screenshot, NetgearAdmin.log.
  repeat balanced_step.
Qed.

Lemma get_retry_balanced url xs :
  balanced (@NetgearAdmin.get_retry B _ url xs).
Proof.
  induction xs as [|x xs IH]; cbn [NetgearAdmin.get_retry].
  - apply balanced_bind; [apply error_screenshot_balanced | intros ?].
    balanced_step.
  - apply balanced_bind; [apply wait_or_warn_balanced | intros waited].
    unfold NetgearAdmin.sleep.
    apply balanced_if; [balanced_step|].
    do 2 (apply balanced_bind; [repeat balanced_step | intros ?]).
    exact IH.
Qed.

Lemma get_balanced tpl : balanced (NetgearAdmin.get self tpl).
Proof.
  unfold NetgearAdmin.get, NetgearAdmin.log.
  do 2 (apply balanced_bind; [repeat balanced_step | intros ?]).
  apply get_retry_balanced.
Qed.

Lemma wait_for_source_balanced left :
  balanced (@NetgearAdmin.wait_for_source B _ left).
Proof.
  induction left as [|left IH]; cbn [NetgearAdmin.wait_for_source];
    unfold NetgearAdmin.log, NetgearAdmin.sleep;
    (apply balanced_bind; [repeat balanced_step | intros src]);
    (apply balanced_if; [|balanced_step]).
  - apply balanced_bind; [apply error_screenshot_balanced | intros ?].
    balanced_step.
  - do 3 (apply balanced_bind; [repeat balanced_step | intros ?]).
    exact IH.
Qed.

Lemma wait_for_page_load_balanced timeout :
  balanced (@NetgearAdmin.wait_for_page_load B _ timeout).
Proof.
  unfold NetgearAdmin.wait_for_page_load, NetgearAdmin.wait_for_ajax_load.
  apply balanced_bind; [repeat balanced_step | intros ?].
  apply wait_for_source_balanced.
Qed.

Lemma page_balanced tpl :
  balanced
    (NetgearAdmin.get self tpl;;
     NetgearAdmin.wait_for_page_load 20;;
     NetgearAdmin.do_screenshot self).
Proof.
  apply balanced_bind; [apply get_balanced | intros ?].
  apply balanced_bind; [apply wait_for_page_load_balanced | intros ?].
  apply do_screenshot_balanced.
Qed.

Lemma check_login_balanced : balanced (NetgearAdmin.check_login self).
Proof.
  unfold NetgearAdmin.check_login, NetgearAdmin.log.
  apply balanced_bind; [|intros ?; repeat balanced_step].
  apply balanced_try; [|intros ?; balanced_step].
  do 4 (apply balanced_bind; [repeat balanced_step | intros ?]).
  apply balanced_bind; [apply wait_for_page_load_balanced | intros ?].
  apply do_screenshot_balanced.
Qed.

Lemma reboot_balanced : balanced (@NetgearAdmin.reboot B _).
Proof.
  unfold NetgearAdmin.reboot, NetgearAdmin.sleep. repeat balanced_step.
Qed.

Lemma block_services_loop_balanced value apply radios :
  balanced (NetgearAdmin.block_services_loop self value apply radios).
Proof.
  induction radios as [|radio radios IH];
    cbn [NetgearAdmin.block_services_loop]; [balanced_step|].
  unfold NetgearAdmin.log, NetgearAdmin.sleep.
  apply balanced_bind; [repeat balanced_step | intros attr].
  apply balanced_if; [|exact IH].
  do 2 (apply balanced_bind; [repeat balanced_step | intros ?]).
  apply balanced_bind; [apply do_screenshot_balanced | intros ?].
  do 3 (apply balanced_bind; [repeat balanced_step | intros ?]).
  apply balanced_bind; [apply wait_for_page_load_balanced | intros ?].
  apply balanced_bind; [apply do_screenshot_balanced | intros ?].
  balanced_step.
Qed.

Lemma block_services_balanced value :
  balanced (NetgearAdmin.block_services self value).
Proof.
  unfold NetgearAdmin.block_services.
  do 2 (apply balanced_bind; [repeat balanced_step | intros ?]).
  apply block_services_loop_balanced.
Qed.

Lemma get_browser_balanced : balanced (NetgearAdmin.get_browser self).
Proof.
  eapply balanced_free; [|apply get_browser_setup].
  hushed_kind.
Qed.

Lemma run_balanced : balanced (NetgearAdmin.run self).
Proof.
  unfold NetgearAdmin.run, NetgearAdmin.run_body,
    NetgearAdmin.get_start_page, NetgearAdmin.get_home_page,
    NetgearAdmin.get_block_page, NetgearAdmin.browser_quit,
    NetgearAdmin.log.
  apply balanced_bind; [balanced_step | intros ?].
  apply balanced_try; [|intros e; repeat balanced_step].
  apply balanced_bind; [apply get_browser_balanced | intros ?].
  apply balanced_bind; [balanced_step | intros ?].
  apply balanced_bind; [apply page_balanced | intros ?].
  apply balanced_bind; [apply check_login_balanced | intros ?].
  apply balanced_bind; [repeat balanced_step | intros ?].
  apply balanced_bind;
    [apply balanced_if; [|balanced_step];
     apply balanced_bind; [apply page_balanced | intros ?];
     apply reboot_balanced
    | intros ?].
  apply balanced_bind;
    [apply balanced_if; [|balanced_step];
     apply balanced_bind; [apply page_balanced | intros ?];
     apply balanced_bind; [apply block_services_balanced | intros ?];
     balanced_step
    | intros ?].
  repeat balanced_step.
Qed.

End BalancedRun.

Section FailedNavigation.

Context {B : Type} `{WebDriver B}.
Variable parse_qs : string -> gmap string (list string).
Variable config_file : res exn pyval.

Lemma main_balanced (args : Namespace) :
  balanced (main parse_qs config_file args).
Proof.
  unfold main, set_log_debug, NetgearAdmin.__init__, NetgearAdmin.log.
  cbv zeta.
  apply balanced_bind; [balanced_step | intros env].
  apply balanced_bind; [repeat balanced_step | intros debug].
  do 6 (apply balanced_bind; [repeat balanced_step | intros ?]).
  apply balanced_bind; [repeat balanced_step | intros script].
  apply balanced_bind; [apply run_balanced | intros ?].
  repeat balanced_step.
Qed.

(** The waits that failed in a row are among the waits that failed. *)
Lemma failed_waits_count (n : nat) (tr : list event) :
  (failed_waits n tr <= n + count wait_failed tr)%nat.
Proof.
  revert n. induction tr as [|ev tr IH]; intros n; [simpl; lia|].
  rewrite count_cons.
  destruct ev as [| | |t [[]|w]| | | | | | | | | | | | | | | | |];
    cbn [failed_waits wait_failed];
    first [specialize (IH n); lia | specialize (IH 0%nat); lia
          | specialize (IH (S n)); lia].
Qed.

(** C5, as amended: when a navigation uses up its five waits, the
    process exits with a non-zero status, [browser.quit()] having been
    called; one warning was logged for each wait that failed, five at
    least, and no critical record. *)
Theorem navigation_failure_exits_nonzero (args : Namespace) (s : state B) :
  let r := main parse_qs config_file args s in
  gave_up (evs r) = true ->
  exit_status (out r) <> 0
  /\ existsb is_critical (evs r) = false
  /\ existsb is_warning (evs r) = true
  /\ existsb is_quit (evs r) = true
  /\ count is_warning (evs r) = count wait_failed (evs r)
  /\ (5 <= count is_warning (evs r))%nat.
Proof.
  cbv zeta. intros Hgave.
  destruct (navigation_failure_outcome parse_qs config_file args s Hgave)
    as (Hexit & Hcrit & Hwarn & Hquit).
  pose proof (main_balanced args s) as Hbal.
  repeat split; try assumption.
  rewrite Hbal. unfold gave_up in Hgave. apply Nat.leb_le in Hgave.
  pose proof (failed_waits_count 0
                (evs (main parse_qs config_file args s))). lia.
Qed.

End FailedNavigation.

(** ** Time spent waiting *)

Section Spending.

Context {B : Type} `{WebDriver B}.

(** Whatever the webdriver does, the waits and sleeps of [m] add up to
    [k] seconds at most. *)
Definition spends (k : Z) {A} (m : M B A) : Prop :=
  forall s, budget (evs (m s)) <= k.

Lemma spends_weaken (a b : Z) {A} (m : M B A) :
  spends a m -> a <= b -> spends b m.
Proof. intros Hm Hab s. specialize (Hm s). lia. Qed.

Lemma spends_ret {A} (a : A) : spends 0 (@ret B A a).
Proof. intros s. reflexivity. Qed.

Lemma spends_raise {A} (e : exn) : spends 0 (@raise B A e).
Proof. intros s. reflexivity. Qed.

Lemma spends_gets {A} (f : state B -> A) : spends 0 (gets f).
Proof. intros s. reflexivity. Qed.

Lemma spends_modify (f : state B -> state B) : spends 0 (modify f).
Proof. intros s. reflexivity. Qed.

Lemma spends_lift {A} (r : res exn A) : spends 0 (@lift B A r).
Proof. intros s. destruct r; reflexivity. Qed.

Lemma spends_emit (ev : event) : spends (seconds ev) (@emit B ev).
Proof. intros s. unfold budget. simpl. lia. Qed.

Lemma spends_call (k : Z) {X} (op : B -> res wd_exn X * B)
    (ev : res wd_exn X -> event) :
  (forall r, seconds (ev r) = k) -> spends k (call op ev).
Proof.
  intros Hev s. unfold call. destruct (op (drv s)) as [r b].
  unfold budget. simpl. rewrite Hev. lia.
Qed.

Lemma spends_bind (a b : Z) {A D} (m : M B A) (k : A -> M B D) :
  spends a m -> (forall x, spends b (k x)) ->
  spends (a + Z.max 0 b) (bind m k).
Proof.
  intros Hm Hk s.
  destruct (bind_cases m k s) as [(e & Ho & ->) | (x & Ho & ->)];
    cbn [evs].
  - specialize (Hm s). lia.
  - rewrite budget_app. specialize (Hm s). specialize (Hk x (post (m s))).
    lia.
Qed.

Lemma spends_try (a b : Z) {A} (m : M B A) (c : exn -> bool)
    (h : exn -> M B A) :
  spends a m -> (forall e, spends b (h e)) ->
  spends (a + Z.max 0 b) (try_except m c h).
Proof.
  intros Hm Hh s. specialize (Hm s).
  destruct (out (m s)) as [x|e] eqn:Ho.
  - rewrite (try_ok _ _ _ _ _ Ho). lia.
  - destruct (c e) eqn:Hc.
    + rewrite (try_caught _ _ _ _ _ Ho Hc). cbn [evs].
      rewrite budget_app. specialize (Hh e (post (m s))). lia.
    + rewrite (try_uncaught _ _ _ _ _ Ho Hc). lia.
Qed.

Lemma spends_if (a b : Z) {A} (c : bool) (m1 m2 : M B A) :
  spends a m1 -> spends b m2 -> spends (Z.max a b) (if c then m1 else m2).
Proof.
  intros H1 H2. destruct c; [eapply spends_weaken; [exact H1 | lia]
                            | eapply spends_weaken; [exact H2 | lia]].
Qed.

(** Events that take no time. *)
Lemma spends_free (P : event -> bool) {A} (m : M B A) :
  (forall ev, P ev = true -> seconds ev = 0) -> emits P m -> spends 0 m.
Proof.
  intros HP Hm s. specialize (Hm s).
  induction (evs (m s)) as [|ev tr IH]; [reflexivity|].
  simpl in Hm. apply andb_true_iff in Hm as [Hev Htr].
  unfold budget in *. simpl. rewrite (HP ev Hev). specialize (IH Htr). lia.
Qed.

End Spending.

Ltac spends_step :=
  first
    [ apply spends_ret
    | apply spends_raise
    | apply spends_gets
    | apply spends_modify
    | apply spends_lift
    | apply spends_emit
    | eapply spends_call; intros ?; cbn [seconds]; reflexivity
    | eapply spends_bind; [| intros ?]
    | eapply spends_try; [| intros ?]
    | eapply spends_if ].

(** Close [spends k m] from the bound the structure of [m] gives. *)
Ltac spends_by tac :=
  eapply spends_weaken; [tac | rewrite ?length_seq; cbn [seconds length]; lia].

Section MethodBudgets.

Context {B : Type} `{WebDriver B}.
Variable self : NetgearAdmin.t.

Lemma snapshot_free ev : snapshot ev = true -> seconds ev = 0.
Proof. destruct ev; simpl; congruence. Qed.

Lemma error_screenshot_budget fname :
  spends 0 (@NetgearAdmin.error_screenshot B _ fname).
Proof.
  eapply spends_free; [apply snapshot_free | apply error_screenshot_snapshot].
Qed.

Lemma do_screenshot_budget : spends 0 (NetgearAdmin.do_screenshot self).
Proof.
  unfold NetgearAdmin.do_screenshot, NetgearAdmin.log.
  spends_by ltac:(repeat spends_step).
Qed.

Lemma get_retry_budget url xs :
  spends (17 * Z.of_nat (length xs)) (@NetgearAdmin.get_retry B _ url xs).
Proof.
  induction xs as [|x xs IH]; cbn [NetgearAdmin.get_retry].
  - spends_by ltac:(eapply spends_bind;
                      [apply error_screenshot_budget | intros ?; spends_step]).
  - unfold NetgearAdmin.log, NetgearAdmin.sleep.
    spends_by ltac:(eapply spends_bind; [repeat spends_step | intros waited];
                    eapply spends_if; [spends_step|];
                    do 2 (eapply spends_bind; [repeat spends_step | intros ?]);
                    exact IH).
Qed.

(** [get]: five waits of 15 seconds and five sleeps of 2. *)
Lemma get_budget tpl : spends 85 (NetgearAdmin.get self tpl).
Proof.
  unfold NetgearAdmin.get, NetgearAdmin.log.
  spends_by ltac:(do 2 (eapply spends_bind; [repeat spends_step | intros ?]);
                  apply get_retry_budget).
Qed.

Lemma wait_for_source_budget left :
  spends (Z.of_nat left) (@NetgearAdmin.wait_for_source B _ left).
Proof.
  induction left as [|left IH]; cbn [NetgearAdmin.wait_for_source];
    unfold NetgearAdmin.log, NetgearAdmin.sleep.
  - spends_by ltac:(eapply spends_bind; [repeat spends_step | intros src];
                    eapply spends_if; [|spends_step];
                    eapply spends_bind;
                      [apply error_screenshot_budget | intros ?; spends_step]).
  - spends_by ltac:(eapply spends_bind; [repeat spends_step | intros src];
                    eapply spends_if; [|spends_step];
                    do 3 (eapply spends_bind; [repeat spends_step | intros ?]);
                    exact IH).
Qed.

Lemma wait_for_page_load_budget timeout :
  spends (timeout + 21) (@NetgearAdmin.wait_for_page_load B _ timeout).
Proof.
  unfold NetgearAdmin.wait_for_page_load, NetgearAdmin.wait_for_ajax_load.
  spends_by ltac:(eapply spends_bind; [repeat spends_step | intros ?];
                  apply (wait_for_source_budget 21)).
Qed.

End MethodBudgets.

Section RunBudget.

Context {B : Type} `{WebDriver B}.
Variable self : NetgearAdmin.t.

Lemma page_budget tpl :
  spends 126
    (NetgearAdmin.get self tpl;;
     NetgearAdmin.wait_for_page_load 20;;
     NetgearAdmin.do_screenshot self).
Proof.
  spends_by ltac:(eapply spends_bind; [apply get_budget | intros ?];
                  eapply spends_bind;
                    [apply wait_for_page_load_budget
                    | intros ?; apply do_screenshot_budget]).
Qed.

Lemma check_login_budget : spends 41 (NetgearAdmin.check_login self).
Proof.
  unfold NetgearAdmin.check_login, NetgearAdmin.log.
  spends_by ltac:(eapply spends_bind; [|intros ?; repeat spends_step];
                  eapply spends_try; [|intros ?; spends_step];
                  do 4 (eapply spends_bind; [repeat spends_step | intros ?]);
                  eapply spends_bind;
                    [apply wait_for_page_load_budget
                    | intros ?; apply do_screenshot_budget]).
Qed.

Lemma reboot_budget : spends 1 (@NetgearAdmin.reboot B _).
Proof.
  unfold NetgearAdmin.reboot, NetgearAdmin.sleep.
  spends_by ltac:(repeat spends_step).
Qed.

Lemma block_services_loop_budget value apply radios :
  spends 42 (NetgearAdmin.block_services_loop self value apply radios).
Proof.
  induction radios as [|radio radios IH]; cbn [NetgearAdmin.block_services_loop].
  - spends_by ltac:(spends_step).
  - unfold NetgearAdmin.log, NetgearAdmin.sleep.
    spends_by ltac:(eapply spends_bind; [repeat spends_step | intros attr];
                    eapply spends_if; [|exact IH];
                    do 2 (eapply spends_bind; [repeat spends_step | intros ?]);
                    eapply spends_bind; [apply do_screenshot_budget | intros ?];
                    do 3 (eapply spends_bind; [repeat spends_step | intros ?]);
                    eapply spends_bind;
                      [apply wait_for_page_load_budget | intros ?];
                    eapply spends_bind;
                      [apply do_screenshot_budget | intros ?; spends_step]).
Qed.

Lemma block_services_budget value :
  spends 42 (NetgearAdmin.block_services self value).
Proof.
  unfold NetgearAdmin.block_services.
  spends_by ltac:(do 2 (eapply spends_bind; [repeat spends_step | intros ?]);
                  apply block_services_loop_budget).
Qed.

Lemma get_browser_budget : spends 0 (NetgearAdmin.get_browser self).
Proof.
  eapply spends_free; [|apply get_browser_setup].
  intros ev. destruct ev; simpl; congruence.
Qed.

Lemma actions_exclusive (a : pyval) :
  eq_str a ACTION_REBOOT = true ->
  eq_str a ACTION_BLOCK || eq_str a ACTION_UNBLOCK = false.
Proof.
  destruct a; simpl; try discriminate.
  intros Hr. apply String.eqb_eq in Hr. now subst.
Qed.

(** [run_body]: the start page, the login check, then a page and one
    action. *)
Lemma run_body_budget : spends 335 (NetgearAdmin.run_body self).
Proof.
  unfold NetgearAdmin.run_body, NetgearAdmin.get_start_page,
    NetgearAdmin.get_home_page, NetgearAdmin.get_block_page,
    NetgearAdmin.browser_quit, NetgearAdmin.log.
  destruct (eq_str (NetgearAdmin.action self) ACTION_REBOOT) eqn:Hr.
  - rewrite (actions_exclusive _ Hr).
    spends_by ltac:(eapply spends_bind; [apply get_browser_budget | intros ?];
                    eapply spends_bind; [spends_step | intros ?];
                    eapply spends_bind; [apply page_budget | intros ?];
                    eapply spends_bind; [apply check_login_budget | intros ?];
                    eapply spends_bind; [repeat spends_step | intros ?];
                    eapply spends_bind;
                      [eapply spends_bind;
                         [apply page_budget | intros ?; apply reboot_budget]
                      | intros ?];
                    repeat spends_step).
  - spends_by ltac:(eapply spends_bind; [apply get_browser_budget | intros ?];
                    eapply spends_bind; [spends_step | intros ?];
                    eapply spends_bind; [apply page_budget | intros ?];
                    eapply spends_bind; [apply check_login_budget | intros ?];
                    eapply spends_bind; [repeat spends_step | intros ?];
                    eapply spends_bind; [spends_step | intros ?];
                    eapply spends_bind;
                      [eapply spends_if; [|spends_step];
                       eapply spends_bind; [apply page_budget | intros ?];
                       eapply spends_bind;
                         [apply block_services_budget | intros ?; spends_step]
                      | intros ?];
                    repeat spends_step).
Qed.

Lemma run_budget : spends 335 (NetgearAdmin.run self).
Proof.
  unfold NetgearAdmin.run, NetgearAdmin.browser_quit, NetgearAdmin.log.
  spends_by ltac:(eapply spends_bind; [spends_step | intros ?];
                  eapply spends_try; [apply run_body_budget | intros e];
                  repeat spends_step).
Qed.

End RunBudget.

Section MainBudget.

Context {B : Type} `{WebDriver B}.
Variable parse_qs : string -> gmap string (list string).
Variable config_file : res exn pyval.

(** X17: whatever the router and the webdriver do, the waits and
    sleeps of a whole run add up to 335 seconds at most: 85 for each
    of the two pages fetched (five waits of 15 seconds, five sleeps of
    2), 41 for each of the four page loads awaited (a wait of 20
    seconds, 21 sleeps of 1: the start page, the page after the
    multi-login warning, the page of the action, the page after
    [apply]) and 1 after the click of the action. *)
Theorem main_waits_bounded (args : Namespace) (s : state B) :
  budget (evs (main parse_qs config_file args s)) <= 335.
Proof.
  revert s. change (spends 335 (main parse_qs config_file args)).
  unfold main, set_log_debug, NetgearAdmin.__init__, NetgearAdmin.log.
  cbv zeta.
  spends_by ltac:(eapply spends_bind; [spends_step | intros env];
                  eapply spends_bind; [repeat spends_step | intros debug];
                  do 6 (eapply spends_bind; [repeat spends_step | intros ?]);
                  eapply spends_bind; [repeat spends_step | intros script];
                  eapply spends_bind; [apply run_budget | intros ?];
                  repeat spends_step).
Qed.

End MainBudget.

Section PageLoad.

Context {B : Type} `{WebDriver B}.
Variable self : NetgearAdmin.t.

Lemma error_screenshot_counts fname (s : state B) :
  count is_sleep (evs (NetgearAdmin.error_screenshot fname s)) = 0%nat
  /\ count is_source (evs (NetgearAdmin.error_screenshot fname s)) = 0%nat.
Proof.
  pose proof (error_screenshot_snapshot fname s) as Hs.
  split; apply count_none; (eapply forallb_none; [|exact Hs]);
    intros ev; destruct ev; simpl; congruence.
Qed.

Lemma wait_for_source_bounded left (s : state B) :
  let r := NetgearAdmin.wait_for_source left s in
  (count is_sleep (evs r) <= left)%nat
  /\ (count is_source (evs r) <= 2 * left + 1)%nat
  /\ (out r = Ok tt ->
      exists before src,
        evs r = before ++ [EvSource (Ok src)]
        /\ 30 <= Z.of_nat (String.length src)).
Proof.
  cbv zeta. revert s. induction left as [|left IH]; intros s;
    cbn [NetgearAdmin.wait_for_source]; exec.
  - destruct (page_source (drv s)) as [[src|w] b1]; exec_cbn.
    + destruct (_ <? _)%Z eqn:Hlen.
      * match goal with
        | |- context [NetgearAdmin.error_screenshot None ?s'] =>
            pose proof (error_screenshot_fails None s') as Hf;
            destruct (error_screenshot_counts None s') as [Hsl Hsrc];
            destruct (NetgearAdmin.error_screenshot None s')
              as [[a|e] s2 t2]; [discriminate|]
        end.
        exec_cbn. cbn [evs] in *. rewrite !count_cons, Hsl, Hsrc. cbn.
        repeat split; try lia. discriminate.
      * exec_cbn. rewrite !count_cons, !count_nil. cbn.
        repeat split; try lia. intros _. exists [], src.
        split; [reflexivity|]. lia.
    + rewrite !count_cons, !count_nil. cbn. repeat split; try lia.
      discriminate.
  - destruct (page_source (drv s)) as [[src|w] b1]; exec_cbn.
    + destruct (_ <? _)%Z eqn:Hlen.
      * split_call.
        -- match goal with
           | |- context [NetgearAdmin.wait_for_source left ?s'] =>
               specialize (IH s');
               destruct (NetgearAdmin.wait_for_source left s')
                 as [o s2 t2]
           end.
           cbn [out evs] in *. destruct IH as (Hsl & Hsrc & Hok).
           rewrite !count_cons. cbn [is_sleep is_source].
           repeat split; try lia.
           intros Ho. destruct (Hok Ho) as (before & src0 & -> & Hlen0).
           eexists (_ :: _ :: _ :: _ :: before), src0.
           split; [reflexivity | exact Hlen0].
        -- rewrite !count_cons, !count_nil. cbn. repeat split; try lia.
           discriminate.
      * exec_cbn. rewrite !count_cons, !count_nil. cbn.
        repeat split; try lia. intros _. exists [], src.
        split; [reflexivity|]. lia.
    + rewrite !count_cons, !count_nil. cbn. repeat split; try lia.
      discriminate.
Qed.

(** X7: [wait_for_page_load] is bounded under any webdriver: one wait
    for the ready state with the given timeout, then at most 21 sleeps
    of one second and at most 43 reads of the page source; and when it
    returns, the last thing it did was read a page source of 30
    characters or more. *)
Theorem wait_for_page_load_bounded (timeout : Z) (s : state B) :
  let r := NetgearAdmin.wait_for_page_load timeout s in
  (count is_sleep (evs r) <= 21)%nat
  /\ (count is_source (evs r) <= 43)%nat
  /\ budget (evs r) <= timeout + 21
  /\ (out r = Ok tt ->
      exists before src,
        evs r = before ++ [EvSource (Ok src)]
        /\ 30 <= Z.of_nat (String.length src)).
Proof.
  cbv zeta. pose proof (wait_for_page_load_budget timeout s) as Hb.
  revert Hb.
  unfold NetgearAdmin.wait_for_page_load, NetgearAdmin.wait_for_ajax_load.
  exec.
  destruct (wait_ready timeout (drv s)) as [[[]|w] b1]; exec_cbn.
  - match goal with
    | |- context [NetgearAdmin.wait_for_source 21 ?s'] =>
        pose proof (wait_for_source_bounded 21 s') as Hw;
        destruct (NetgearAdmin.wait_for_source 21 s') as [o s2 t2]
    end.
    cbv zeta in Hw. cbn [out evs] in *. destruct Hw as (Hsl & Hsrc & Hok).
    intros Hb. rewrite !count_cons. cbn [is_sleep is_source].
    repeat split; try lia.
    intros Ho. destruct (Hok Ho) as (before & src & -> & Hlen).
    eexists (_ :: before), src. split; [reflexivity | exact Hlen].
  - intros Hb. rewrite !count_cons, !count_nil. cbn.
    repeat split; try lia. discriminate.
Qed.

(** X8: [check_login] never raises, whatever happens while it
    dismisses the multi-login warning: it returns [True] when the
    lookup of [logout] succeeded and [False] when it failed, and all
    it may have clicked is the [yes] button it found. *)
Theorem check_login_never_raises (s : state B) :
  let r := NetgearAdmin.check_login self s in
  exists b : bool,
    out r = Ok b
    /\ (b = true <-> existsb login_confirmed (evs r) = true)
    /\ (b = false <-> existsb login_refused (evs r) = true)
    /\ (forall e, In e (clicks (evs r)) ->
                  In (EvFind ByName "yes" (Ok e)) (evs r)).
Proof.
  cbv zeta. destruct (check_login_spec self s) as (b & Ho & Hc & Hr & Hcl).
  cbv zeta in *. exists b. rewrite Hc, Hr.
  repeat split; auto; destruct b; simpl; congruence.
Qed.

End PageLoad.

Section Actions.

Context {B : Type} `{WebDriver B}.
Variable self : NetgearAdmin.t.

(** X9: [reboot] stops at the first webdriver call that fails.  An
    alert is accepted only after the element with id [reboot] was
    found and clicked and the alert switched to, all with success;
    nothing is clicked but the element found; and [reboot] returns
    exactly when the alert was accepted. *)
Theorem reboot_stops_at_first_failure (s : state B) :
  let r := NetgearAdmin.reboot s in
  (forall q, In (EvAccept q) (evs r) ->
     exists button,
       evs r = [EvFind ById "reboot" (Ok button); EvClick button (Ok tt);
                EvSleep 1; EvAlert (Ok tt); EvAccept q])
  /\ (forall e, In e (clicks (evs r)) ->
                In (EvFind ById "reboot" (Ok e)) (evs r))
  /\ (out r = Ok tt <-> In (EvAccept (Ok tt)) (evs r)).
Proof.
  cbv zeta. unfold NetgearAdmin.reboot. exec.
  repeat split_call;
    repeat match goal with u : unit |- _ => destruct u end;
    (split; [|split; [|split]]); cbn [In clicks]; intros;
    repeat match goal with
           | Hor : _ \/ _ |- _ => destruct Hor
           | Hf : False |- _ => destruct Hf
           end;
    try discriminate; subst;
    try match goal with
        | Heq : EvAccept _ = EvAccept _ |- _ => injection Heq as <-
        end;
    eauto 10.
Qed.

(** A screenshot or a page wait: whatever comes out, its events are
    quiet. *)
Ltac split_snap :=
  match goal with
  | |- context [NetgearAdmin.do_screenshot self ?s'] =>
      let Hq := fresh "Hq" in
      pose proof (do_screenshot_quiet self s') as Hq;
      destruct (NetgearAdmin.do_screenshot self s') as [[[]|?] ? ?];
      exec_cbn; cbn [evs] in Hq
  | |- context [NetgearAdmin.wait_for_page_load ?t ?s'] =>
      let Hq := fresh "Hq" in
      pose proof (wait_for_page_load_quiet t s') as Hq;
      destruct (NetgearAdmin.wait_for_page_load t s') as [[[]|?] ? ?];
      exec_cbn; cbn [evs] in Hq
  end.

(** What [block_services] has clicked, by the number of clicks. *)
Definition click_discipline (value : bool) (apply : elem)
    (r : reply B bool) : Prop :=
  match clicks (evs r) with
  | [] => out r <> Ok true
  | [radio] =>
      chosen value (probes (evs r)) = Some radio
      /\ is_ok (out r) = false
  | [radio; button] =>
      chosen value (probes (evs r)) = Some radio
      /\ In (EvClick radio (Ok tt)) (evs r)
      /\ button = apply
      /\ (out r = Ok true -> In (EvClick apply (Ok tt)) (evs r))
  | _ => False
  end.

Lemma block_services_loop_discipline value apply radios (s : state B) :
  click_discipline value apply
    (NetgearAdmin.block_services_loop self value apply radios s).
Proof.
  unfold click_discipline. revert s.
  induction radios as [|radio radios IH]; intros s.
  - simpl. discriminate.
  - cbn [NetgearAdmin.block_services_loop]. exec.
    split_call; [|cbn [clicks]; discriminate].
    rewrite !matches_wanted.
    destruct (bool_decide (a = Some (wanted value))) eqn:Hm.
    + assert (Hch : forall rest, chosen value ((radio, a) :: rest) = Some radio).
      { intros rest. unfold chosen. cbn [List.find snd]. now rewrite Hm. }
      repeat first [split_call | split_snap];
        repeat match goal with u : unit |- _ => destruct u end;
        cbn [clicks probes out is_ok app];
        rewrite ?String.eqb_refl, ?clicks_app, ?Hch;
        cbn [clicks app];
        rewrite ?clicks_app;
        repeat match goal with
               | Hq : forallb quiet ?t = true |- _ =>
                   rewrite ?(quiet_clicks _ Hq); clear Hq
               end;
        cbn [clicks app In];
        repeat split; auto; try discriminate;
        intros _; rewrite ?in_app_iff; cbn [In]; rewrite ?in_app_iff;
        cbn [In]; auto 10.
    + specialize (IH (State b (os_environ s) (browser s) (_screenshot_num s))).
      destruct (NetgearAdmin.block_services_loop self value apply radios _)
        as [o s2 t2].
      cbn [evs out app clicks probes] in *. rewrite String.eqb_refl.
      assert (Hch : chosen value ((radio, a) :: probes t2)
                    = chosen value (probes t2)).
      { unfold chosen. cbn [List.find snd]. now rewrite Hm. }
      rewrite Hch.
      destruct (clicks t2) as [|c1 [|c2 [|c3 cs]]]; cbn [In];
        intuition auto.
Qed.

(** X10: under any webdriver [block_services] clicks nothing, or the
    first radio whose value it read as the wanted one, or that radio
    and then the [apply] button it looked up.  [apply] is clicked only
    after the click on the radio succeeded, a lone click on the radio
    means an exception, and [True] is returned only after both
    clicks. *)
Theorem block_services_click_discipline (value : bool) (s : state B) :
  let r := NetgearAdmin.block_services self value s in
  match clicks (evs r) with
  | [] => out r <> Ok true
  | [radio] =>
      chosen value (probes (evs r)) = Some radio
      /\ is_ok (out r) = false
  | [radio; button] =>
      chosen value (probes (evs r)) = Some radio
      /\ In (EvClick radio (Ok tt)) (evs r)
      /\ In (EvFind ByName "apply" (Ok button)) (evs r)
      /\ (out r = Ok true -> In (EvClick button (Ok tt)) (evs r))
  | _ => False
  end.
Proof.
  cbv zeta. unfold NetgearAdmin.block_services. exec.
  split_call; [|cbn [clicks]; discriminate].
  split_call; [|cbn [clicks]; discriminate].
  match goal with
  | |- context [NetgearAdmin.block_services_loop self value ?ap ?rs ?s'] =>
      pose proof (block_services_loop_discipline value ap rs s') as Hloop;
      destruct (NetgearAdmin.block_services_loop self value ap rs s')
        as [o s2 t2]
  end.
  unfold click_discipline in Hloop. cbn [evs out clicks probes In] in *.
  destruct (clicks t2) as [|c1 [|c2 [|c3 cs]]]; try exact Hloop.
  - destruct Hloop as (Hp & Hc & -> & Ht). auto 10.
Qed.

(** X12: with a browser name that is none of the four, [run] raises
    the [SystemExit] of [get_browser] with its message; the handler of
    [run] does not catch it, no webdriver is started and nothing is
    quit. *)
Theorem run_unknown_browser (s : state B) :
  ~ In (NetgearAdmin.browser_name self) browsers ->
  out (NetgearAdmin.run self s)
  = Raise (SystemExit (ExitMsg
      "ERROR: browser type must be one of 'firefox', 'chrome', 'phantomjs', or 'chrome-headless' not '{b}'"))
  /\ evs (NetgearAdmin.run self s) = [EvLog DEBUG "Getting page..."]
  /\ post (NetgearAdmin.run self s) = s.
Proof.
  unfold browsers. cbn [In]. intros Hn.
  assert (Hf : String.eqb (NetgearAdmin.browser_name self) "firefox" = false)
    by (apply String.eqb_neq; intuition auto).
  assert (Hc : String.eqb (NetgearAdmin.browser_name self) "chrome" = false)
    by (apply String.eqb_neq; intuition auto).
  assert (Hh : String.eqb (NetgearAdmin.browser_name self) "chrome-headless"
               = false)
    by (apply String.eqb_neq; intuition auto).
  assert (Hp : String.eqb (NetgearAdmin.browser_name self) "phantomjs" = false)
    by (apply String.eqb_neq; intuition auto).
  unfold NetgearAdmin.run, NetgearAdmin.run_body, NetgearAdmin.get_browser.
  rewrite Hf, Hc, Hh, Hp. exec. repeat split.
Qed.

End Actions.

(** ** [main] *)

Section MainShape.

Context {B : Type} `{WebDriver B}.
Variable parse_qs : string -> gmap string (list string).
Variable config_file : res exn pyval.

(** The CGI header. *)
Definition cgi_header : list event :=
  [EvPrint "Status: 200 OK"; EvPrint "Location: index.html";
   EvPrint EmptyString].

(** What [-v] adds to the log before anything else. *)
Definition verbose_prefix (args : Namespace) : list event :=
  if (verbose args >? 0)%Z then [EvLogLevel DEBUG] else [].

Section Lookups.

Variable args : Namespace.
Variable s : state B.
Variables a ip u p : pyval.

Hypothesis action_found :
  getConfigValue parse_qs (os_environ s) config_file args
    "action" (VBool false) = Ok a.
Hypothesis router_ip_found :
  getConfigValue parse_qs (os_environ s) config_file args
    "router_ip" (VBool false) = Ok ip.
Hypothesis username_found :
  getConfigValue parse_qs (os_environ s) config_file args
    "username" (VStr "admin") = Ok u.
Hypothesis password_found :
  getConfigValue parse_qs (os_environ s) config_file args
    "password" (VBool false) = Ok p.

Lemma main_after_lookups :
  main parse_qs config_file args s
  = bind (if (verbose args >? 0)%Z then set_log_debug;; ret true
          else ret false)
      (fun debug =>
         (if negb (truthy ip) || negb (truthy u) || negb (truthy p)
          then NetgearAdmin.log CRITICAL MSG_REQUIRED;;
               raise (SystemExit (ExitMsg MSG_REQUIRED))
          else ret tt);;
         (if negb (truthy a)
          then NetgearAdmin.log CRITICAL MSG_ACTION;;
               raise (SystemExit (ExitMsg MSG_ACTION))
          else ret tt);;
         script <- NetgearAdmin.__init__ ip u p (of_opt (action args)) debug
                     (browser_name args);;
         NetgearAdmin.run script;;
         (if bool_decide (is_Some (os_environ s !! "GATEWAY_INTERFACE")) then
            emit (EvPrint "Status: 200 OK");;
            emit (EvPrint "Location: index.html");;
            emit (EvPrint EmptyString)
          else ret tt)) s.
Proof.
  unfold main. cbv zeta. rewrite bind_gets.
  rewrite action_found, router_ip_found, username_found, password_found.
  cbn [lift].
  destruct (verbose args >? 0)%Z.
  - unfold set_log_debug. rewrite !bind_assoc, !bind_emit. cbn beta.
    rewrite !bind_ret. reflexivity.
  - rewrite !bind_ret. reflexivity.
Qed.

(** With the four values found and truthy, [main] is the run of the
    script it builds, between the first log records and the CGI
    header. *)
Lemma main_started :
  truthy a = true -> truthy ip = true -> truthy u = true ->
  truthy p = true ->
  let script := script_of args (verbose args >? 0)%Z ip u p in
  let rr := NetgearAdmin.run script
              (State (drv s) (os_environ s) false 1) in
  out (main parse_qs config_file args s) = out rr
  /\ evs (main parse_qs config_file args s)
     = verbose_prefix args
       ++ EvLog DEBUG "Getting browser instance..." :: evs rr
       ++ (if is_ok (out rr)
              && bool_decide (is_Some (os_environ s !! "GATEWAY_INTERFACE"))
           then cgi_header else []).
Proof.
  intros Ha Hip Hu Hp. cbv zeta. rewrite main_after_lookups.
  rewrite Ha, Hip, Hu, Hp. cbn [negb orb].
  unfold verbose_prefix, NetgearAdmin.__init__, NetgearAdmin.log,
    set_log_debug.
  assert (Hrest : forall debug s',
    let rr := NetgearAdmin.run (script_of args debug ip u p)
                (State (drv s') (os_environ s') false 1) in
    let r := (ret tt;; ret tt;;
              script <- (emit (EvLog DEBUG "Getting browser instance...");;
                         modify (fun s => State (drv s) (os_environ s) false 1);;
                         ret {| NetgearAdmin.ip := ip;
                                NetgearAdmin.username := u;
                                NetgearAdmin.password := p;
                                NetgearAdmin.action := of_opt (action args);
                                NetgearAdmin.browser_name := browser_name args;
                                NetgearAdmin._screenshot := debug |});;
              NetgearAdmin.run script;;
              (if bool_decide (is_Some (os_environ s !! "GATEWAY_INTERFACE"))
               then emit (EvPrint "Status: 200 OK");;
                    emit (EvPrint "Location: index.html");;
                    emit (EvPrint EmptyString)
               else ret tt)) s' in
    out r = out rr
    /\ evs r = EvLog DEBUG "Getting browser instance..." :: evs rr
               ++ (if is_ok (out rr)
                      && bool_decide
                           (is_Some (os_environ s !! "GATEWAY_INTERFACE"))
                   then cgi_header else [])).
  { intros debug s'. cbv zeta. rewrite !bind_ret.
    rewrite !bind_assoc, bind_emit. cbn beta.
    rewrite bind_assoc, bind_modify, bind_ret. cbn [out evs].
    fold (script_of args debug ip u p).
    match goal with
    | |- context [bind (NetgearAdmin.run ?sc) ?k ?s0] =>
        destruct (bind_cases (NetgearAdmin.run sc) k s0)
          as [(e & Ho & ->) | ([] & Ho & ->)]
    end; cbn [out evs]; rewrite Ho; cbn [is_ok andb].
    - now rewrite app_nil_r.
    - destruct (bool_decide _); cbn; [|now rewrite app_nil_r].
      split; reflexivity. }
  destruct (verbose args >? 0)%Z.
  - rewrite bind_assoc, bind_emit. cbn beta. rewrite bind_ret.
    cbn [out evs]. destruct (Hrest true s) as [Ho Hev]. cbv zeta in *.
    rewrite Ho, Hev. split; reflexivity.
  - rewrite bind_ret. destruct (Hrest false s) as [Ho Hev]. cbv zeta in *.
    rewrite Ho, Hev. split; reflexivity.
Qed.

(** With one of the four values falsy, [main] stops before it builds
    the script. *)
Lemma main_config_incomplete :
  truthy ip && truthy u && truthy p && truthy a = false ->
  is_ok (out (main parse_qs config_file args s)) = false
  /\ forallb prelude (evs (main parse_qs config_file args s)) = true.
Proof.
  intros Hfalsy. rewrite main_after_lookups.
  unfold set_log_debug, NetgearAdmin.log.
  destruct (truthy ip), (truthy u), (truthy p), (truthy a);
    try discriminate; cbn [negb orb andb];
    destruct (verbose args >? 0)%Z;
    rewrite ?bind_assoc, ?bind_emit; cbn beta;
    rewrite ?bind_ret, ?bind_assoc, ?bind_emit; cbn beta;
    rewrite ?bind_raise_now; cbn [out evs app];
    split; reflexivity.
Qed.

(** X16: when the four lookups return and one of the values is falsy,
    [main] starts no browser: it logs one [CRITICAL] record and raises
    [SystemExit] with the same message, the one about router IP, user
    name and password if one of these is falsy, the one about the
    action otherwise; the exit status is 1. *)
Theorem main_requires_config :
  truthy ip && truthy u && truthy p && truthy a = false ->
  let msg := if truthy ip && truthy u && truthy p then MSG_ACTION
             else MSG_REQUIRED in
  let r := main parse_qs config_file args s in
  out r = Raise (SystemExit (ExitMsg msg))
  /\ evs r = verbose_prefix args ++ [EvLog CRITICAL msg]
  /\ exit_status (out r) = 1.
Proof.
  intros Hfalsy. cbv zeta. rewrite main_after_lookups.
  unfold verbose_prefix, set_log_debug, NetgearAdmin.log.
  destruct (truthy ip), (truthy u), (truthy p), (truthy a);
    try discriminate; cbn [negb orb andb];
    destruct (verbose args >? 0)%Z;
    rewrite ?bind_assoc, ?bind_emit; cbn beta;
    rewrite ?bind_ret, ?bind_assoc, ?bind_emit; cbn beta;
    rewrite ?bind_raise_now; cbn [out evs app];
    repeat split; reflexivity.
Qed.

End Lookups.

End MainShape.

Module Closing.

(** [browser.quit()] returned. *)
Definition quit_ok (ev : event) : bool :=
  match ev with EvQuit (Ok _) => true | _ => false end.

Lemma after_none (P : event -> bool) (tr : list event) :
  existsb P tr = false -> after P tr = [].
Proof.
  induction tr as [|ev tr IH]; simpl; [reflexivity|].
  rewrite orb_false_iff. intros [-> Htr]. now apply IH.
Qed.

End Closing.

Import Closing.

(** The events of the four parts of [run_body], by kind. *)
Ltac run_segments script s0 :=
  pose proof (at_browser_setup script s0);
  pose proof (at_start_nav script s0);
  pose proof (at_login_steps script s0);
  pose proof (at_action_acting script s0).

Section AfterQuit.

Context {B : Type} `{WebDriver B}.
Variable parse_qs : string -> gmap string (list string).
Variable config_file : res exn pyval.

(** X13: once [browser.quit()] has returned, the process makes no
    further webdriver call, logs nothing and does not sleep: all that
    may follow is the CGI header. *)
Theorem nothing_after_quit (args : Namespace) (s : state B) :
  forallb is_print
    (after quit_ok (evs (main parse_qs config_file args s))) = true.
Proof.
  destruct (main_whole parse_qs config_file args s)
    as [e Ho Hpre
       | debug ip u p s0 pre cleanup tail script rb
           Hf Hpre Hcl Htail Hev Hpath Hout].
  { none_of quit_ok. now rewrite after_none. }
  unfold rb in *. clear rb.
  run_segments script s0.
  pose proof (page_raises script NetgearAdmin.START_URL
                (let s1 := post (at_browser script s0) in
                 State (drv s1) (os_environ s1) true (_screenshot_num s1)))
    as Hraise_s.
  pose proof (perform_raises script (post (at_login script s0))) as Hraise_a.
  rewrite Hev. clear Hev.
  none_of quit_ok.
  assert (Hskip : forall t1 t2,
    existsb quit_ok t1 = false ->
    after quit_ok (t1 ++ t2) = after quit_ok t2)
    by (intros; now apply after_app_skip).
  change (pre ++ EvLog DEBUG "Getting page..."
          :: evs (NetgearAdmin.run_body script s0) ++ cleanup ++ tail)
    with (pre ++ [EvLog DEBUG "Getting page..."]
          ++ evs (NetgearAdmin.run_body script s0) ++ cleanup ++ tail).
  rewrite Hskip by assumption. rewrite Hskip by reflexivity.
  destruct Hpath as [Hgb Horb Hevb Hbr
                    | Hgb Hsp Horb Hevb Hbr
                    | q Hgb Hsp Hl Horb Hevb Hbr
                    | Hgb Hsp Hl Hact Horb Hevb Hbr
                    | q Hgb Hsp Hl Hact Horb Hevb Hbr];
    rewrite Hevb; clear Hevb; rewrite <- ?app_assoc;
    repeat (rewrite Hskip by assumption).
  - (* get_browser raised *)
    rewrite Horb, Hbr, Hf in Hout.
    destruct (out (at_browser script s0)) as [[]|e]; [discriminate|].
    rewrite andb_false_r in Hout. destruct Hout as (-> & -> & _).
    reflexivity.
  - (* the start page failed *)
    rewrite Horb in Hout.
    destruct (out (at_start script s0)) as [[]|e] eqn:Hos; [discriminate|].
    rewrite (Hraise_s e Hos), Hbr in Hout. cbn [andb] in Hout.
    destruct Hout as (-> & q & -> & _).
    cbn [app after quit_ok]. now destruct q.
  - (* login refused *)
    rewrite Horb in Hout. cbn [app after quit_ok].
    destruct q as [[]|w].
    + cbn [is_Exception andb] in Hout. destruct Hout as (-> & -> & _).
      reflexivity.
    + rewrite Hbr in Hout. cbn [is_Exception andb] in Hout.
      destruct Hout as (-> & q' & -> & _).
      cbn [app after quit_ok]. now destruct q'.
  - (* the action failed *)
    rewrite Horb in Hout.
    destruct (out (at_action script s0)) as [[]|e] eqn:Hoa; [discriminate|].
    rewrite (Hraise_a e Hoa), Hbr in Hout. cbn [andb] in Hout.
    destruct Hout as (-> & q & -> & _).
    cbn [app after quit_ok]. now destruct q.
  - (* to the end *)
    rewrite Horb in Hout. cbn [app after quit_ok].
    destruct q as [[]|w].
    + destruct Hout as [_ ->]. exact Htail.
    + rewrite Hbr in Hout. cbn [is_Exception andb] in Hout.
      destruct Hout as (-> & q' & -> & _).
      cbn [app after quit_ok]. now destruct q'.
Qed.

(** X14: exit status 0 is not given lightly.  When [main] returns,
    the logout button was found, the browser was quit with success,
    and if the action on the command line is [reboot] the alert of the
    reboot was accepted. *)
Theorem main_returns_when_done (args : Namespace) (s : state B) :
  let r := main parse_qs config_file args s in
  out r = Ok tt ->
  existsb login_confirmed (evs r) = true
  /\ existsb quit_ok (evs r) = true
  /\ (action args = Some ACTION_REBOOT ->
      In (EvAccept (Ok tt)) (evs r)).
Proof.
  cbv zeta. intros Hok.
  destruct (main_whole parse_qs config_file args s)
    as [e Ho Hpre
       | debug ip u p s0 pre cleanup tail script rb
           Hf Hpre Hcl Htail Hev Hpath Hout].
  { congruence. }
  unfold rb in *. clear rb.
  destruct (out (NetgearAdmin.run_body script s0)) as [[]|e] eqn:Hrb.
  2:{ destruct Hout as [_ Hout].
      destruct (_ && _);
        [destruct Hout as (q & _ & Hr) | destruct Hout as [_ Hr]];
        congruence. }
  destruct (check_login_spec script (post (at_start script s0)))
    as (b & Hb & Hconf & _ & _).
  change (existsb login_confirmed (evs (at_login script s0)) = b) in Hconf.
  change (out (at_login script s0) = Ok b) in Hb.
  rewrite Hev.
  destruct Hpath as [Hgb Horb Hevb Hbr
                    | Hgb Hsp Horb Hevb Hbr
                    | q Hgb Hsp Hl Horb Hevb Hbr
                    | Hgb Hsp Hl Hact Horb Hevb Hbr
                    | q Hgb Hsp Hl Hact Horb Hevb Hbr].
  - rewrite <- Horb, Hrb in Hgb. discriminate.
  - rewrite <- Horb, Hrb in Hsp. discriminate.
  - rewrite Hrb in Horb. destruct q; discriminate.
  - rewrite <- Horb, Hrb in Hact. discriminate.
  - rewrite Hrb in Horb. destruct q as [[]|w]; [|discriminate].
    rewrite Hl in Hb. injection Hb as <-.
    rewrite Hevb. repeat split.
    + rewrite !existsb_app. cbn [existsb]. rewrite !existsb_app, Hconf.
      now rewrite ?orb_true_r.
    + rewrite !existsb_app. cbn [existsb]. rewrite !existsb_app.
      cbn [existsb quit_ok]. now rewrite ?orb_true_r.
    + intros Hact_args.
      assert (Hr : eq_str (NetgearAdmin.action script) ACTION_REBOOT = true)
        by (unfold script, script_of; cbn; now rewrite Hact_args).
      destruct (perform_reboot script (post (at_login script s0)) Hr
                  (actions_exclusive _ Hr) Hact) as (button & Hpev & _).
      change (perform script (post (at_login script s0)))
        with (at_action script s0) in Hpev.
      rewrite Hpev.
      rewrite ?in_app_iff. cbn [In]. rewrite ?in_app_iff. cbn [In].
      rewrite ?in_app_iff. cbn [In]. auto 20.
Qed.

End AfterQuit.

Section Header.

Context {B : Type} `{WebDriver B}.

Lemma run_body_no_print (self : NetgearAdmin.t) (s : state B) :
  existsb is_print (evs (NetgearAdmin.run_body self s)) = false.
Proof.
  run_segments self s. none_of is_print.
  destruct (run_body_path self s)
    as [Hgb Horb Hevb Hbr
       | Hgb Hsp Horb Hevb Hbr
       | q Hgb Hsp Hl Horb Hevb Hbr
       | Hgb Hsp Hl Hact Horb Hevb Hbr
       | q Hgb Hsp Hl Hact Horb Hevb Hbr];
    rewrite Hevb; use_none; reflexivity.
Qed.

Lemma run_no_print (self : NetgearAdmin.t) (s : state B) :
  existsb is_print (evs (NetgearAdmin.run self s)) = false.
Proof.
  destruct (run_outcome self s) as (cleanup & Hev & Hcl). cbv zeta in *.
  rewrite Hev. cbn [existsb is_print orb]. rewrite existsb_app.
  rewrite run_body_no_print. cbn [orb].
  destruct (out (NetgearAdmin.run_body self s)) as [[]|e].
  - now destruct Hcl as [_ ->].
  - destruct (_ && _);
      [destruct Hcl as (q & -> & _) | destruct Hcl as [-> _]]; reflexivity.
Qed.

Variable parse_qs : string -> gmap string (list string).
Variable config_file : res exn pyval.

(** [main] stops before building the script, or the four values were
    found and are truthy. *)
Lemma main_stops_or_starts (args : Namespace) (s : state B) :
  let r := main parse_qs config_file args s in
  (is_ok (out r) = false /\ forallb prelude (evs r) = true)
  \/ exists a ip u p,
       getConfigValue parse_qs (os_environ s) config_file args
         "action" (VBool false) = Ok a
       /\ getConfigValue parse_qs (os_environ s) config_file args
            "router_ip" (VBool false) = Ok ip
       /\ getConfigValue parse_qs (os_environ s) config_file args
            "username" (VStr "admin") = Ok u
       /\ getConfigValue parse_qs (os_environ s) config_file args
            "password" (VBool false) = Ok p
       /\ truthy a = true /\ truthy ip = true /\ truthy u = true
       /\ truthy p = true.
Proof.
  cbv zeta.
  destruct (getConfigValue parse_qs (os_environ s) config_file args
              "action" (VBool false)) as [a|e] eqn:Ha.
  2:{ left. unfold main. cbv zeta. rewrite bind_gets, Ha.
      unfold set_log_debug. destruct (verbose args >? 0)%Z;
        rewrite ?bind_assoc, ?bind_emit; cbn beta; rewrite ?bind_ret;
        cbn [lift]; rewrite bind_raise_now; split; reflexivity. }
  destruct (getConfigValue parse_qs (os_environ s) config_file args
              "router_ip" (VBool false)) as [ip|e] eqn:Hip.
  2:{ left. unfold main. cbv zeta. rewrite bind_gets, Ha, Hip.
      unfold set_log_debug. destruct (verbose args >? 0)%Z;
        rewrite ?bind_assoc, ?bind_emit; cbn beta; rewrite ?bind_ret;
        cbn [lift]; rewrite ?bind_ret, bind_raise_now; split; reflexivity. }
  destruct (getConfigValue parse_qs (os_environ s) config_file args
              "username" (VStr "admin")) as [u|e] eqn:Hu.
  2:{ left. unfold main. cbv zeta. rewrite bind_gets, Ha, Hip, Hu.
      unfold set_log_debug. destruct (verbose args >? 0)%Z;
        rewrite ?bind_assoc, ?bind_emit; cbn beta; rewrite ?bind_ret;
        cbn [lift]; rewrite ?bind_ret, bind_raise_now; split; reflexivity. }
  destruct (getConfigValue parse_qs (os_environ s) config_file args
              "password" (VBool false)) as [p|e] eqn:Hp.
  2:{ left. unfold main. cbv zeta. rewrite bind_gets, Ha, Hip, Hu, Hp.
      unfold set_log_debug. destruct (verbose args >? 0)%Z;
        rewrite ?bind_assoc, ?bind_emit; cbn beta; rewrite ?bind_ret;
        cbn [lift]; rewrite ?bind_ret, bind_raise_now; split; reflexivity. }
  destruct (truthy ip && truthy u && truthy p && truthy a) eqn:Ht.
  - right. exists a, ip, u, p.
    rewrite !andb_true_iff in Ht. intuition auto.
  - left.
    exact (main_config_incomplete parse_qs config_file args s a ip u p
             Ha Hip Hu Hp Ht).
Qed.

(** X15: the CGI header is printed exactly when [GATEWAY_INTERFACE] is
    in the environment and the run returned; its three lines are then
    the last thing the process does.  In every other case nothing is
    printed. *)
Theorem cgi_header_when_done (args : Namespace) (s : state B) :
  let r := main parse_qs config_file args s in
  if is_ok (out r)
     && bool_decide (is_Some (os_environ s !! "GATEWAY_INTERFACE"))
  then exists before,
         evs r = before ++ cgi_header /\ existsb is_print before = false
  else existsb is_print (evs r) = false.
Proof.
  cbv zeta.
  destruct (main_stops_or_starts args s)
    as [[Ho Hpre] | (a & ip & u & p & Ha & Hip & Hu & Hp & Hta & Hti & Htu
                     & Htp)].
  - cbv zeta in *. rewrite Ho. cbn [andb].
    eapply forallb_none; [|exact Hpre]. now intros [].
  - destruct (main_started parse_qs config_file args s a ip u p
                Ha Hip Hu Hp Hta Hti Htu Htp) as [Ho Hev].
    cbv zeta in *. rewrite Ho, Hev.
    pose proof (run_no_print
                  (script_of args (verbose args >? 0)%Z ip u p)
                  (State (drv s) (os_environ s) false 1)) as Hnp.
    assert (Hvp : existsb is_print (verbose_prefix args) = false)
      by (unfold verbose_prefix; now destruct (verbose args >? 0)%Z).
    destruct (_ && _).
    + eexists (verbose_prefix args ++ _ :: evs _). split.
      * rewrite <- app_assoc. reflexivity.
      * rewrite existsb_app, Hvp. cbn [existsb is_print orb]. exact Hnp.
    + rewrite existsb_app, Hvp. cbn [existsb is_print orb].
      rewrite app_nil_r. exact Hnp.
Qed.

End Header.

(** ** What a run leaves alone *)

Section Frame.

Context {B : Type} `{WebDriver B}.
Context {X : Type}.

(** A view of the state that does not look at the browser. *)
Variable f : state B -> X.
Hypothesis f_drv : forall (s : state B) (b : B),
  f (State b (os_environ s) (browser s) (_screenshot_num s)) = f s.

Lemma keeps_call {A} (op : B -> res wd_exn A * B)
    (ev : res wd_exn A -> event) : keeps f (call op ev).
Proof. intros s. unfold call. destruct (op (drv s)). apply f_drv. Qed.

End Frame.

Ltac frame_step f_drv :=
  first
    [ apply keeps_ret
    | apply keeps_raise
    | apply keeps_gets
    | apply keeps_emit
    | apply (keeps_call _ f_drv)
    | apply keeps_bind; [| intros ?]
    | apply keeps_try; [| intros ?]
    | match goal with
      | |- keeps _ (if ?c then _ else _) => destruct c
      | |- keeps _ (match ?c with _ => _ end) => destruct c
      | |- keeps _ (modify _) => intros ?; reflexivity
      end ].

Section MethodFrames.

Context {B : Type} `{WebDriver B}.
Context {X : Type}.
Variable self : NetgearAdmin.t.
Variable f : state B -> X.
Hypothesis f_drv : forall (s : state B) (b : B),
  f (State b (os_environ s) (browser s) (_screenshot_num s)) = f s.

Lemma error_screenshot_frame fname :
  keeps f (@NetgearAdmin.error_screenshot B _ fname).
Proof.
  unfold NetgearAdmin.error_screenshot, NetgearAdmin.log.
  repeat frame_step f_drv.
Qed.

Lemma get_retry_frame url xs : keeps f (@NetgearAdmin.get_retry B _ url xs).
Proof.
  induction xs as [|x xs IH]; cbn [NetgearAdmin.get_retry].
  - apply keeps_bind; [apply error_screenshot_frame | intros ?].
    frame_step f_drv.
  - unfold NetgearAdmin.log, NetgearAdmin.sleep.
    apply keeps_bind; [repeat frame_step f_drv | intros [|]];
      [frame_step f_drv|].
    do 2 (apply keeps_bind; [repeat frame_step f_drv | intros ?]).
    exact IH.
Qed.

Lemma get_frame tpl : keeps f (NetgearAdmin.get self tpl).
Proof.
  unfold NetgearAdmin.get, NetgearAdmin.log.
  do 2 (apply keeps_bind; [repeat frame_step f_drv | intros ?]).
  apply get_retry_frame.
Qed.

Lemma wait_for_source_frame left :
  keeps f (@NetgearAdmin.wait_for_source B _ left).
Proof.
  induction left as [|left IH]; cbn [NetgearAdmin.wait_for_source];
    unfold NetgearAdmin.log, NetgearAdmin.sleep;
    (apply keeps_bind; [repeat frame_step f_drv | intros src]);
    (destruct (_ <? _)%Z; [|frame_step f_drv]).
  - apply keeps_bind; [apply error_screenshot_frame | intros ?].
    frame_step f_drv.
  - do 3 (apply keeps_bind; [repeat frame_step f_drv | intros ?]).
    exact IH.
Qed.

Lemma wait_for_page_load_frame timeout :
  keeps f (@NetgearAdmin.wait_for_page_load B _ timeout).
Proof.
  unfold NetgearAdmin.wait_for_page_load, NetgearAdmin.wait_for_ajax_load.
  apply keeps_bind; [repeat frame_step f_drv | intros ?].
  apply wait_for_source_frame.
Qed.

Lemma reboot_frame : keeps f (@NetgearAdmin.reboot B _).
Proof.
  unfold NetgearAdmin.reboot, NetgearAdmin.sleep.
  repeat frame_step f_drv.
Qed.

Lemma browser_quit_frame : keeps f (@NetgearAdmin.browser_quit B _).
Proof. apply (keeps_call _ f_drv). Qed.

(** The methods that take debug screenshots, given what a screenshot
    does to the view. *)
Hypothesis f_shot : keeps f (NetgearAdmin.do_screenshot self).

Lemma page_frame tpl :
  keeps f
    (NetgearAdmin.get self tpl;;
     NetgearAdmin.wait_for_page_load 20;;
     NetgearAdmin.do_screenshot self).
Proof.
  apply keeps_bind; [apply get_frame | intros ?].
  apply keeps_bind; [apply wait_for_page_load_frame | intros ?].
  exact f_shot.
Qed.

Lemma check_login_frame : keeps f (NetgearAdmin.check_login self).
Proof.
  unfold NetgearAdmin.check_login, NetgearAdmin.log.
  apply keeps_bind; [|intros ?; repeat frame_step f_drv].
  apply keeps_try; [|intros ?; frame_step f_drv].
  do 4 (apply keeps_bind; [repeat frame_step f_drv | intros ?]).
  apply keeps_bind; [apply wait_for_page_load_frame | intros ?].
  exact f_shot.
Qed.

Lemma block_services_frame value :
  keeps f (NetgearAdmin.block_services self value).
Proof.
  unfold NetgearAdmin.block_services.
  do 2 (apply keeps_bind; [repeat frame_step f_drv | intros ?]).
  match goal with
  | |- keeps f (NetgearAdmin.block_services_loop self value ?ap ?rs) =>
      induction rs as [|radio radios IH];
      cbn [NetgearAdmin.block_services_loop]
  end; [frame_step f_drv|].
  unfold NetgearAdmin.log, NetgearAdmin.sleep.
  apply keeps_bind; [repeat frame_step f_drv | intros attr].
  destruct (_ || _); [|exact IH].
  do 2 (apply keeps_bind; [repeat frame_step f_drv | intros ?]).
  apply keeps_bind; [exact f_shot | intros ?].
  do 3 (apply keeps_bind; [repeat frame_step f_drv | intros ?]).
  apply keeps_bind; [apply wait_for_page_load_frame | intros ?].
  apply keeps_bind; [exact f_shot | intros ?].
  frame_step f_drv.
Qed.

End MethodFrames.

Section Environment.

Context {B : Type} `{WebDriver B}.
Variable self : NetgearAdmin.t.

Lemma do_screenshot_environ :
  keeps os_environ (NetgearAdmin.do_screenshot self).
Proof.
  unfold NetgearAdmin.do_screenshot, NetgearAdmin.log.
  repeat frame_step (fun (s : state B) (b : B) => eq_refl (os_environ s)).
Qed.

(** What [get_browser] makes of the environment [env]. *)
Definition with_display (name : string) (env : gmap string string)
  : gmap string string :=
  if String.eqb name "firefox" && bool_decide (env !! "DISPLAY" = None)
  then <["DISPLAY" := ":0"]> env
  else env.

Lemma get_browser_environ (s : state B) :
  os_environ (post (NetgearAdmin.get_browser self s))
  = with_display (NetgearAdmin.browser_name self) (os_environ s).
Proof.
  unfold NetgearAdmin.get_browser, with_display. exec.
  destruct (String.eqb _ "firefox"); cbn [andb].
  - destruct (bool_decide _); exec_cbn; repeat split_call; reflexivity.
  - repeat match goal with
           | |- context [if ?c then _ else _] => destruct c
           end; exec_cbn; repeat split_call; reflexivity.
Qed.

Lemma bind_post_keeps {X A C} (f : state B -> X) (m : M B A)
    (k : A -> M B C) (s : state B) :
  (forall a, keeps f (k a)) -> f (post (bind m k s)) = f (post (m s)).
Proof.
  intros Hk.
  destruct (bind_cases m k s) as [(e & Ho & ->) | (a & Ho & ->)];
    cbn [post]; [reflexivity | apply Hk].
Qed.

(** X11: a run changes nothing in [os.environ] except that, for
    firefox, [DISPLAY] is set to [:0] when it was not set.  A
    [DISPLAY] already there is never overwritten, and the change is
    made whether or not the browser then starts. *)
Theorem run_environment (s : state B) :
  os_environ (post (NetgearAdmin.run self s))
  = with_display (NetgearAdmin.browser_name self) (os_environ s)
  /\ (forall d, os_environ s !! "DISPLAY" = Some d ->
        os_environ (post (NetgearAdmin.run self s)) = os_environ s).
Proof.
  assert (Henv : os_environ (post (NetgearAdmin.run self s))
                 = with_display (NetgearAdmin.browser_name self)
                     (os_environ s)).
  { pose (f_drv := fun (s : state B) (b : B) => eq_refl (os_environ s)).
    rewrite <- get_browser_environ.
    unfold NetgearAdmin.run, NetgearAdmin.log.
    rewrite bind_emit. cbn [post].
    assert (Hbody : os_environ (post (NetgearAdmin.run_body self s))
                    = os_environ (post (NetgearAdmin.get_browser self s))).
    { unfold NetgearAdmin.run_body. apply bind_post_keeps. intros ?.
      apply keeps_bind; [intros ?; reflexivity | intros ?].
      apply keeps_bind;
        [apply (page_frame self _ f_drv do_screenshot_environ) | intros ?].
      apply keeps_bind;
        [apply (check_login_frame self _ f_drv do_screenshot_environ)
        | intros ?].
      apply keeps_bind;
        [unfold NetgearAdmin.log, NetgearAdmin.browser_quit;
         repeat frame_step f_drv | intros ?].
      apply keeps_bind;
        [destruct (eq_str _ _); [|apply keeps_ret];
         apply keeps_bind;
           [apply (page_frame self _ f_drv do_screenshot_environ)
           | intros ?; apply (reboot_frame _ f_drv)]
        | intros ?].
      apply keeps_bind;
        [destruct (_ || _); [|apply keeps_ret];
         apply keeps_bind;
           [apply (page_frame self _ f_drv do_screenshot_environ)
           | intros ?];
         apply keeps_bind;
           [apply (block_services_frame self _ f_drv do_screenshot_environ)
           | intros ?; apply keeps_ret]
        | intros ?].
      apply (browser_quit_frame _ f_drv). }
    rewrite <- Hbody.
    destruct (out (NetgearAdmin.run_body self s)) as [a|e] eqn:Ho.
    - now rewrite (try_ok _ _ _ _ _ Ho).
    - destruct (is_Exception e) eqn:He.
      + rewrite (try_caught _ _ _ _ _ Ho He). cbn [post].
        assert (Hh : keeps os_environ
                       (has_browser <- gets browser;;
                        (if has_browser : bool
                         then NetgearAdmin.browser_quit else ret tt);;
                        @raise B unit e)).
        { unfold NetgearAdmin.browser_quit. repeat frame_step f_drv. }
        apply Hh.
      + now rewrite (try_uncaught _ _ _ _ _ Ho He). }
  split; [exact Henv|].
  intros d Hd. rewrite Henv. unfold with_display.
  rewrite bool_decide_eq_false_2 by congruence.
  now rewrite andb_false_r.
Qed.

End Environment.

(** ** Debug screenshots *)

Module Shots.

(** Anything but a debug screenshot: those, and only those, are taken
    to a numbered file. *)
Definition plain (ev : event) : bool :=
  match ev with
  | EvShot (ShotNumbered _) _ => false
  | _ => true
  end.

(** The numbers of the debug screenshots taken, in order. *)
Fixpoint shots (tr : list event) : list Z :=
  match tr with
  | [] => []
  | EvShot (ShotNumbered n) (Ok _) :: tr' => n :: shots tr'
  | _ :: tr' => shots tr'
  end.

(** No read of the current URL failed. *)
Definition url_ok (ev : event) : bool :=
  match ev with EvUrl (Raise _) => false | _ => true end.

(** [k] consecutive numbers from [n] on. *)
Fixpoint numbers (n : Z) (k : nat) : list Z :=
  match k with
  | O => []
  | S k' => n :: numbers (n + 1) k'
  end.

Lemma shots_app (t1 t2 : list event) :
  shots (t1 ++ t2) = shots t1 ++ shots t2.
Proof.
  induction t1 as [|ev t1 IH]; simpl; [reflexivity|].
  destruct ev as [| | | | | | | | |[] []| | | | | | | | | | |];
    simpl; now rewrite ?IH.
Qed.

Lemma plain_shots (tr : list event) :
  forallb plain tr = true -> shots tr = [].
Proof.
  induction tr as [|ev tr IH]; simpl; [reflexivity|].
  rewrite andb_true_iff. intros [Hev Htr].
  destruct ev as [| | | | | | | | |[] []| | | | | | | | | | |];
    simpl in *; try discriminate; auto.
Qed.

Lemma numbers_app (n : Z) (k1 k2 : nat) :
  numbers n k1 ++ numbers (n + Z.of_nat k1) k2 = numbers n (k1 + k2).
Proof.
  revert n. induction k1 as [|k1 IH]; intros n.
  - simpl. now rewrite Z.add_0_r.
  - cbn [numbers app Nat.add]. f_equal. rewrite <- IH. do 2 f_equal. lia.
Qed.

End Shots.

Import Shots.

Section PlainMethods.

Context {B : Type} `{WebDriver B}.
Variable self : NetgearAdmin.t.

Lemma error_screenshot_plain fname :
  emits plain (@NetgearAdmin.error_screenshot B _ fname).
Proof.
  apply emits_of_if. unfold NetgearAdmin.error_screenshot, NetgearAdmin.log.
  destruct fname; repeat emits_step.
Qed.

Lemma get_retry_plain url xs :
  emits plain (@NetgearAdmin.get_retry B _ url xs).
Proof.
  apply emits_of_if. induction xs as [|x xs IH]; cbn [NetgearAdmin.get_retry].
  - apply emits_if_bind; [|intros ?; emits_step].
    apply emits_if_any, error_screenshot_plain.
  - unfold NetgearAdmin.log, NetgearAdmin.sleep.
    apply emits_if_bind; [repeat emits_step | intros [|]]; [emits_step|].
    do 2 (apply emits_if_bind; [repeat emits_step | intros ?]).
    exact IH.
Qed.

Lemma get_plain tpl : emits plain (NetgearAdmin.get self tpl).
Proof.
  apply emits_of_if. unfold NetgearAdmin.get, NetgearAdmin.log.
  do 2 (apply emits_if_bind; [repeat emits_step | intros ?]).
  apply emits_if_any, get_retry_plain.
Qed.

Lemma wait_for_page_load_plain timeout :
  emits plain (@NetgearAdmin.wait_for_page_load B _ timeout).
Proof.
  apply emits_of_if.
  unfold NetgearAdmin.wait_for_page_load, NetgearAdmin.wait_for_ajax_load.
  apply emits_if_bind; [repeat emits_step | intros ?].
  generalize 21%nat. intros left.
  induction left as [|left IH]; cbn [NetgearAdmin.wait_for_source];
    unfold NetgearAdmin.log, NetgearAdmin.sleep;
    (apply emits_if_bind; [repeat emits_step | intros src]);
    (destruct (_ <? _)%Z; [|emits_step]).
  - apply emits_if_bind; [|intros ?; emits_step].
    apply emits_if_any, error_screenshot_plain.
  - do 3 (apply emits_if_bind; [repeat emits_step | intros ?]).
    exact IH.
Qed.

Lemma reboot_plain : emits plain (@NetgearAdmin.reboot B _).
Proof.
  apply emits_of_if. unfold NetgearAdmin.reboot, NetgearAdmin.sleep.
  repeat emits_step.
Qed.

Lemma get_browser_plain : emits plain (NetgearAdmin.get_browser self).
Proof.
  apply emits_of_if. unfold NetgearAdmin.get_browser, NetgearAdmin.log.
  repeat emits_step.
Qed.

(** Without [debug], [do_screenshot] returns at once. *)
Hypothesis debug_off : NetgearAdmin._screenshot self = false.

Lemma do_screenshot_off :
  NetgearAdmin.do_screenshot self = ret tt.
Proof. unfold NetgearAdmin.do_screenshot. now rewrite debug_off. Qed.

Lemma run_plain : emits plain (NetgearAdmin.run self).
Proof.
  apply emits_of_if.
  unfold NetgearAdmin.run, NetgearAdmin.run_body, NetgearAdmin.get_start_page,
    NetgearAdmin.get_home_page, NetgearAdmin.get_block_page,
    NetgearAdmin.check_login, NetgearAdmin.block_services,
    NetgearAdmin.browser_quit, NetgearAdmin.log.
  assert (Hpage : forall tpl,
    emits_if (fun _ => true) plain
      (NetgearAdmin.get self tpl;;
       NetgearAdmin.wait_for_page_load 20;;
       ret tt)).
  { intros tpl.
    apply emits_if_bind; [apply emits_if_any, get_plain | intros ?].
    apply emits_if_bind;
      [apply emits_if_any, wait_for_page_load_plain | intros ?; emits_step]. }
  assert (Hloop : forall value apply radios,
    emits_if (fun _ => true) plain
      (NetgearAdmin.block_services_loop self value apply radios)).
  { intros value apply radios.
    induction radios as [|radio radios IH];
      cbn [NetgearAdmin.block_services_loop]; [emits_step|].
    rewrite do_screenshot_off.
    unfold NetgearAdmin.log, NetgearAdmin.sleep.
    apply emits_if_bind; [repeat emits_step | intros attr].
    destruct (_ || _); [|exact IH].
    do 6 (apply emits_if_bind; [repeat emits_step | intros ?]).
    apply emits_if_bind;
      [apply emits_if_any, wait_for_page_load_plain
      | intros ?; repeat emits_step]. }
  rewrite do_screenshot_off.
  apply emits_if_bind; [repeat emits_step | intros ?].
  apply emits_if_try; [|intros ?; repeat emits_step].
  apply emits_if_bind; [apply emits_if_any, get_browser_plain | intros ?].
  apply emits_if_bind; [emits_step | intros ?].
  apply emits_if_bind; [apply Hpage | intros ?].
  apply emits_if_bind; [|intros ?].
  { apply emits_if_bind; [|intros ?; repeat emits_step].
    apply emits_if_try; [|intros ?; repeat emits_step].
    do 4 (apply emits_if_bind; [repeat emits_step | intros ?]).
    apply emits_if_bind;
      [apply emits_if_any, wait_for_page_load_plain | intros ?; emits_step]. }
  apply emits_if_bind; [repeat emits_step | intros ?].
  apply emits_if_bind; [|intros ?].
  { destruct (eq_str _ _); [|emits_step].
    apply emits_if_bind;
      [apply Hpage | intros ?; apply emits_if_any, reboot_plain]. }
  apply emits_if_bind; [|intros ?; repeat emits_step].
  destruct (_ || _); [|emits_step].
  apply emits_if_bind; [apply Hpage | intros ?].
  apply emits_if_bind; [|intros ?; emits_step].
  do 2 (apply emits_if_bind; [repeat emits_step | intros ?]).
  apply Hloop.
Qed.

End PlainMethods.

Section DebugOff.

Context {B : Type} `{WebDriver B}.
Variable parse_qs : string -> gmap string (list string).
Variable config_file : res exn pyval.

(** X18: without [-v], a run takes no numbered debug screenshot; the
    only screenshot it may take is the failure screenshot of
    [error_screenshot]. *)
Theorem no_debug_screenshot_without_verbose (args : Namespace)
    (s : state B) :
  verbose args <= 0 ->
  forallb plain (evs (main parse_qs config_file args s)) = true.
Proof.
  intros Hv.
  assert (Hq : (verbose args >? 0)%Z = false) by lia.
  destruct (main_stops_or_starts parse_qs config_file args s)
    as [[Ho Hpre] | (a & ip & u & p & Ha & Hip & Hu & Hp & Hta & Hti & Htu
                     & Htp)].
  - eapply forallb_weaken; [|exact Hpre]. now intros [].
  - destruct (main_started parse_qs config_file args s a ip u p
                Ha Hip Hu Hp Hta Hti Htu Htp) as [_ Hev].
    cbv zeta in Hev. unfold verbose_prefix in Hev. rewrite Hq in Hev.
    rewrite Hev. cbn [app forallb plain andb]. rewrite forallb_app.
    rewrite run_plain by reflexivity. cbn [andb].
    destruct (is_ok _ && _); reflexivity.
Qed.

End DebugOff.

Section Numbering.

Context {B : Type} `{WebDriver B}.

(** As long as the current URL can be read, the debug screenshots of
    [m] are numbered consecutively from [_screenshot_num] on, and
    [_screenshot_num] ends at the next free number. *)
Definition numbered {A} (m : M B A) : Prop :=
  forall s,
    forallb url_ok (evs (m s)) = true ->
    shots (evs (m s))
    = numbers (_screenshot_num s) (length (shots (evs (m s))))
    /\ _screenshot_num (post (m s))
       = _screenshot_num s + Z.of_nat (length (shots (evs (m s)))).

Lemma numbered_inert {A} (m : M B A) :
  emits plain m -> keeps _screenshot_num m -> numbered m.
Proof.
  intros Hp Hk s _. rewrite (plain_shots _ (Hp s)), Hk. simpl.
  split; [reflexivity | lia].
Qed.

Lemma numbered_bind {A D} (m : M B A) (k : A -> M B D) :
  numbered m -> (forall a, numbered (k a)) -> numbered (bind m k).
Proof.
  intros Hm Hk s.
  destruct (bind_cases m k s) as [(e & Ho & ->) | (a & Ho & ->)];
    cbn [evs post]; [apply Hm|].
  rewrite forallb_app, andb_true_iff. intros [H1 H2].
  destruct (Hm s H1) as [Hs1 Hn1].
  destruct (Hk a (post (m s)) H2) as [Hs2 Hn2].
  rewrite shots_app, length_app, <- numbers_app, <- Hs1.
  rewrite Hn1 in Hs2. rewrite <- Hs2. split; [reflexivity|]. lia.
Qed.

Lemma numbered_try {A} (m : M B A) (c : exn -> bool) (h : exn -> M B A) :
  numbered m -> (forall e, numbered (h e)) -> numbered (try_except m c h).
Proof.
  intros Hm Hh s.
  destruct (out (m s)) as [a|e] eqn:Ho.
  - rewrite (try_ok _ _ _ _ _ Ho). apply Hm.
  - destruct (c e) eqn:Hc.
    + rewrite (try_caught _ _ _ _ _ Ho Hc). cbn [evs post].
      rewrite forallb_app, andb_true_iff. intros [H1 H2].
      destruct (Hm s H1) as [Hs1 Hn1].
      destruct (Hh e (post (m s)) H2) as [Hs2 Hn2].
      rewrite shots_app, length_app, <- numbers_app, <- Hs1.
      rewrite Hn1 in Hs2. rewrite <- Hs2. split; [reflexivity|]. lia.
    + rewrite (try_uncaught _ _ _ _ _ Ho Hc). apply Hm.
Qed.

Lemma numbered_ret {A} (a : A) : numbered (@ret B A a).
Proof. intros s _. simpl. split; [reflexivity | lia]. Qed.

Lemma numbered_raise {A} (e : exn) : numbered (@raise B A e).
Proof. intros s _. simpl. split; [reflexivity | lia]. Qed.

Lemma numbered_gets {A} (g : state B -> A) : numbered (gets g).
Proof. intros s _. simpl. split; [reflexivity | lia]. Qed.

Lemma numbered_emit (ev : event) : plain ev = true -> numbered (@emit B ev).
Proof.
  intros Hev. apply numbered_inert; [|apply keeps_emit].
  intros s. simpl. now rewrite Hev.
Qed.

Lemma numbered_call {A} (op : B -> res wd_exn A * B)
    (ev : res wd_exn A -> event) :
  (forall r, plain (ev r) = true) -> numbered (call op ev).
Proof.
  intros Hev. apply numbered_inert.
  - intros s. unfold call. destruct (op (drv s)). simpl. now rewrite Hev.
  - apply (keeps_call _ (fun s b => eq_refl (_screenshot_num s))).
Qed.

Variable self : NetgearAdmin.t.

Lemma do_screenshot_numbered : numbered (NetgearAdmin.do_screenshot self).
Proof.
  intros s. unfold NetgearAdmin.do_screenshot.
  destruct (negb _); [intros _; simpl; split; [reflexivity | lia]|].
  exec. split_call; [|intros _; simpl; split; [reflexivity | lia]].
  split_call; [|discriminate].
  intros _. simpl. split; [reflexivity | lia].
Qed.

End Numbering.

Ltac numbered_step :=
  first
    [ apply numbered_ret
    | apply numbered_raise
    | apply numbered_gets
    | apply do_screenshot_numbered
    | apply numbered_emit; reflexivity
    | apply numbered_call; intros ?; reflexivity
    | apply numbered_bind; [| intros ?]
    | apply numbered_try; [| intros ?]
    | match goal with
      | |- numbered (if ?c then _ else _) => destruct c
      | |- numbered (match ?c with _ => _ end) => destruct c
      end ].

Section NumberedRun.

Context {B : Type} `{WebDriver B}.
Variable self : NetgearAdmin.t.

Lemma num_drv (s : state B) (b : B) :
  _screenshot_num (State b (os_environ s) (browser s) (_screenshot_num s))
  = _screenshot_num s.
Proof. reflexivity. Qed.

Lemma get_numbered tpl : numbered (NetgearAdmin.get self tpl).
Proof.
  apply numbered_inert; [apply get_plain | apply (get_frame _ _ num_drv)].
Qed.

Lemma wait_for_page_load_numbered timeout :
  numbered (@NetgearAdmin.wait_for_page_load B _ timeout).
Proof.
  apply numbered_inert;
    [apply wait_for_page_load_plain
    | apply (wait_for_page_load_frame _ num_drv)].
Qed.

Lemma page_numbered tpl :
  numbered
    (NetgearAdmin.get self tpl;;
     NetgearAdmin.wait_for_page_load 20;;
     NetgearAdmin.do_screenshot self).
Proof.
  apply numbered_bind; [apply get_numbered | intros ?].
  apply numbered_bind; [apply wait_for_page_load_numbered | intros ?].
  apply do_screenshot_numbered.
Qed.

Lemma check_login_numbered : numbered (NetgearAdmin.check_login self).
Proof.
  unfold NetgearAdmin.check_login, NetgearAdmin.log.
  apply numbered_bind; [|intros ?; repeat numbered_step].
  apply numbered_try; [|intros ?; numbered_step].
  do 4 (apply numbered_bind; [repeat numbered_step | intros ?]).
  apply numbered_bind; [apply wait_for_page_load_numbered | intros ?].
  apply do_screenshot_numbered.
Qed.

Lemma block_services_numbered value :
  numbered (NetgearAdmin.block_services self value).
Proof.
  unfold NetgearAdmin.block_services.
  do 2 (apply numbered_bind; [repeat numbered_step | intros ?]).
  match goal with
  | |- numbered (NetgearAdmin.block_services_loop self value ?ap ?rs) =>
      induction rs as [|radio radios IH];
      cbn [NetgearAdmin.block_services_loop]
  end; [numbered_step|].
  unfold NetgearAdmin.log, NetgearAdmin.sleep.
  apply numbered_bind; [repeat numbered_step | intros attr].
  destruct (_ || _); [|exact IH].
  do 6 (apply numbered_bind; [repeat numbered_step | intros ?]).
  apply numbered_bind; [apply wait_for_page_load_numbered | intros ?].
  repeat numbered_step.
Qed.

Lemma run_numbered : numbered (NetgearAdmin.run self).
Proof.
  unfold NetgearAdmin.run, NetgearAdmin.run_body, NetgearAdmin.get_start_page,
    NetgearAdmin.get_home_page, NetgearAdmin.get_block_page,
    NetgearAdmin.browser_quit, NetgearAdmin.log.
  apply numbered_bind; [repeat numbered_step | intros ?].
  apply numbered_try; [|intros ?; repeat numbered_step].
  apply numbered_bind; [|intros ?].
  { apply numbered_inert;
      [apply get_browser_plain|].
    unfold NetgearAdmin.get_browser, NetgearAdmin.log.
    repeat frame_step num_drv. }
  apply numbered_bind; [|intros ?].
  { apply numbered_inert; [intros ?; reflexivity | intros ?; reflexivity]. }
  apply numbered_bind; [apply page_numbered | intros ?].
  apply numbered_bind; [apply check_login_numbered | intros ?].
  apply numbered_bind; [repeat numbered_step | intros ?].
  apply numbered_bind; [|intros ?].
  { destruct (eq_str _ _); [|numbered_step].
    apply numbered_bind; [apply page_numbered | intros ?].
    apply numbered_inert; [apply reboot_plain | apply (reboot_frame _ num_drv)]. }
  apply numbered_bind; [|intros ?; repeat numbered_step].
  destruct (_ || _); [|numbered_step].
  apply numbered_bind; [apply page_numbered | intros ?].
  apply numbered_bind; [apply block_services_numbered | intros ?].
  numbered_step.
Qed.

End NumberedRun.

Section DebugOn.

Context {B : Type} `{WebDriver B}.
Variable parse_qs : string -> gmap string (list string).
Variable config_file : res exn pyval.

(** X19: as long as every read of the current URL succeeds, the debug
    screenshots of a run are taken to [1.png], [2.png], ... in this
    order: no number is skipped and none is used twice, also when
    screenshots fail or exceptions are swallowed on the way. *)
Theorem debug_screenshots_numbered (args : Namespace) (s : state B) :
  let tr := evs (main parse_qs config_file args s) in
  forallb url_ok tr = true ->
  shots tr = numbers 1 (length (shots tr)).
Proof.
  cbv zeta.
  destruct (main_stops_or_starts parse_qs config_file args s)
    as [[Ho Hpre] | (a & ip & u & p & Ha & Hip & Hu & Hp & Hta & Hti & Htu
                     & Htp)].
  - intros _. rewrite plain_shots; [reflexivity|].
    eapply forallb_weaken; [|exact Hpre]. now intros [].
  - destruct (main_started parse_qs config_file args s a ip u p
                Ha Hip Hu Hp Hta Hti Htu Htp) as [_ Hev].
    cbv zeta in Hev. rewrite Hev.
    assert (Hvp : shots (verbose_prefix args) = [])
      by (unfold verbose_prefix; now destruct (verbose args >? 0)%Z).
    rewrite forallb_app. cbn [forallb]. rewrite forallb_app.
    rewrite !andb_true_iff. intros (_ & _ & Hrun & _).
    rewrite shots_app, Hvp. cbn [app shots]. rewrite shots_app.
    destruct (run_numbered (script_of args (verbose args >? 0)%Z ip u p)
                _ Hrun) as [Hs _].
    cbn [_screenshot_num] in Hs.
    assert (Htail : forall c : bool, shots (if c then cgi_header else []) = [])
      by (now intros []).
    rewrite Htail, app_nil_r. exact Hs.
Qed.

End DebugOn.

(** ** The action and its page *)

Module Steps.

(** A step of the reboot: its page, its button, its alert. *)
Definition reboot_step (ev : event) : bool :=
  match ev with
  | EvGet url _ => String.eqb (template url) NetgearAdmin.HOME_URL
  | EvFind ById _ _ | EvAlert _ | EvAccept _ => true
  | _ => false
  end.

(** A step of blocking or unblocking: its page, the [apply] button,
    the radios and their values. *)
Definition block_step (ev : event) : bool :=
  match ev with
  | EvGet url _ => String.eqb (template url) NetgearAdmin.BLOCK_URL
  | EvFind ByName sel _ => String.eqb sel "apply"
  | EvFindAll _ _ _ | EvAttr _ _ _ => true
  | _ => false
  end.

Definition no_reboot_step (ev : event) : bool := negb (reboot_step ev).
Definition no_block_step (ev : event) : bool := negb (block_step ev).

Lemma existsb_negb (P : event -> bool) (tr : list event) :
  forallb (fun ev => negb (P ev)) tr = true -> existsb P tr = false.
Proof.
  intros Hn. eapply forallb_none; [|exact Hn].
  intros ev. simpl. now destruct (P ev).
Qed.

End Steps.

Import Steps.

Section ActionPages.

Context {B : Type} `{WebDriver B}.
Variable self : NetgearAdmin.t.

Lemma quiet_no_reboot_step ev : quiet ev = true -> no_reboot_step ev = true.
Proof.
  unfold no_reboot_step.
  destruct ev as [| | | | | | | | | | | | | | | | |[] ?| | |]; simpl;
    congruence.
Qed.

Lemma home_page_no_block_step :
  emits no_block_step (NetgearAdmin.get_home_page self).
Proof.
  intros s. eapply forallb_weaken; [|apply get_home_page_nav].
  unfold no_block_step. kind_disjoint.
Qed.

Lemma block_page_no_reboot_step :
  emits no_reboot_step (NetgearAdmin.get_block_page self).
Proof.
  intros s. eapply forallb_weaken; [|apply get_block_page_nav].
  unfold no_reboot_step. kind_disjoint.
Qed.

Lemma reboot_no_block_step : emits no_block_step (@NetgearAdmin.reboot B _).
Proof.
  apply emits_of_if. unfold NetgearAdmin.reboot, NetgearAdmin.sleep.
  repeat emits_step.
Qed.

Lemma block_services_no_reboot_step value :
  emits no_reboot_step (NetgearAdmin.block_services self value).
Proof.
  apply emits_of_if. unfold NetgearAdmin.block_services.
  do 2 (apply emits_if_bind; [repeat emits_step | intros ?]).
  match goal with
  | |- emits_if _ _ (NetgearAdmin.block_services_loop self value ?ap ?rs) =>
      induction rs as [|radio radios IH];
      cbn [NetgearAdmin.block_services_loop]
  end; [emits_step|].
  unfold NetgearAdmin.log, NetgearAdmin.sleep.
  apply emits_if_bind; [repeat emits_step | intros attr].
  destruct (_ || _); [|exact IH].
  do 2 (apply emits_if_bind; [repeat emits_step | intros ?]).
  apply emits_if_bind;
    [eapply emits_if_weaken;
       [apply quiet_no_reboot_step | apply emits_if_any, do_screenshot_quiet]
    | intros ?].
  do 3 (apply emits_if_bind; [repeat emits_step | intros ?]).
  apply emits_if_bind;
    [eapply emits_if_weaken;
       [apply quiet_no_reboot_step
       | apply emits_if_any, wait_for_page_load_quiet]
    | intros ?].
  apply emits_if_bind;
    [eapply emits_if_weaken;
       [apply quiet_no_reboot_step | apply emits_if_any, do_screenshot_quiet]
    | intros ?].
  emits_step.
Qed.

(** Once logged in, [run] takes the steps of the action of the object
    and of no other. *)
Lemma perform_steps (s : state B) :
  (existsb reboot_step (evs (perform self s)) = true ->
   eq_str (NetgearAdmin.action self) ACTION_REBOOT = true)
  /\ (existsb block_step (evs (perform self s)) = true ->
      eq_str (NetgearAdmin.action self) ACTION_BLOCK
      || eq_str (NetgearAdmin.action self) ACTION_UNBLOCK = true).
Proof.
  unfold perform.
  destruct (eq_str (NetgearAdmin.action self) ACTION_REBOOT) eqn:Hr.
  - rewrite (actions_exclusive _ Hr). split; [reflexivity|].
    assert (Hn : emits no_block_step
                   ((NetgearAdmin.get_home_page self;; NetgearAdmin.reboot);;
                    ret tt)).
    { apply emits_of_if.
      apply emits_if_bind; [|intros ?; emits_step].
      apply emits_if_bind;
        [apply emits_if_any, home_page_no_block_step
        | intros ?; apply emits_if_any, reboot_no_block_step]. }
    rewrite (existsb_negb _ _ (Hn s)). discriminate.
  - split; [|].
    + assert (Hn : emits no_reboot_step
                     (ret tt;;
                      (if eq_str (NetgearAdmin.action self) ACTION_BLOCK
                          || eq_str (NetgearAdmin.action self) ACTION_UNBLOCK
                       then NetgearAdmin.get_block_page self;;
                            NetgearAdmin.block_services self
                              (eq_str (NetgearAdmin.action self) ACTION_BLOCK);;
                            ret tt
                       else ret tt))).
      { apply emits_of_if.
        apply emits_if_bind; [emits_step | intros ?].
        destruct (_ || _); [|emits_step].
        apply emits_if_bind;
          [apply emits_if_any, block_page_no_reboot_step | intros ?].
        apply emits_if_bind;
          [apply emits_if_any, block_services_no_reboot_step
          | intros ?; emits_step]. }
      rewrite (existsb_negb _ _ (Hn s)). discriminate.
    + destruct (_ || _); [reflexivity|].
      rewrite !bind_ret. cbn. discriminate.
Qed.

End ActionPages.

Section ActionOfTheCommandLine.

Context {B : Type} `{WebDriver B}.
Variable parse_qs : string -> gmap string (list string).
Variable config_file : res exn pyval.

Lemma eq_str_of_opt (o : option string) (name : string) :
  eq_str (of_opt o) name = true -> o = Some name.
Proof.
  destruct o as [t|]; simpl; [|discriminate].
  intros Heq. apply String.eqb_eq in Heq. now subst.
Qed.

(** X20: each action keeps to its own page.  The home page is fetched,
    an element looked up by id or an alert handled only when the
    action on the command line is [reboot]; the block page is fetched,
    the [apply] button or the radios looked up or a radio read only
    when it is [block] or [unblock]. *)
Theorem steps_of_the_action_only (args : Namespace) (s : state B) :
  let tr := evs (main parse_qs config_file args s) in
  (existsb reboot_step tr = true -> action args = Some ACTION_REBOOT)
  /\ (existsb block_step tr = true ->
      action args = Some ACTION_BLOCK \/ action args = Some ACTION_UNBLOCK).
Proof.
  cbv zeta.
  destruct (main_whole parse_qs config_file args s)
    as [e Ho Hpre
       | debug ip u p s0 pre cleanup tail script rb
           Hf Hpre Hcl Htail Hev Hpath Hout].
  { none_of reboot_step. none_of block_step. split; congruence. }
  unfold rb in *. clear rb.
  run_segments script s0.
  destruct (perform_steps script (post (at_login script s0)))
    as [Hreboot Hblock].
  change (perform script (post (at_login script s0)))
    with (at_action script s0) in Hreboot, Hblock.
  assert (Hra : existsb reboot_step (evs (at_action script s0)) = true ->
                action args = Some ACTION_REBOOT).
  { intros Hex. apply eq_str_of_opt. now apply Hreboot. }
  assert (Hba : existsb block_step (evs (at_action script s0)) = true ->
                action args = Some ACTION_BLOCK
                \/ action args = Some ACTION_UNBLOCK).
  { intros Hex. specialize (Hblock Hex).
    apply orb_true_iff in Hblock as [Hb | Hb];
      apply eq_str_of_opt in Hb; auto. }
  rewrite Hev. clear Hev.
  assert (Hnr : existsb reboot_step
                  (evs (at_browser script s0) ++ evs (at_start script s0)
                   ++ evs (at_login script s0)) = false
                /\ existsb block_step
                     (evs (at_browser script s0) ++ evs (at_start script s0)
                      ++ evs (at_login script s0)) = false).
  { rewrite !existsb_app. split.
    - none_of reboot_step.
      repeat match goal with
             | Hn : existsb reboot_step _ = false |- _ => rewrite Hn; clear Hn
             end. reflexivity.
    - none_of block_step.
      repeat match goal with
             | Hn : existsb block_step _ = false |- _ => rewrite Hn; clear Hn
             end. reflexivity. }
  rewrite !existsb_app in Hnr. destruct Hnr as [Hnr Hnb].
  apply orb_false_iff in Hnr as [Hnr1 Hnr]. apply orb_false_iff in Hnr as [Hnr2 Hnr3].
  apply orb_false_iff in Hnb as [Hnb1 Hnb]. apply orb_false_iff in Hnb as [Hnb2 Hnb3].
  assert (Hpr : existsb reboot_step pre = false
                /\ existsb block_step pre = false
                /\ existsb reboot_step cleanup = false
                /\ existsb block_step cleanup = false
                /\ existsb reboot_step tail = false
                /\ existsb block_step tail = false).
  { repeat split;
      (eapply forallb_none; [|eassumption]); kind_disjoint. }
  destruct Hpr as (Hp1 & Hp2 & Hc1 & Hc2 & Ht1 & Ht2).
  destruct Hpath as [Hgb Horb Hevb Hbr
                    | Hgb Hsp Horb Hevb Hbr
                    | q Hgb Hsp Hl Horb Hevb Hbr
                    | Hgb Hsp Hl Hact Horb Hevb Hbr
                    | q Hgb Hsp Hl Hact Horb Hevb Hbr];
    rewrite Hevb; clear Hevb;
    rewrite ?existsb_app; cbn [existsb]; rewrite ?existsb_app;
    cbn [existsb reboot_step block_step];
    rewrite ?Hp1, ?Hp2, ?Hc1, ?Hc2, ?Ht1, ?Ht2, ?Hnr1, ?Hnr2, ?Hnr3,
      ?Hnb1, ?Hnb2, ?Hnb3;
    cbn [orb]; rewrite ?orb_false_r;
    (split; [first [exact Hra | discriminate]
            | first [exact Hba | discriminate]]).
Qed.

End ActionOfTheCommandLine.

(** ** The exit status *)

Section ExitStatus.

Context {B : Type} `{WebDriver B}.

(** An exception that ends the process with status 1. *)
Definition exits_with_1 (e : exn) : bool :=
  (exit_status (@Raise exn unit e) =? 1)%Z.

Lemma Exception_exits_with_1 (e : exn) :
  is_Exception e = true -> exits_with_1 e = true.
Proof.
  intros He. unfold exits_with_1. now rewrite exit_status_Exception.
Qed.

Lemma raises_only_weaken {A} (c1 c2 : exn -> bool) (m : M B A) :
  (forall e, c1 e = true -> c2 e = true) ->
  raises_only c1 m -> raises_only c2 m.
Proof. intros Hc Hm s e Ho. apply Hc. now apply (Hm s). Qed.

Lemma raises_only_handler {A} (c c' : exn -> bool) (m : M B A)
    (h : exn -> M B A) :
  raises_only c m ->
  (forall e, c' e = true -> raises_only c (h e)) ->
  raises_only c (try_except m c' h).
Proof.
  intros Hm Hh s e.
  destruct (out (m s)) as [a|e'] eqn:Ho.
  - rewrite (try_ok _ _ _ _ _ Ho). now rewrite Ho.
  - destruct (c' e') eqn:Hc.
    + rewrite (try_caught _ _ _ _ _ Ho Hc). cbn [out]. now apply Hh.
    + rewrite (try_uncaught _ _ _ _ _ Ho Hc). apply Hm.
Qed.

Lemma run_exits_with_1 (self : NetgearAdmin.t) :
  raises_only exits_with_1 (NetgearAdmin.run self).
Proof.
  assert (Hexc : forall A (m : M B A),
    raises_only is_Exception m -> raises_only exits_with_1 m).
  { intros A m. apply raises_only_weaken, Exception_exits_with_1. }
  unfold NetgearAdmin.run, NetgearAdmin.log.
  apply raises_only_bind;
    [apply raises_only_total; intros ?; reflexivity | intros ?].
  apply raises_only_handler.
  - unfold NetgearAdmin.run_body, NetgearAdmin.get_start_page,
      NetgearAdmin.get_home_page, NetgearAdmin.get_block_page,
      NetgearAdmin.browser_quit, NetgearAdmin.log.
    apply raises_only_bind; [|intros ?].
    { unfold NetgearAdmin.get_browser, NetgearAdmin.log.
      repeat first
        [ apply Hexc, raises_only_call
        | apply raises_only_raise; reflexivity
        | apply raises_only_total; intros ?; reflexivity
        | apply raises_only_bind; [| intros ?]
        | match goal with
          | |- raises_only _ (if ?c then _ else _) => destruct c
          end ]. }
    apply raises_only_bind;
      [apply raises_only_total; intros ?; reflexivity | intros ?].
    apply raises_only_bind; [apply Hexc, page_raises | intros ?].
    apply raises_only_bind;
      [apply raises_only_total, check_login_returns | intros logged_in].
    apply raises_only_bind; [|intros ?].
    { destruct (negb logged_in);
        [|apply raises_only_total; intros ?; reflexivity].
      apply raises_only_bind;
        [apply raises_only_total; intros ?; reflexivity | intros ?].
      apply raises_only_bind; [apply Hexc, raises_only_call | intros ?].
      apply raises_only_raise. reflexivity. }
    apply raises_only_bind; [|intros ?].
    { destruct (eq_str _ _);
        [|apply raises_only_total; intros ?; reflexivity].
      apply Hexc.
      apply raises_only_bind; [apply page_raises | intros ?].
      apply reboot_raises. }
    apply raises_only_bind; [|intros ?; apply Hexc, raises_only_call].
    destruct (_ || _); [|apply raises_only_total; intros ?; reflexivity].
    apply Hexc.
    apply raises_only_bind; [apply page_raises | intros ?].
    apply raises_only_bind; [apply block_services_raises | intros ?].
    apply raises_only_total. intros ?. reflexivity.
  - intros e He. unfold NetgearAdmin.browser_quit.
    apply raises_only_bind;
      [apply raises_only_total; intros ?; reflexivity | intros has_browser].
    apply raises_only_bind;
      [destruct has_browser;
         [apply Hexc, raises_only_call
         | apply raises_only_total; intros ?; reflexivity]
      | intros ?].
    apply raises_only_raise. now apply Exception_exits_with_1.
Qed.

Variable parse_qs : string -> gmap string (list string).
Variable config_file : res exn pyval.

(** Loading config.json fails with an [Exception], as [open] and
    [json.load] do. *)
Hypothesis load_error : forall e, config_file = Raise e -> is_Exception e = true.

Lemma getConfigValue_exits_with_1 (environ : gmap string string)
    (args : Namespace) (name : string) (default : pyval) (e : exn) :
  getConfigValue parse_qs environ config_file args name default = Raise e ->
  exits_with_1 e = true.
Proof.
  assert (Hstage : forall value,
    config_stage config_file value name default = Raise e ->
    exits_with_1 e = true).
  { intros value. unfold config_stage.
    destruct config_file as [config|e'] eqn:Hcfg.
    - unfold config_lookup.
      destruct config as [| | | |t|l|d];
        repeat match goal with
               | |- context [if ?c then _ else _] => destruct c
               | |- context [match ?o with Some _ => _ | None => _ end] =>
                   destruct o
               end;
        intros Heq; try discriminate; now injection Heq as <-.
    - intros [= <-]. apply Exception_exits_with_1. now apply load_error. }
  unfold getConfigValue, query_stage.
  repeat match goal with
         | |- context [match ?o with Some _ => _ | None => _ end] =>
             destruct o
         | |- context [if ?c then _ else _] => destruct c
         end;
    try discriminate; apply Hstage.
Qed.

(** X21: once the arguments are parsed, the process ends with status 0
    or 1, and with 0 only when [main] returns: every way out of [main]
    other than returning is an uncaught exception, a [SystemExit] with
    a message or the [exit(1)] of a failed login. *)
Theorem exit_status_0_or_1 (args : Namespace) (s : state B) :
  let r := main parse_qs config_file args s in
  (exit_status (out r) = 0 /\ out r = Ok tt)
  \/ (exit_status (out r) = 1 /\ is_ok (out r) = false).
Proof.
  cbv zeta.
  assert (Hmain : raises_only exits_with_1 (main parse_qs config_file args)).
  { assert (Hlift : forall env name default,
      raises_only exits_with_1
        (@lift B _ (getConfigValue parse_qs env config_file args name
                      default))).
    { intros env name default s' e.
      destruct (getConfigValue parse_qs env config_file args name default)
        as [v|e'] eqn:Hg; [discriminate|].
      cbn [lift raise out]. intros [= <-].
      now apply (getConfigValue_exits_with_1 env args name default). }
    unfold main, set_log_debug, NetgearAdmin.__init__, NetgearAdmin.log.
    cbv zeta.
    apply raises_only_bind;
      [apply raises_only_total; intros ?; reflexivity | intros env].
    apply raises_only_bind;
      [destruct (_ >? _)%Z; apply raises_only_total; intros ?; reflexivity
      | intros debug].
    do 4 (apply raises_only_bind; [apply Hlift | intros ?]).
    apply raises_only_bind;
      [destruct (_ || _);
         [apply raises_only_bind;
            [apply raises_only_total; intros ?; reflexivity
            | intros ?; apply raises_only_raise; reflexivity]
         | apply raises_only_total; intros ?; reflexivity]
      | intros ?].
    apply raises_only_bind;
      [destruct (negb _);
         [apply raises_only_bind;
            [apply raises_only_total; intros ?; reflexivity
            | intros ?; apply raises_only_raise; reflexivity]
         | apply raises_only_total; intros ?; reflexivity]
      | intros ?].
    apply raises_only_bind;
      [apply raises_only_total; intros ?; reflexivity | intros script].
    apply raises_only_bind; [apply run_exits_with_1 | intros ?].
    apply raises_only_total. intros ?.
    destruct (bool_decide _); reflexivity. }
  specialize (Hmain s).
  destruct (out (main parse_qs config_file args s)) as [[]|e].
  - left. split; reflexivity.
  - right. specialize (Hmain e eq_refl). unfold exits_with_1 in Hmain.
    apply Z.eqb_eq in Hmain. split; [exact Hmain | reflexivity].
Qed.

End ExitStatus.

(** ** The pages fetched *)

Section Fetching.

Context {B : Type} `{WebDriver B}.

(** Every URL [m] hands to [browser.get] satisfies [P]. *)
Definition fetches_only (P : formatted -> Prop) {A} (m : M B A) : Prop :=
  forall s url r, In (EvGet url r) (evs (m s)) -> P url.

Lemma fetches_only_bind (P : formatted -> Prop) {A D} (m : M B A)
    (k : A -> M B D) :
  fetches_only P m -> (forall a, fetches_only P (k a)) ->
  fetches_only P (bind m k).
Proof.
  intros Hm Hk s url r.
  destruct (bind_cases m k s) as [(e & Ho & ->) | (a & Ho & ->)];
    cbn [evs]; [apply Hm|].
  rewrite in_app_iff. intros [Hin | Hin]; [eapply Hm | eapply Hk]; eauto.
Qed.

Lemma fetches_only_try (P : formatted -> Prop) {A} (m : M B A)
    (c : exn -> bool) (h : exn -> M B A) :
  fetches_only P m -> (forall e, fetches_only P (h e)) ->
  fetches_only P (try_except m c h).
Proof.
  intros Hm Hh s url r.
  destruct (out (m s)) as [a|e] eqn:Ho.
  - rewrite (try_ok _ _ _ _ _ Ho). apply Hm.
  - destruct (c e) eqn:Hc.
    + rewrite (try_caught _ _ _ _ _ Ho Hc). cbn [evs].
      rewrite in_app_iff. intros [Hin | Hin]; [eapply Hm | eapply Hh]; eauto.
    + rewrite (try_uncaught _ _ _ _ _ Ho Hc). apply Hm.
Qed.

(** A computation whose events are of a kind without [browser.get]. *)
Lemma fetches_nothing (P : formatted -> Prop) (K : event -> bool) {A}
    (m : M B A) :
  (forall ev, K ev = true -> is_get ev = false) ->
  emits K m -> fetches_only P m.
Proof.
  intros HK Hm s url r Hin. exfalso.
  pose proof (Hm s) as Hall. rewrite forallb_forall in Hall.
  apply Hall, HK in Hin. discriminate.
Qed.

Lemma quiet_no_get ev : quiet ev = true -> is_get ev = false.
Proof. destruct ev; simpl; congruence. Qed.

Lemma login_step_no_get ev : login_step ev = true -> is_get ev = false.
Proof. destruct ev; simpl; congruence. Qed.

Lemma setup_no_get ev : setup ev = true -> is_get ev = false.
Proof. destruct ev; simpl; congruence. Qed.

Definition not_get (ev : event) : bool := negb (is_get ev).

Lemma not_get_no_get ev : not_get ev = true -> is_get ev = false.
Proof. unfold not_get. now destruct (is_get ev). Qed.

Lemma quiet_not_get ev : quiet ev = true -> not_get ev = true.
Proof. unfold not_get. intros Hq. now rewrite quiet_no_get. Qed.

Variable self : NetgearAdmin.t.

(** The URL of a page of the router, as [get] builds it. *)
Definition page_url (tpl : string) : formatted :=
  Format tpl [NetgearAdmin.ip self; NetgearAdmin.username self;
              NetgearAdmin.password self].

Lemma get_fetches tpl :
  fetches_only (fun url => url = page_url tpl) (NetgearAdmin.get self tpl).
Proof.
  intros s url r. unfold NetgearAdmin.get. exec.
  split_call;
    (match goal with
     | |- context [NetgearAdmin.get_retry ?url' ?xs ?s'] =>
         pose proof (get_retry_same_url url' xs s' url r) as Hsame;
         destruct (NetgearAdmin.get_retry url' xs s') as [o s2 t2]
     | _ => idtac
     end);
    cbn [evs In] in *;
    intros Hin;
    repeat match goal with
           | Hor : _ \/ _ |- _ => destruct Hor as [Hor | Hor]
           end;
    try discriminate; try contradiction; auto;
    now injection Hin as <-.
Qed.

Lemma page_fetches tpl :
  fetches_only (fun url => url = page_url tpl)
    (NetgearAdmin.get self tpl;;
     NetgearAdmin.wait_for_page_load 20;;
     NetgearAdmin.do_screenshot self).
Proof.
  apply fetches_only_bind; [apply get_fetches | intros ?].
  apply fetches_only_bind; [|intros ?].
  - eapply fetches_nothing;
      [apply quiet_no_get | apply wait_for_page_load_quiet].
  - eapply fetches_nothing; [apply quiet_no_get | apply do_screenshot_quiet].
Qed.

Lemma reboot_not_get : emits not_get (@NetgearAdmin.reboot B _).
Proof.
  apply emits_of_if. unfold NetgearAdmin.reboot, NetgearAdmin.sleep.
  repeat emits_step.
Qed.

Lemma block_services_not_get value :
  emits not_get (NetgearAdmin.block_services self value).
Proof.
  apply emits_of_if. unfold NetgearAdmin.block_services.
  do 2 (apply emits_if_bind; [repeat emits_step | intros ?]).
  match goal with
  | |- emits_if _ _ (NetgearAdmin.block_services_loop self value ?ap ?rs) =>
      induction rs as [|radio radios IH];
      cbn [NetgearAdmin.block_services_loop]
  end; [emits_step|].
  unfold NetgearAdmin.log, NetgearAdmin.sleep.
  apply emits_if_bind; [repeat emits_step | intros attr].
  destruct (_ || _); [|exact IH].
  do 2 (apply emits_if_bind; [repeat emits_step | intros ?]).
  apply emits_if_bind;
    [eapply emits_if_weaken;
       [apply quiet_not_get | apply emits_if_any, do_screenshot_quiet]
    | intros ?].
  do 3 (apply emits_if_bind; [repeat emits_step | intros ?]).
  apply emits_if_bind;
    [eapply emits_if_weaken;
       [apply quiet_not_get | apply emits_if_any, wait_for_page_load_quiet]
    | intros ?].
  apply emits_if_bind;
    [eapply emits_if_weaken;
       [apply quiet_not_get | apply emits_if_any, do_screenshot_quiet]
    | intros ?].
  emits_step.
Qed.

(** The three pages of the router. *)
Definition router_page (url : formatted) : Prop :=
  url = page_url NetgearAdmin.START_URL
  \/ url = page_url NetgearAdmin.HOME_URL
  \/ url = page_url NetgearAdmin.BLOCK_URL.

Lemma run_fetches : fetches_only router_page (NetgearAdmin.run self).
Proof.
  assert (Hnone : forall A (m : M B A),
    emits not_get m -> fetches_only router_page m).
  { intros A m. apply fetches_nothing, not_get_no_get. }
  assert (Hpage : forall tpl,
    router_page (page_url tpl) ->
    fetches_only router_page
      (NetgearAdmin.get self tpl;;
       NetgearAdmin.wait_for_page_load 20;;
       NetgearAdmin.do_screenshot self)).
  { intros tpl Hr s url r Hin.
    now rewrite (page_fetches tpl s url r Hin). }
  unfold NetgearAdmin.run, NetgearAdmin.run_body, NetgearAdmin.get_start_page,
    NetgearAdmin.get_home_page, NetgearAdmin.get_block_page,
    NetgearAdmin.browser_quit, NetgearAdmin.log.
  apply fetches_only_bind;
    [apply Hnone, emits_of_if; emits_step | intros ?].
  apply fetches_only_try;
    [|intros ?; apply Hnone, emits_of_if; repeat emits_step].
  apply fetches_only_bind; [|intros ?].
  { eapply fetches_nothing; [apply setup_no_get | apply get_browser_setup]. }
  apply fetches_only_bind;
    [apply Hnone, emits_of_if; emits_step | intros ?].
  apply fetches_only_bind;
    [apply Hpage; unfold router_page; auto | intros ?].
  apply fetches_only_bind; [|intros ?].
  { eapply fetches_nothing;
      [apply login_step_no_get | apply check_login_steps]. }
  apply fetches_only_bind;
    [apply Hnone, emits_of_if; repeat emits_step | intros ?].
  apply fetches_only_bind; [|intros ?].
  { destruct (eq_str _ _); [|apply Hnone, emits_of_if; emits_step].
    apply fetches_only_bind;
      [apply Hpage; unfold router_page; auto
      | intros ?; apply Hnone, reboot_not_get]. }
  apply fetches_only_bind;
    [|intros ?; apply Hnone, emits_of_if; repeat emits_step].
  destruct (_ || _); [|apply Hnone, emits_of_if; emits_step].
  apply fetches_only_bind;
    [apply Hpage; unfold router_page; auto | intros ?].
  apply fetches_only_bind;
    [apply Hnone, block_services_not_get
    | intros ?; apply Hnone, emits_of_if; emits_step].
Qed.

End Fetching.

Section FetchingMain.

Context {B : Type} `{WebDriver B}.
Variable parse_qs : string -> gmap string (list string).
Variable config_file : res exn pyval.

(** X22: for the address and the credentials the fallback works.
    Every URL a run hands to [browser.get] is one of the three page
    templates, formatted with the router IP, the user name and the
    password as [getConfigValue] resolved them, from the command
    line, the query string or config.json. *)
Theorem urls_from_resolved_configuration (args : Namespace) (s : state B)
    (ip u p : pyval) (url : formatted) (r : res wd_exn unit) :
  getConfigValue parse_qs (os_environ s) config_file args
    "router_ip" (VBool false) = Ok ip ->
  getConfigValue parse_qs (os_environ s) config_file args
    "username" (VStr "admin") = Ok u ->
  getConfigValue parse_qs (os_environ s) config_file args
    "password" (VBool false) = Ok p ->
  In (EvGet url r) (evs (main parse_qs config_file args s)) ->
  format_args url = [ip; u; p]
  /\ In (template url)
       [NetgearAdmin.START_URL; NetgearAdmin.HOME_URL;
        NetgearAdmin.BLOCK_URL].
Proof.
  intros Hip Hu Hp Hin.
  destruct (main_stops_or_starts parse_qs config_file args s)
    as [[Ho Hpre] | (a & ip' & u' & p' & Ha & Hip' & Hu' & Hp' & Hta & Hti
                     & Htu & Htp)].
  - exfalso. cbv zeta in Hpre. rewrite forallb_forall in Hpre.
    apply Hpre in Hin. discriminate.
  - rewrite Hip in Hip'. rewrite Hu in Hu'. rewrite Hp in Hp'.
    injection Hip' as <-. injection Hu' as <-. injection Hp' as <-.
    destruct (main_started parse_qs config_file args s a ip u p
                Ha Hip Hu Hp Hta Hti Htu Htp) as [_ Hev].
    cbv zeta in Hev. rewrite Hev in Hin. clear Hev.
    rewrite in_app_iff in Hin. cbn [In] in Hin. rewrite in_app_iff in Hin.
    destruct Hin as [Hin | [Hin | [Hin | Hin]]].
    + exfalso. unfold verbose_prefix in Hin.
      destruct (verbose args >? 0)%Z; simpl in Hin; intuition discriminate.
    + discriminate.
    + apply run_fetches in Hin.
      destruct Hin as [-> | [-> | ->]]; cbn; auto.
    + exfalso. destruct (_ && _); simpl in Hin; intuition discriminate.
Qed.

End FetchingMain.

(** ** One browser *)

(** Counting over a log made of parts of known kinds. *)
Ltac count_known :=
  rewrite <- ?app_assoc, ?count_app;
  repeat match goal with
         | Hn : existsb ?P ?t = false |- context [count ?P ?t] =>
             rewrite (count_none P t Hn)
         end;
  cbn [count List.filter is_quit is_new length app].

(** Every [quit] comes after the window was sized: the log starts with
    parts without a [quit], the one of [get_browser] among them. *)
Ltac quit_guarded Rb Hgb :=
  apply guarded_preceded;
  repeat first
    [ rewrite guarded_app
    | progress cbn [guarded is_quit session_ready implb]
    | match goal with
      | Hn : existsb is_quit ?t = false
        |- context [guarded session_ready is_quit ?seen ?t] =>
          rewrite (guarded_none session_ready is_quit seen t Hn)
      end
    | rewrite (Rb Hgb)
    | progress rewrite ?orb_true_r, ?orb_false_r, ?andb_true_r
    | rewrite guarded_seen
    | progress cbn [orb andb] ];
  try reflexivity.

Section OneBrowser.

Context {B : Type} `{WebDriver B}.

Lemma get_browser_one_session (self : NetgearAdmin.t) (s : state B) :
  (count is_new (evs (NetgearAdmin.get_browser self s)) <= 1)%nat.
Proof.
  unfold NetgearAdmin.get_browser. exec.
  repeat match goal with
         | |- context [if ?c then _ else _] => destruct c; exec_cbn
         end;
    repeat split_call; cbn; lia.
Qed.

Variable parse_qs : string -> gmap string (list string).
Variable config_file : res exn pyval.

(** X23: a run holds one browser at most.  At most one webdriver is
    constructed; [quit] is called at most twice (X13: a second time
    only when the first call raised) and never before [get_browser]
    has returned, so never on a browser the object does not hold. *)
Theorem one_browser_per_run (args : Namespace) (s : state B) :
  let tr := evs (main parse_qs config_file args s) in
  (count is_new tr <= 1)%nat
  /\ (count is_quit tr <= 2)%nat
  /\ preceded session_ready is_quit tr.
Proof.
  cbv zeta.
  destruct (main_whole parse_qs config_file args s)
    as [e Ho Hpre
       | debug ip u p s0 pre cleanup tail script rb
           Hf Hpre Hcl Htail Hev Hpath Hout].
  { none_of is_new. none_of is_quit.
    rewrite !count_none by assumption.
    repeat split; try lia.
    now apply guarded_preceded, guarded_none. }
  unfold rb in *. clear rb.
  run_segments script s0.
  pose proof (get_browser_one_session script s0) as Hone.
  change (NetgearAdmin.get_browser script s0)
    with (at_browser script s0) in Hone.
  pose proof (get_browser_ready script s0) as Rb.
  change (is_ok (out (at_browser script s0)) = true ->
          existsb session_ready (evs (at_browser script s0)) = true) in Rb.
  assert (Hnew : existsb is_new cleanup = false
                 /\ existsb is_new tail = false).
  { split; (eapply forallb_none; [|eassumption]); kind_disjoint. }
  destruct Hnew as [Hnew_c Hnew_t].
  assert (Hq_t : existsb is_quit tail = false).
  { eapply forallb_none; [|exact Htail]. kind_disjoint. }
  assert (Hshort : cleanup = [] \/ exists q, cleanup = [EvQuit q]).
  { destruct (out (NetgearAdmin.run_body script s0)) as [[]|e].
    - left. apply Hout.
    - destruct Hout as [_ Hout]. destruct (_ && _).
      + destruct Hout as (q & -> & _). eauto.
      + left. apply Hout. }
  none_of is_new. none_of is_quit.
  rewrite Hev. clear Hev.
  change (pre ++ EvLog DEBUG "Getting page..."
          :: evs (NetgearAdmin.run_body script s0) ++ cleanup ++ tail)
    with (pre ++ [EvLog DEBUG "Getting page..."]
          ++ evs (NetgearAdmin.run_body script s0) ++ cleanup ++ tail).
  assert (Hcount_c : (count is_quit cleanup <= 1)%nat)
    by (destruct Hshort as [-> | (q & ->)]; cbn; lia).
  destruct Hpath as [Hgb Horb Hevb Hbr
                    | Hgb Hsp Horb Hevb Hbr
                    | q Hgb Hsp Hl Horb Hevb Hbr
                    | Hgb Hsp Hl Hact Horb Hevb Hbr
                    | q Hgb Hsp Hl Hact Horb Hevb Hbr];
    rewrite Hevb; clear Hevb.
  - (* get_browser raised: nothing is quit *)
    rewrite Horb, Hbr, Hf in Hout.
    destruct (out (at_browser script s0)) as [[]|e]; [discriminate|].
    rewrite andb_false_r in Hout. destruct Hout as (-> & -> & _).
    count_known. repeat split; try lia.
    apply guarded_preceded, guarded_none.
    rewrite ?existsb_app. cbn [existsb is_quit orb]. rewrite ?existsb_app.
    repeat match goal with
           | Hn : existsb is_quit _ = false |- _ => rewrite Hn; clear Hn
           end.
    reflexivity.
  - count_known. repeat split; try lia. quit_guarded Rb Hgb.
  - count_known. repeat split; try lia. quit_guarded Rb Hgb.
  - count_known. repeat split; try lia. quit_guarded Rb Hgb.
  - count_known. repeat split; try lia. quit_guarded Rb Hgb.
Qed.

End OneBrowser.

(** ** Runs on the scripted router *)

#[local] Existing Instance Mock.driver.

(** Router address, password and action on the command line, no [-u],
    no query string, no config.json. *)
Lemma default_username_needs_config_file_witness :
  let e := FileNotFoundError CONFIG_FILE in
  let r := Scenario.run_main Scenario.no_config Scenario.no_user_args Mock.router in
  getConfigValue PlainQuery.parse_qs ∅ (Raise e) Scenario.no_user_args
    "username" (VStr "admin") = Raise e
  /\ out r = Raise e
  /\ evs r = []
  /\ exit_status (out r) = 1.
Proof.
  intros e r.
  pose proof (@default_username_needs_config_file Mock.t Mock.driver
                PlainQuery.parse_qs e Scenario.no_user_args
                (Mock.start Mock.router) eq_refl eq_refl) as (Hg & Ho & He).
  split; [exact Hg | split; [exact Ho | split; [exact He | reflexivity]]].
Defined.

(** A router that shows the multi-login warning and then no logout
    button. *)
Lemma login_failure_is_fatal_witness :
  let r := Scenario.run_main Scenario.no_config Scenario.reboot_args Scenario.locked_out in
  existsb login_refused (evs r) = true
  /\ existsb is_critical (evs r) = true
  /\ exit_status (out r) <> 0
  /\ existsb action_step (evs r) = false.
Proof.
  split; [reflexivity|].
  pose proof (@login_failure_is_fatal Mock.t Mock.driver PlainQuery.parse_qs
                Scenario.no_config Scenario.reboot_args (Mock.start Scenario.locked_out) eq_refl)
    as (Hc & He & Ha & _).
  auto.
Defined.

(** Blocking on the scripted router: the second radio is the one. *)
Lemma block_services_clicks_witness :
  let r := NetgearAdmin.block_services Scenario.block_script true (Mock.start Mock.router) in
  cooperative (evs r) = true
  /\ exists apply radios rest,
       evs r = EvFind ByName "apply" (Ok apply)
               :: EvFindAll ByName "skeyword" (Ok radios) :: rest
       /\ match chosen true (probes (evs r)) with
          | Some radio =>
              In radio radios /\ clicks (evs r) = [radio; apply]
              /\ out r = Ok true
          | None =>
              fst <$> probes (evs r) = radios /\ clicks (evs r) = []
              /\ out r = Ok false
          end.
Proof.
  split; [reflexivity|].
  apply (@block_services_clicks Mock.t Mock.driver Scenario.block_script true
           (Mock.start Mock.router)).
  reflexivity.
Defined.

(** The action only in config.json: the lookup in [main] finds
    ['reboot'], the run ends well, and nothing was rebooted. *)
Lemma action_only_from_command_line_witness :
  let r := Scenario.run_main Scenario.reboot_config Scenario.no_action_args Mock.router in
  getConfigValue PlainQuery.parse_qs ∅ Scenario.reboot_config Scenario.no_action_args
    "action" (VBool false) = Ok (VStr "reboot")
  /\ out r = Ok tt
  /\ existsb action_step (evs r) = false.
Proof.
  split; [reflexivity|]. split; [reflexivity|].
  apply (@action_only_from_command_line Mock.t Mock.driver
           PlainQuery.parse_qs Scenario.reboot_config Scenario.no_action_args
           (Mock.start Mock.router)).
  reflexivity.
Defined.

(** A browser that stays on [about:blank]: [get] ends in the
    [NameError] of [error_screenshot]. *)
Lemma get_gives_up_without_RuntimeError_witness :
  let r := NetgearAdmin.get Scenario.block_script NetgearAdmin.START_URL
             (Mock.start Scenario.blank) in
  gave_up (evs r) = true
  /\ out r = Raise (NameError "codecs")
  /\ exists e, out r = Raise e /\ name_or_driver e = true.
Proof.
  split; [reflexivity|]. split; [reflexivity|].
  apply (@get_gives_up_without_RuntimeError Mock.t Mock.driver Scenario.block_script
           NetgearAdmin.START_URL (Mock.start Scenario.blank)).
  reflexivity.
Defined.

(** C5, as stated, fails on a browser that stays on [about:blank]:
    the navigation gives up and no critical record is logged. *)
Lemma navigation_failure_is_not_critical :
  let r := Scenario.run_main Scenario.no_config Scenario.reboot_args Scenario.blank in
  gave_up (evs r) = true
  /\ ~ (existsb is_critical (evs r) = true /\ exit_status (out r) <> 0).
Proof.
  split; [reflexivity|]. intros [Hc _]. vm_compute in Hc. discriminate.
Qed.

(** The same run, as C5 is amended. *)
Lemma navigation_failure_exits_nonzero_witness :
  let r := Scenario.run_main Scenario.no_config Scenario.reboot_args Scenario.blank in
  gave_up (evs r) = true
  /\ exit_status (out r) <> 0
  /\ existsb is_critical (evs r) = false
  /\ existsb is_warning (evs r) = true
  /\ existsb is_quit (evs r) = true
  /\ count is_warning (evs r) = count wait_failed (evs r)
  /\ (5 <= count is_warning (evs r))%nat.
Proof.
  split; [reflexivity|].
  apply (@navigation_failure_exits_nonzero Mock.t Mock.driver
           PlainQuery.parse_qs Scenario.no_config Scenario.reboot_args (Mock.start Scenario.blank)).
  reflexivity.
Defined.

(** Rebooting the scripted router. *)
Lemma reboot_clicks_and_accepts_witness :
  let r := Scenario.run_main Scenario.no_config Scenario.reboot_args Mock.router in
  out r = Ok tt
  /\ exists before button tail,
       evs r = before
               ++ [EvFind ById "reboot" (Ok button); EvClick button (Ok tt);
                   EvSleep 1; EvAlert (Ok tt); EvAccept (Ok tt);
                   EvQuit (Ok tt)]
               ++ tail
       /\ existsb login_confirmed before = true
       /\ existsb (fetched NetgearAdmin.HOME_URL) before = true
       /\ forallb is_print tail = true.
Proof.
  apply (@reboot_clicks_and_accepts Mock.t Mock.driver PlainQuery.parse_qs
           Scenario.no_config Scenario.reboot_args (Mock.start Mock.router)).
  - reflexivity.
  - vm_compute. tauto.
  - reflexivity.
  - reflexivity.
Defined.

(** Blocking on a router whose block page offers [never] and [always]
    only. *)
Lemma unmatched_radio_exits_zero_witness :
  let r := Scenario.run_main Scenario.no_config Scenario.block_args Scenario.no_schedule in
  out r = Ok tt
  /\ exit_status (out r) = 0
  /\ existsb is_error_log (evs r) = false
  /\ clicks (after (finds ByName "apply") (evs r)) = []
  /\ (exists radios,
        In (EvFindAll ByName "skeyword" (Ok radios)) (evs r)
        /\ fst <$> probes (evs r) = radios)
  /\ exists debug router_ip username password st before tail,
       let script :=
         script_of Scenario.block_args debug router_ip username password in
       let bs :=
         NetgearAdmin.block_services script
           (eq_str (of_opt (action Scenario.block_args)) ACTION_BLOCK) st in
       evs r = before ++ evs bs ++ EvQuit (Ok tt) :: tail
       /\ forallb is_print tail = true
       /\ out bs = Ok false.
Proof.
  apply (@unmatched_radio_exits_zero Mock.t Mock.driver PlainQuery.parse_qs
           Scenario.no_config Scenario.block_args (Mock.start Scenario.no_schedule)).
  - left. reflexivity.
  - vm_compute. tauto.
  - reflexivity.
  - reflexivity.
  - reflexivity.
Defined.

(** C7, as stated, fails when the window cannot be resized: the
    session was created, [get_browser] raises before [self.browser] is
    assigned, and the process exits without quitting it. *)
Lemma session_left_open :
  let r := Scenario.run_main Scenario.no_config Scenario.reboot_args Scenario.cramped in
  existsb session_created (evs r) = true
  /\ exit_status (out r) = 1
  /\ existsb is_quit (evs r) = false.
Proof. repeat split. Qed.

(** A whole reboot run. *)
Lemma steps_in_order_witness :
  let tr := evs (Scenario.run_main Scenario.no_config Scenario.reboot_args Mock.router) in
  existsb session_ready tr = true
  /\ preceded login_confirmed action_step tr
  /\ clicks_yes_until_login tr
  /\ exists before q rest,
       tr = before ++ EvQuit q :: rest
       /\ forallb (fun ev => is_quit ev || is_print ev) rest = true.
Proof.
  split; [reflexivity|].
  pose proof (@steps_in_order Mock.t Mock.driver PlainQuery.parse_qs
                Scenario.no_config Scenario.reboot_args (Mock.start Mock.router))
    as (_ & _ & _ & Hl & _ & Hy & Hq).
  split; [exact Hl | split; [exact Hy | apply Hq; reflexivity]].
Defined.

(** ** More runs *)

(** A browser whose connection is lost after a number of calls: every
    call before that succeeds. *)
Module Fragile.

Definition t : Type := nat.

Definition answer {A} (a : A) (left : t) : res wd_exn A * t :=
  match left with
  | O => (Raise (OtherWebDriverException "connection lost"), O)
  | S left' => (Ok a, left')
  end.

#[export] Instance driver : WebDriver t := {|
  new_session _ := answer tt;
  set_window_size _ _ := answer tt;
  navigate _ := answer tt;
  wait_url_not_blank _ := answer tt;
  wait_ready _ := answer tt;
  page_source := answer Mock.page;
  current_url := answer "http://192.168.1.1/";
  title := answer "NETGEAR Router";
  execute_script _ := answer Mock.page;
  get_screenshot_as_file _ := answer tt;
  find_element _ _ := answer 1%nat;
  find_elements _ _ := answer [10%nat; 11%nat];
  click _ := answer tt;
  get_attribute _ _ := answer (Some "perschedule");
  switch_to_alert := answer tt;
  alert_accept := answer tt;
  quit := answer tt
|}.

Definition start (left : t) : state t := State left ∅ false 1.

End Fragile.

Module Cases.

(** The URL stays blank for two waits. *)
Definition slow : Mock.t := {|
  Mock.blank_waits := 2; Mock.window_fails := false;
  Mock.multi_login := false; Mock.logged_in := true;
  Mock.radios := Mock.radios Mock.router; Mock.source := Mock.page
|}.

(** The router answers with an empty page. *)
Definition empty_page : Mock.t := {|
  Mock.blank_waits := 0; Mock.window_fails := false;
  Mock.multi_login := false; Mock.logged_in := true;
  Mock.radios := Mock.radios Mock.router; Mock.source := EmptyString
|}.

(** Somebody else is logged in; the warning can be dismissed. *)
Definition shared : Mock.t := {|
  Mock.blank_waits := 0; Mock.window_fails := false;
  Mock.multi_login := true; Mock.logged_in := true;
  Mock.radios := Mock.radios Mock.router; Mock.source := Mock.page
|}.

Definition firefox_script : NetgearAdmin.t := {|
  NetgearAdmin.ip := VStr "192.168.1.1";
  NetgearAdmin.username := VStr "admin";
  NetgearAdmin.password := VStr "secret";
  NetgearAdmin.action := VStr "reboot";
  NetgearAdmin.browser_name := "firefox";
  NetgearAdmin._screenshot := false
|}.

Definition safari_script : NetgearAdmin.t := {|
  NetgearAdmin.ip := VStr "192.168.1.1";
  NetgearAdmin.username := VStr "admin";
  NetgearAdmin.password := VStr "secret";
  NetgearAdmin.action := VStr "reboot";
  NetgearAdmin.browser_name := "safari";
  NetgearAdmin._screenshot := false
|}.

(** [-v -i 192.168.1.1 -u admin -p secret -a reboot] *)
Definition verbose_args : Namespace := {|
  verbose := 1; browser_name := "chrome-headless";
  router_ip := Some "192.168.1.1"; username := Some "admin";
  password := Some "secret"; action := Some "reboot"
|}.

(** config.json with the address of the router only. *)
Definition address_only : res exn pyval :=
  Ok (VDict (<["router_ip" := VStr "192.168.1.1"]> ∅)).

(** A display is already set. *)
Definition on_display : state Mock.t :=
  State Mock.router (<["DISPLAY" := "localhost:1"]> ∅) false 1.

End Cases.

#[local] Existing Instance Fragile.driver.

Lemma getConfigValue_unreadable_config_witness :
  getConfigValue PlainQuery.parse_qs ∅ Scenario.no_config bare_args
    "password" (VBool false)
  = Raise (FileNotFoundError CONFIG_FILE).
Proof.
  apply (getConfigValue_unreadable_config PlainQuery.parse_qs ∅
           (FileNotFoundError CONFIG_FILE) bare_args "password"
           (VBool false));
    reflexivity.
Defined.

Lemma getConfigValue_unknown_name_witness :
  getConfigValue PlainQuery.parse_qs ∅ (Ok (VDict ∅)) bare_args
    "port" (VInt 80)
  = Raise (UnboundLocalError "value").
Proof.
  apply (getConfigValue_unknown_name PlainQuery.parse_qs ∅ ∅ bare_args
           "port" (VInt 80));
    reflexivity.
Defined.

Lemma getConfigValue_scalar_config_witness :
  getConfigValue PlainQuery.parse_qs ∅ (Ok (VInt 5)) bare_args
    "password" (VBool false)
  = Raise (TypeError "argument is not iterable").
Proof.
  apply (getConfigValue_scalar_config PlainQuery.parse_qs ∅ (VInt 5)
           bare_args "password" (VBool false));
    reflexivity.
Defined.

Lemma getConfigValue_truthy_or_default_witness :
  let config_file := Ok (VDict (<["username" := VStr EmptyString]> ∅)) in
  getConfigValue PlainQuery.parse_qs ∅ config_file bare_args
    "username" (VStr "admin") = Ok (VStr "admin")
  /\ truthy (VStr "admin") = true.
Proof.
  intros config_file. split; [reflexivity|].
  apply (getConfigValue_truthy_or_default PlainQuery.parse_qs ∅ config_file
           bare_args "username" (VStr "admin") (VStr "admin"));
    reflexivity.
Defined.

Lemma get_returns_after_wait_witness :
  let r := NetgearAdmin.get Scenario.block_script NetgearAdmin.START_URL
             (Mock.start Cases.slow) in
  out r = Ok tt
  /\ count wait_failed (evs r) = 2%nat
  /\ count is_get (evs r) = S (count wait_failed (evs r))
  /\ count is_sleep (evs r) = count wait_failed (evs r).
Proof.
  split; [reflexivity|]. split; [reflexivity|].
  pose proof (@get_returns_after_wait Mock.t Mock.driver
                Scenario.block_script NetgearAdmin.START_URL
                (Mock.start Cases.slow) eq_refl)
    as (_ & Hg & Hs & _).
  split; assumption.
Defined.

Lemma get_navigation_error_ends_get_witness :
  let r := NetgearAdmin.get Scenario.block_script NetgearAdmin.START_URL
             (Fragile.start 0%nat) in
  let url := Format NetgearAdmin.START_URL
               [VStr "192.168.1.1"; VStr "admin"; VStr "secret"] in
  let lost := OtherWebDriverException "connection lost" in
  In (EvGet url (Raise lost)) (evs r)
  /\ count is_get (evs r) = 1%nat
  /\ out r = Raise (WebDriverException lost).
Proof.
  intros r url lost.
  assert (Hin : In (EvGet url (Raise lost)) (evs r))
    by (vm_compute; auto 10).
  split; [exact Hin|]. split; [reflexivity|].
  apply (@get_navigation_error_ends_get Fragile.t Fragile.driver
           Scenario.block_script NetgearAdmin.START_URL (Fragile.start 0%nat)
           url lost Hin).
Defined.

Lemma wait_for_page_load_bounded_witness :
  let r := @NetgearAdmin.wait_for_page_load Mock.t Mock.driver 20
             (Mock.start Mock.router) in
  let r' := @NetgearAdmin.wait_for_page_load Mock.t Mock.driver 20
              (Mock.start Cases.empty_page) in
  out r = Ok tt
  /\ (exists before src,
        evs r = before ++ [EvSource (Ok src)]
        /\ 30 <= Z.of_nat (String.length src))
  /\ count is_sleep (evs r') = 21%nat
  /\ count is_source (evs r') = 43%nat.
Proof.
  split; [reflexivity|]. split; [|split; reflexivity].
  apply (@wait_for_page_load_bounded Mock.t Mock.driver 20
           (Mock.start Mock.router)).
  reflexivity.
Defined.

Lemma reboot_stops_at_first_failure_witness :
  let r := @NetgearAdmin.reboot Fragile.t Fragile.driver (Fragile.start 3%nat) in
  let lost := OtherWebDriverException "connection lost" in
  exists button,
    evs r = [EvFind ById "reboot" (Ok button); EvClick button (Ok tt);
             EvSleep 1; EvAlert (Ok tt); EvAccept (Raise lost)].
Proof.
  intros r lost.
  destruct (@reboot_stops_at_first_failure Fragile.t Fragile.driver
              (Fragile.start 3%nat)) as (Haccept & _ & _).
  apply Haccept. vm_compute. auto 10.
Defined.

Lemma run_environment_witness :
  os_environ (post (@NetgearAdmin.run Mock.t Mock.driver Cases.firefox_script
                      (Mock.start Mock.router)))
  = <["DISPLAY" := ":0"]> ∅
  /\ os_environ (post (@NetgearAdmin.run Mock.t Mock.driver
                         Cases.firefox_script Cases.on_display))
     = <["DISPLAY" := "localhost:1"]> ∅.
Proof.
  split.
  - apply (@run_environment Mock.t Mock.driver Cases.firefox_script
             (Mock.start Mock.router)).
  - apply (@run_environment Mock.t Mock.driver Cases.firefox_script
             Cases.on_display) with (d := "localhost:1").
    reflexivity.
Defined.

Lemma run_unknown_browser_witness :
  exit_status (out (@NetgearAdmin.run Mock.t Mock.driver Cases.safari_script
                      (Mock.start Mock.router))) = 1
  /\ evs (@NetgearAdmin.run Mock.t Mock.driver Cases.safari_script
            (Mock.start Mock.router))
     = [EvLog DEBUG "Getting page..."].
Proof.
  destruct (@run_unknown_browser Mock.t Mock.driver Cases.safari_script
              (Mock.start Mock.router)) as (Ho & Hev & _).
  - vm_compute. intuition discriminate.
  - rewrite Ho. split; [reflexivity | exact Hev].
Defined.

Lemma main_returns_when_done_witness :
  let r := Scenario.run_main Scenario.no_config Scenario.reboot_args
             Mock.router in
  out r = Ok tt
  /\ existsb login_confirmed (evs r) = true
  /\ existsb quit_ok (evs r) = true
  /\ In (EvAccept (Ok tt)) (evs r).
Proof.
  split; [reflexivity|].
  destruct (@main_returns_when_done Mock.t Mock.driver PlainQuery.parse_qs
              Scenario.no_config Scenario.reboot_args
              (Mock.start Mock.router) eq_refl) as (Hl & Hq & Ha).
  split; [exact Hl | split; [exact Hq | apply Ha; reflexivity]].
Defined.

Lemma main_requires_config_witness :
  let r := Scenario.run_main Cases.address_only bare_args Mock.router in
  out r = Raise (SystemExit (ExitMsg MSG_REQUIRED))
  /\ evs r = [EvLog CRITICAL MSG_REQUIRED]
  /\ exit_status (out r) = 1.
Proof.
  apply (@main_requires_config Mock.t Mock.driver PlainQuery.parse_qs
           Cases.address_only bare_args (Mock.start Mock.router)
           (VBool false) (VStr "192.168.1.1") (VStr "admin") (VBool false));
    reflexivity.
Defined.

Lemma no_debug_screenshot_without_verbose_witness :
  forallb plain
    (evs (Scenario.run_main Scenario.no_config Scenario.reboot_args
            Cases.shared)) = true.
Proof.
  apply (@no_debug_screenshot_without_verbose Mock.t Mock.driver
           PlainQuery.parse_qs Scenario.no_config Scenario.reboot_args
           (Mock.start Cases.shared)).
  vm_compute. discriminate.
Defined.

Lemma debug_screenshots_numbered_witness :
  let tr := evs (Scenario.run_main Scenario.no_config Cases.verbose_args
                   Cases.shared) in
  shots tr = [1; 2; 3]
  /\ shots tr = numbers 1 (length (shots tr)).
Proof.
  split; [reflexivity|].
  apply (@debug_screenshots_numbered Mock.t Mock.driver PlainQuery.parse_qs
           Scenario.no_config Cases.verbose_args (Mock.start Cases.shared)).
  reflexivity.
Defined.

Lemma steps_of_the_action_only_witness :
  let tr := evs (Scenario.run_main Scenario.no_config Scenario.block_args
                   Mock.router) in
  existsb block_step tr = true
  /\ existsb reboot_step tr = false
  /\ (action Scenario.block_args = Some ACTION_BLOCK
      \/ action Scenario.block_args = Some ACTION_UNBLOCK).
Proof.
  split; [reflexivity|]. split; [reflexivity|].
  apply (@steps_of_the_action_only Mock.t Mock.driver PlainQuery.parse_qs
           Scenario.no_config Scenario.block_args (Mock.start Mock.router)).
  reflexivity.
Defined.

Lemma exit_status_0_or_1_witness :
  let r := Scenario.run_main Scenario.no_config Scenario.reboot_args
             Scenario.locked_out in
  (exit_status (out r) = 0 /\ out r = Ok tt)
  \/ (exit_status (out r) = 1 /\ is_ok (out r) = false).
Proof.
  apply (@exit_status_0_or_1 Mock.t Mock.driver PlainQuery.parse_qs
           Scenario.no_config).
  intros e Heq. injection Heq as <-. reflexivity.
Defined.

Lemma urls_from_resolved_configuration_witness :
  let tr := evs (Scenario.run_main Scenario.no_config Scenario.reboot_args
                   Mock.router) in
  let url := Format NetgearAdmin.HOME_URL
               [VStr "192.168.1.1"; VStr "admin"; VStr "secret"] in
  In (EvGet url (Ok tt)) tr
  /\ format_args url = [VStr "192.168.1.1"; VStr "admin"; VStr "secret"]
  /\ In (template url)
       [NetgearAdmin.START_URL; NetgearAdmin.HOME_URL;
        NetgearAdmin.BLOCK_URL].
Proof.
  intros tr url.
  assert (Hin : In (EvGet url (Ok tt)) tr) by (vm_compute; auto 30).
  split; [exact Hin|].
  apply (@urls_from_resolved_configuration Mock.t Mock.driver
           PlainQuery.parse_qs Scenario.no_config Scenario.reboot_args
           (Mock.start Mock.router) (VStr "192.168.1.1") (VStr "admin")
           (VStr "secret") url (Ok tt));
    [reflexivity | reflexivity | reflexivity | exact Hin].
Defined.
